(** * pcdaemon: link layer, packet router and driver packet handlers

    A shallow embedding of the parts of [daemon/core.c], [core.h] and of the
    [basys3] and [hostserial] drivers that carry the framing, CRC, routing
    and ack/lock bookkeeping of the daemon, together with the properties
    the specification states about them.

    Conventions.  A C [unsigned char] / [uint8_t] is a [Z] kept in
    [0, 256) by [uint8]; a [uint16_t] is a [Z] kept in [0, 65536) by
    [uint16]; a C [int] that only ever counts bytes of a buffer ([Slix],
    [dpix], [i]) is a [nat]; an [int] that carries a return code or a
    user supplied length is a [Z].  A C array is a [list Z]; calls into
    the rest of the daemon ([pclog], [del_timer], [send_ui], ...) are
    recorded as events, in program order. *)

From Stdlib Require Import String Ascii.
From Stdlib Require Import ZArith List Lia Bool.
Import ListNotations.
Open Scope Z_scope.

(* ================================================================= *)
(** ** Constants of [core.h] *)

Definition NUM_CORE : Z := 16.
Definition PC_PKTLEN : nat := 514.
Definition RXBUF_SZ : nat := 4000.
Definition PKT_DATA_SZ : nat := 510.

Definition PC_CMD_AUTO_DATA : Z := 0x00.
Definition PC_CMD_AUTO_MASK : Z := 0x80.
Definition PC_CMD_OP_NOP : Z := 0x00.
Definition PC_CMD_OP_READ : Z := 0x04.
Definition PC_CMD_OP_WRITE : Z := 0x08.
Definition PC_CMD_OP_WRRD : Z := 0x0C.
Definition PC_CMD_OP_MASK : Z := 0x0C.
Definition PC_CMD_AUTOINC : Z := 0x02.
Definition PC_CMD_NOAUTOINC : Z := 0x00.

Definition SLIP_END : Z := 192.
Definition SLIP_ESC : Z := 219.
Definition INPKT_END : Z := 220.
Definition INPKT_ESC : Z := 221.

(** [errno] value of Linux for "resource temporarily unavailable". *)
Definition EAGAIN : Z := 11.

(* ================================================================= *)
(** ** Fixed width integers and arrays *)

Definition uint8 (z : Z) : Z := Z.land z 0xFF.
Definition uint16 (z : Z) : Z := Z.land z 0xFFFF.

(** [(char) n] for a signed 8-bit [char]; for [n] in [0, 128) the result
    is [n] whatever the signedness of [char]. *)
Definition to_char (z : Z) : Z :=
  let u := uint8 z in if u <? 128 then u else u - 256.

Definition is_byte (z : Z) : Prop := 0 <= z < 256.

(** [buf[idx] = v].  A store one past the end of the list extends it, which
    is how a packet held in a larger C buffer receives its CRC trailer. *)
Definition store (buf : list Z) (idx : nat) (v : Z) : list Z :=
  firstn idx buf ++ v :: skipn (S idx) buf.

(** [memmove(buf, buf + from, n)]. *)
Definition memmove (buf : list Z) (from n : nat) : list Z :=
  firstn n (skipn from buf) ++ skipn n buf.

(** Bytes written by [read(fd, &buf[at], ...)]. *)
Definition blit (buf : list Z) (at_ : nat) (data : list Z) : list Z :=
  firstn at_ buf ++ data ++ skipn (at_ + length data) buf.

(* ================================================================= *)
(** ** [crc16()]: CRC-16/XMODEM *)

(** One turn of the [while (length--)] loop of [crc16]. *)
Definition crc16_step (crc : Z) (byte : Z) : Z :=
  let c := uint8 byte in
  let x := uint8 (Z.lxor (Z.shiftr crc 8) c) in
  let x := uint8 (Z.lxor x (Z.shiftr x 4)) in
  uint16 (Z.lxor (Z.lxor (Z.lxor (Z.shiftl crc 8) (Z.shiftl x 12))
                         (Z.shiftl x 5)) x).

Definition crc16 (pkt : list Z) (length : nat) : Z :=
  fold_left crc16_step (firstn length pkt) 0x0000.

(** The two trailer bytes [pctoslip] stores behind a packet. *)
Definition crc_hi (crc : Z) : Z := uint8 (Z.shiftr crc 8).
Definition crc_lo (crc : Z) : Z := uint8 (Z.land crc 0x00ff).

(* ================================================================= *)
(** ** [pctoslip()]: SLIP encoding *)

(** The body of the [for (dpix ...)] copy loop. *)
Fixpoint slip_stuff (pcpkt : list Z) : list Z :=
  match pcpkt with
  | [] => []
  | b :: rest =>
      if b =? SLIP_END then SLIP_ESC :: INPKT_END :: slip_stuff rest
      else if b =? SLIP_ESC then SLIP_ESC :: INPKT_ESC :: slip_stuff rest
      else b :: slip_stuff rest
  end.

(** Result of [pctoslip]: the input buffer, which the function extends by
    the CRC, and the encoded frame; the C return value is the length of the
    frame. *)
Record slip_out := {
  so_pcpkt : list Z;
  so_slppkt : list Z
}.

Definition pctoslip (pcpkt : list Z) (len : nat) : slip_out :=
  if (PC_PKTLEN <? len)%nat then
    {| so_pcpkt := pcpkt; so_slppkt := [] |}
  else
    let crc := crc16 pcpkt len in
    let pcpkt := store pcpkt len (crc_hi crc) in
    let pcpkt := store pcpkt (len + 1) (crc_lo crc) in
    {| so_pcpkt := pcpkt;
       so_slppkt := SLIP_END :: slip_stuff (firstn (len + 2) pcpkt)
                      ++ [SLIP_END] |}.

Definition pctoslip_ret (o : slip_out) : Z := Z.of_nat (length (so_slppkt o)).

(* ================================================================= *)
(** ** Log messages *)

Inductive log_msg : Type :=
| M_NOREAD
| M_BADSLIP
| M_BADPKT
| M_NOSO (core_id : Z)
| MsgSkipZero
| MsgSkipEmpty
| MsgInvalidLen (core_id len : Z)
| MsgSendErr (errno : Z)
| MsgHsrOverflow
| MsgHsrInvalid.

(* ================================================================= *)
(** ** [receivePkt()]: the SLIP decoder *)

Inductive slstate : Type :=
| SKIP_FIRST_ZEROES
| AWAITING_PKT
| IN_PACKET
| INESCAPE.

Definition slstate_eqb (a b : slstate) : bool :=
  match a, b with
  | SKIP_FIRST_ZEROES, SKIP_FIRST_ZEROES => true
  | AWAITING_PKT, AWAITING_PKT => true
  | IN_PACKET, IN_PACKET => true
  | INESCAPE, INESCAPE => true
  | _, _ => false
  end.

Inductive rx_event : Type :=
| RxDispatch (pcpkt : list Z)     (* dispatch_packet(pcpkt, dpix) *)
| RxLog (m : log_msg)
| RxExit.                          (* exit(-1) *)

(** The variables that outlive a call: the globals [Slrx], [Slix] and the
    function-static [s_slstate]. *)
Record rx_globals := {
  Slrx : list Z;
  Slix : nat;
  s_slstate : slstate
}.

(** The variables of the scan loop.  [sc_pcpkt] holds the first [dpix]
    bytes of the local array [pcpkt]; the bytes behind them are never
    read. *)
Record rx_scan := {
  sc_g : rx_globals;
  sc_i : nat;
  sc_pcpkt : list Z;
  sc_ev : list rx_event
}.

Inductive rx_ctl : Type :=
| RxNext (s : rx_scan)       (* fall to the [i++] of the for loop *)
| RxReturn (s : rx_scan).    (* [return] from inside the loop *)

Definition set_state (s : rx_scan) (st : slstate) : rx_scan :=
  {| sc_g := {| Slrx := Slrx (sc_g s); Slix := Slix (sc_g s);
                s_slstate := st |};
     sc_i := sc_i s; sc_pcpkt := sc_pcpkt s; sc_ev := sc_ev s |}.

Definition push_byte (s : rx_scan) (c : Z) : rx_scan :=
  {| sc_g := sc_g s; sc_i := sc_i s;
     sc_pcpkt := sc_pcpkt s ++ [c]; sc_ev := sc_ev s |}.

Definition emit (s : rx_scan) (e : rx_event) : rx_scan :=
  {| sc_g := sc_g s; sc_i := sc_i s;
     sc_pcpkt := sc_pcpkt s; sc_ev := sc_ev s ++ [e] |}.

(** [memmove] the tail down, set [Slix], go back to [IN_PACKET] with an
    empty packet and rescan from the start of the buffer. *)
Definition restart (s : rx_scan) (newix : nat) : rx_scan :=
  let g := sc_g s in
  {| sc_g := {| Slrx := memmove (Slrx g) (sc_i s) (Slix g - sc_i s);
                Slix := newix;
                s_slstate := IN_PACKET |};
     sc_i := 0%nat; sc_pcpkt := []; sc_ev := sc_ev s |}.

(** The body of [for (i = 0; i < Slix; i++)], one byte. *)
Definition rx_body (s : rx_scan) : rx_ctl :=
  let g := sc_g s in
  let st := s_slstate g in
  let c := nth (sc_i s) (Slrx g) 0 in
  if c =? SLIP_END then
    if slstate_eqb st IN_PACKET then
      let s1 := if (0 <? length (sc_pcpkt s))%nat
                then emit s (RxDispatch (sc_pcpkt s)) else s in
      if (sc_i s =? Slix g)%nat then
        RxReturn {| sc_g := {| Slrx := Slrx g; Slix := 0%nat;
                               s_slstate := st |};
                    sc_i := sc_i s1; sc_pcpkt := sc_pcpkt s1;
                    sc_ev := sc_ev s1 |}
      else RxNext (restart s1 (Slix g - sc_i s))
    else RxNext s
  else if c =? SLIP_ESC then
    if slstate_eqb st IN_PACKET then RxNext (set_state s INESCAPE)
    else RxNext (restart (emit s (RxLog M_BADSLIP)) (Slix g - sc_i s - 1))
  else if (c =? INPKT_END) && slstate_eqb st INESCAPE then
    RxNext (set_state (push_byte s SLIP_END) IN_PACKET)
  else if (c =? INPKT_ESC) && slstate_eqb st INESCAPE then
    RxNext (set_state (push_byte s SLIP_ESC) IN_PACKET)
  else if (c =? 0x00) && slstate_eqb st SKIP_FIRST_ZEROES then
    RxNext (set_state (emit s (RxLog MsgSkipZero)) SKIP_FIRST_ZEROES)
  else if negb (c =? 0x00) && slstate_eqb st SKIP_FIRST_ZEROES then
    if c =? SLIP_END then
      RxNext (set_state (emit s (RxLog MsgSkipEmpty)) IN_PACKET)
    else RxNext (set_state (push_byte s c) IN_PACKET)
  else RxNext (push_byte s c).

Definition rx_incr (s : rx_scan) : rx_scan :=
  {| sc_g := sc_g s; sc_i := S (sc_i s);
     sc_pcpkt := sc_pcpkt s; sc_ev := sc_ev s |}.

(** The for loop, with a bound on the number of turns; [None] when the
    bound is too small ([rx_loop_total] shows [Slix - i] turns suffice). *)
Fixpoint rx_loop (fuel : nat) (s : rx_scan) : option rx_scan :=
  if (sc_i s <? Slix (sc_g s))%nat then
    match fuel with
    | O => None
    | S fuel' =>
        match rx_body s with
        | RxReturn s' => Some s'
        | RxNext s' => rx_loop fuel' (rx_incr s')
        end
    end
  else Some s.

(** What [read()] handed back: [rdret > 0] bytes, end of file
    ([rdret == 0]) or [-1] with an [errno]. *)
Inductive read_result : Type :=
| RdBytes (data : list Z)
| RdError (errno : Z).

Record rx_result := {
  rx_g : rx_globals;
  rx_ev : list rx_event
}.

Definition receivePkt (g : rx_globals) (rd : read_result)
  : option rx_result :=
  match rd with
  | RdError errno =>
      if negb (errno =? EAGAIN)
      then Some {| rx_g := g; rx_ev := [RxLog M_NOREAD; RxExit] |}
      else Some {| rx_g := g; rx_ev := [] |}
  | RdBytes data =>
      (* read() stores at most RXBUF_SZ - Slix bytes *)
      let data := firstn (RXBUF_SZ - Slix g) data in
      match data with
      | [] => Some {| rx_g := g; rx_ev := [RxLog M_NOREAD; RxExit] |}
      | _ :: _ =>
          let g1 := {| Slrx := blit (Slrx g) (Slix g) data;
                       Slix := Slix g + length data;
                       s_slstate := s_slstate g |} in
          match rx_loop (Slix g1)
                  {| sc_g := g1; sc_i := 0%nat; sc_pcpkt := [];
                     sc_ev := [] |} with
          | Some s => Some {| rx_g := sc_g s; rx_ev := sc_ev s |}
          | None => None
          end
      end
  end.

(** Packets handed to [dispatch_packet], in order. *)
Definition dispatched (ev : list rx_event) : list (list Z) :=
  flat_map (fun e => match e with RxDispatch p => [p] | _ => [] end) ev.

(** Bytes the scan loop has not looked at yet. *)
Definition rx_left (s : rx_scan) : nat := (Slix (sc_g s) - sc_i s)%nat.

(** The loop variables spelled out. *)
Definition scan_at (buf : list Z) (slix : nat) (st : slstate) (i : nat)
    (pk : list Z) (ev : list rx_event) : rx_scan :=
  {| sc_g := {| Slrx := buf; Slix := slix; s_slstate := st |};
     sc_i := i; sc_pcpkt := pk; sc_ev := ev |}.

(** The decoder between two frames: in [IN_PACKET], with a buffer that is
    empty (as after start-up of the link) or holds just the [END] that
    closed the previous frame (as [receivePkt] leaves it). *)
Definition rx_idle (g : rx_globals) : Prop :=
  s_slstate g = IN_PACKET /\
  (Slix g = 0%nat \/ (Slix g = 1%nat /\ exists rest, Slrx g = SLIP_END :: rest)).

(** The decoder in [IN_PACKET] with nothing buffered. *)
Definition rx_start : rx_globals :=
  {| Slrx := []; Slix := 0%nat; s_slstate := IN_PACKET |}.

(** The decoder as the daemon starts it. *)
Definition rx_boot : rx_globals :=
  {| Slrx := []; Slix := 0%nat; s_slstate := SKIP_FIRST_ZEROES |}.

(** A sequence of reads, each handled by one call of [receivePkt]; the
    events of all calls in order. *)
Fixpoint receive_reads (g : rx_globals) (reads : list (list Z))
  : option (rx_globals * list rx_event) :=
  match reads with
  | [] => Some (g, [])
  | rd :: rest =>
      match receivePkt g (RdBytes rd) with
      | None => None
      | Some r =>
          match receive_reads (rx_g r) rest with
          | None => None
          | Some (g', ev) => Some (g', rx_ev r ++ ev)
          end
      end
  end.

(** An [ESC] followed by a byte that is neither 0xDC nor 0xDD. *)
Definition bad_escape_stream : list Z := [0xC0; 0x01; 0xDB; 0xFF; 0x02; 0xC0].

(** A well-formed frame: a write response of core 1 with its CRC. *)
Definition good_frame : list Z :=
  so_slppkt (pctoslip [0xF8; 0xE1; 0x00; 0x01; 0x05] 5).

(* ================================================================= *)
(** ** Packets and the core table *)

(** [PC_PKT] of [core.h]. *)
Record PC_PKT := {
  cmd : Z;
  core : Z;
  reg : Z;
  count : Z;
  data : list Z
}.

(** [(PC_PKT * ) inbuf]: the struct laid over a byte buffer. *)
Definition as_pkt (inbuf : list Z) : PC_PKT :=
  {| cmd := nth 0 inbuf 0; core := nth 1 inbuf 0; reg := nth 2 inbuf 0;
     count := nth 3 inbuf 0; data := skipn 4 inbuf |}.

(** [(unsigned char * ) inpkt]: the bytes of the struct. *)
Definition pkt_bytes (p : PC_PKT) : list Z :=
  cmd p :: core p :: reg p :: count p :: data p.

(** [CORE] of [core.h]; [pcb] is the address of the packet arrival
    callback, 0 when there is none. *)
Record CORE := {
  slot_id : Z;
  core_id : Z;
  driv_id : Z;
  pcb : Z
}.

(** The [Core] table as [globalinit()] of [main.c] leaves it. *)
Definition globalinit_Core : list CORE :=
  map (fun i => {| slot_id := -1; core_id := Z.of_nat i; driv_id := 0;
                   pcb := 0 |})
      (seq 0 (Z.to_nat NUM_CORE)).

(** [(pslot->pcore)->pcb = packet_hdlr] of a driver's [Initialize], for the
    core a slot points to. *)
Definition register_pcb (Core : list CORE) (idx : nat) (hdlr : Z)
  : list CORE :=
  match nth_error Core idx with
  | Some c => firstn idx Core
              ++ {| slot_id := slot_id c; core_id := core_id c;
                    driv_id := driv_id c; pcb := hdlr |}
              :: skipn (S idx) Core
  | None => Core
  end.

(* ================================================================= *)
(** ** [dispatch_packet()] *)

Inductive disp_event : Type :=
| DLog (m : log_msg)                                (* pclog *)
| DDump (good : bool) (bytes : list Z)              (* "<<" / "<X" trace *)
| DCall (cb : Z) (slot : Z) (ppkt : PC_PKT) (len : Z)  (* call of pcb *)
| DFault.                                   (* Core[] indexed out of range *)

(** The chain of sanity checks; the value is that of the local [bogus]. *)
Definition dispatch_bogus (inbuf : list Z) (len : Z) : Z :=
  let ppkt := as_pkt inbuf in
  let pktcore := Z.land (core ppkt) 0x0f in
  if len <? 6 then 1
  else if negb (crc16 inbuf (Z.to_nat len) =? 0) then 2
  else if Z.land (cmd ppkt) PC_CMD_OP_MASK =? 0 then 3
  else if pktcore >=? NUM_CORE then 4
  else if negb (Z.land (cmd ppkt) PC_CMD_OP_READ =? 0) then
    let requested_bytes := count ppkt in
    let returned_bytes := len - 7 in
    let remaining_bytes := nth (Z.to_nat (len - 3)) inbuf 0 in
    if negb (remaining_bytes =? requested_bytes - returned_bytes) then 5
    else 0
  else 0.

(** [trace] stands for [DebugMode && (Verbosity == PC_VERB_TRACE)]. *)
Definition dispatch_packet (Core : list CORE) (trace : bool)
    (inbuf : list Z) (len : Z) : list disp_event :=
  let ppkt := as_pkt inbuf in
  let pktcore := Z.land (core ppkt) 0x0f in
  let bogus := dispatch_bogus inbuf len in
  if negb (bogus =? 0) then
    DLog M_BADPKT
      :: (if trace then [DDump false (firstn (Z.to_nat len) inbuf)] else [])
  else
    (if trace then [DDump true (firstn (Z.to_nat len) inbuf)] else [])
    ++ match nth_error Core (Z.to_nat pktcore) with
       | None => [DFault]
       | Some c =>
           if negb (pcb c =? 0)
           then [DCall (pcb c) (slot_id c) ppkt (len - 2)]
           else [DLog (M_NOSO (core_id c))]
       end.

Definition is_call (e : disp_event) : bool :=
  match e with DCall _ _ _ _ => true | _ => false end.

(** A slot index is valid when it is inside the [Slots] table. *)
Definition valid_slot (MX_SLOT : Z) (s : Z) : Prop := 0 <= s < MX_SLOT.

(* ================================================================= *)
(** ** [pc_tx_pkt()] *)

(** What [write(fpgaFD, sltx, txcount)] returned, and [errno] behind it. *)
Record write_result := {
  sntcount : Z;
  wr_errno : Z
}.

Inductive tx_event : Type :=
| TxLog (m : log_msg)
| TxDump (bytes : list Z)          (* ">>" trace *)
| TxWrite (bytes : list Z).        (* write(fpgaFD, sltx, txcount) *)

(** Return value, the caller's packet as the call leaves it, and what the
    call did. *)
Record tx_result := {
  tx_ret : Z;
  tx_inpkt : PC_PKT;
  tx_ev : list tx_event
}.

(** The serial port as [pc_tx_pkt] sees it: the descriptor, the trace
    switch [DebugMode && (Verbosity == PC_VERB_TRACE)] and the behaviour of
    [write] on the frame handed to it. *)
Record link := {
  fpgaFD : Z;
  trace : bool;
  sys_write : list Z -> write_result
}.

(** The frame [pctoslip] builds fits the array [sltx] of [pc_tx_pkt], which
    has [PC_PKTLEN] bytes. *)
Definition sltx_fits (pcpkt : list Z) (len : nat) : Prop :=
  (length (so_slppkt (pctoslip pcpkt len)) <= PC_PKTLEN)%nat.

(** The frame is a list here; the C array [sltx] it is built in has
    [PC_PKTLEN] bytes, and [pctoslip] writes behind it when the frame is
    longer (which no packet of up to 254 bytes, and every packet of 511
    bytes or more, makes it).  The definition stands for the code where
    the frame fits; the theorems on the frame written state [sltx_fits] or
    a bound on [len] that gives it. *)
Definition pc_tx_pkt (lk : link) (pcore : CORE) (inpkt : PC_PKT) (len : Z)
  : tx_result :=
  if len <? 4 then
    {| tx_ret := -1; tx_inpkt := inpkt;
       tx_ev := [TxLog (MsgInvalidLen (core_id pcore) len)] |}
  else
    let inpkt := {| cmd := uint8 (Z.lor (cmd inpkt) 0xf0);
                    core := uint8 (Z.lor (core inpkt) 0xe0);
                    reg := reg inpkt; count := count inpkt;
                    data := data inpkt |} in
    if fpgaFD lk =? -1 then
      {| tx_ret := -1; tx_inpkt := inpkt; tx_ev := [] |}
    else
      let o := pctoslip (pkt_bytes inpkt) (Z.to_nat len) in
      let sltx := so_slppkt o in
      let txcount := pctoslip_ret o in
      let dump := if trace lk then [TxDump sltx] else [] in
      let w := sys_write lk sltx in
      let sent := sntcount w in
      if negb (sent =? txcount) then
        {| tx_ret := sent; tx_inpkt := as_pkt (so_pcpkt o);
           tx_ev := dump ++ [TxWrite sltx]
                    ++ (if (sent =? -1) && negb (wr_errno w =? EAGAIN)
                        then [TxLog (MsgSendErr (wr_errno w))] else []) |}
      else
        {| tx_ret := 0; tx_inpkt := as_pkt (so_pcpkt o);
           tx_ev := dump ++ [TxWrite sltx] |}.

(** Frames [pc_tx_pkt] handed to [write]. *)
Definition written (ev : list tx_event) : list (list Z) :=
  flat_map (fun e => match e with TxWrite f => [f] | _ => [] end) ev.


(* ================================================================= *)
(** ** What the drivers use of the daemon *)

(** [RSC]: the fields the drivers below touch. *)
Record RSC := {
  rsc_name : string;
  bkey : Z;
  uilock : Z
}.

Definition set_uilock (r : RSC) (v : Z) : RSC :=
  {| rsc_name := rsc_name r; bkey := bkey r; uilock := v |}.

Definition set_bkey (r : RSC) (v : Z) : RSC :=
  {| rsc_name := rsc_name r; bkey := v; uilock := uilock r |}.

Definition no_rsc : RSC :=
  {| rsc_name := EmptyString; bkey := 0; uilock := 0 |}.

(** [rsc[idx] = r]. *)
Definition set_rsc (rsc : list RSC) (idx : nat) (r : RSC) : list RSC :=
  firstn idx rsc ++ r :: skipn (S idx) rsc.

(** [SLOT], as a driver sees its own: [priv] with the type the driver
    casts it to, the resources, and the core [pcore] points to. *)
Record SLOT (Priv : Type) := {
  priv : Priv;
  rsc : list RSC;
  pcore : CORE
}.

Arguments priv {Priv} _.
Arguments rsc {Priv} _.
Arguments pcore {Priv} _.

Definition set_priv {Priv : Type} (s : SLOT Priv) (p : Priv) : SLOT Priv :=
  {| priv := p; rsc := rsc s; pcore := pcore s |}.

Definition set_slot_rsc {Priv : Type} (s : SLOT Priv) (idx : nat) (r : RSC)
  : SLOT Priv :=
  {| priv := priv s; rsc := set_rsc (rsc s) idx r; pcore := pcore s |}.

Inductive drv_event : Type :=
| EvDelTimer (handle : Z)                        (* del_timer(handle) *)
| EvAddTimer (ms : Z) (handle : Z)    (* add_timer(PC_ONESHOT, ms, noAck, pctx) *)
| EvSendUi (buf : string) (len : Z) (cn : Z)     (* send_ui(buf, len, cn) *)
| EvPrompt (cn : Z)                              (* prompt(cn) *)
| EvBcstUi (buf : string) (len : Z) (key : Z)    (* bcst_ui(buf, len, &bkey) *)
| EvTx (r : tx_result)                           (* pc_tx_pkt(...) *)
| EvLog (m : log_msg).                           (* pclog *)

(** The daemon around a driver: the link, the handle the next [add_timer]
    returns, and the value [bcst_ui] leaves in the broadcast key (the key
    itself, or 0 when no session listens). *)
Record daemon := {
  dm_link : link;
  dm_timer : Z;
  dm_bcst : Z -> Z
}.

(** [E_WRFPGA] of [core.h]. *)
Definition E_WRFPGA : string :=
  String.append
    "ERROR 100 : Error writing to the FPGA card. Is link overloaded?"
    (String "010" EmptyString).

(** [snprintf(buf, size, s)] for a text without conversions and a [size]
    of 1 or more: the text cut to the buffer, and the length of the whole
    text as return value.  With a [size] of 0 the C function writes
    nothing and leaves [buf] as it was; the theorems that go through this
    definition state [1 <= size] (or a larger bound). *)
Definition snprintf_text (size : Z) (s : string) : string * Z :=
  (substring 0 (Z.to_nat (size - 1)) s, Z.of_nat (String.length s)).

(** Lower case hex digit of a value below 16. *)
Definition hex_digit (n : Z) : ascii :=
  nth (Z.to_nat n) (list_ascii_of_string "0123456789abcdef") "0"%char.

(** [%0nx] for a value below [16^n]. *)
Fixpoint hex (n : nat) (v : Z) : string :=
  match n with
  | O => EmptyString
  | S k => String.append (hex k (v / 16))
             (String (hex_digit (v mod 16)) EmptyString)
  end.

Definition newline : string := String "010" EmptyString.

(** The two commands of the control plane. *)
Inductive ui_cmd : Type := PCGET | PCSET.

Definition ui_cmd_eqb (a b : ui_cmd) : bool :=
  match a, b with
  | PCGET, PCGET | PCSET, PCSET => true
  | _, _ => false
  end.

(** [pkt->data[i]]. *)
Definition data_at (pkt : PC_PKT) (i : nat) : Z := nth i (data pkt) 0.

(** The test the drivers use for "a read response from a user pcget":
    [(pkt->cmd & PC_CMD_AUTO_MASK) != PC_CMD_AUTO_DATA]. *)
Definition is_response (pkt : PC_PKT) : bool :=
  negb (Z.land (cmd pkt) PC_CMD_AUTO_MASK =? PC_CMD_AUTO_DATA).

(* ================================================================= *)
(** ** The [basys3] driver *)

Module Basys3.

Definition BASYS_REG_SWITCHES : Z := 0x00.
Definition BASYS_REG_DISPLAY : Z := 0x04.
Definition BASYS_REG_DRIVLIST : Z := 0x40.
Definition RSC_DRIVLIST : nat := 0.
Definition RSC_SWITCHES : nat := 1.
Definition RSC_SEGMENTS : nat := 2.
Definition RSC_DISPLAY : nat := 3.

Record BASYSDEV := {
  lastswitch : Z;
  text : string;
  segs : list Z;
  ptimer : Z;
  drivlist : list Z
}.

Definition set_ptimer (c : BASYSDEV) (t : Z) : BASYSDEV :=
  {| lastswitch := lastswitch c; text := text c; segs := segs c;
     ptimer := t; drivlist := drivlist c |}.

Definition set_drivlist (c : BASYSDEV) (l : list Z) : BASYSDEV :=
  {| lastswitch := lastswitch c; text := text c; segs := segs c;
     ptimer := ptimer c; drivlist := l |}.

Definition set_lastswitch (c : BASYSDEV) (v : Z) : BASYSDEV :=
  {| lastswitch := v; text := text c; segs := segs c;
     ptimer := ptimer c; drivlist := drivlist c |}.

Definition packet_hdlr (dm : daemon) (pslot : SLOT BASYSDEV)
    (pkt : PC_PKT) (len : Z) : SLOT BASYSDEV * list drv_event :=
  let pctx := priv pslot in
  (* Clear the timer on write response packets *)
  if Z.land (cmd pkt) PC_CMD_OP_MASK =? PC_CMD_OP_WRITE then
    if negb (ptimer pctx =? 0) then
      (set_priv pslot (set_ptimer pctx 0), [EvDelTimer (ptimer pctx)])
    else (pslot, [])
  else
    (* copy drivlist read results to drivlist table *)
    let '(pctx, ev) :=
      if is_response pkt && (reg pkt =? BASYS_REG_DRIVLIST)
         && (count pkt =? 2 * NUM_CORE)
      then
        (set_ptimer
           (set_drivlist pctx
              (map (fun i => Z.shiftl (data_at pkt (2 * i)) 8
                             + data_at pkt (2 * i + 1))
                   (seq 0 (Z.to_nat NUM_CORE))))
           0,
         [EvDelTimer (ptimer pctx)])
      else (pctx, []) in
    (* if not the peripheral list, must be the switches *)
    let prsc := nth RSC_SWITCHES (rsc pslot) no_rsc in
    if is_response pkt && (reg pkt =? BASYS_REG_SWITCHES)
       && (count pkt =? 3)
    then
      let swval := String.append (hex 2 (data_at pkt 2))
                     (String.append (hex 2 (data_at pkt 1))
                        (String.append (hex 2 (data_at pkt 0)) newline)) in
      let swvallen := Z.of_nat (String.length swval) in
      (set_slot_rsc (set_priv pslot (set_ptimer pctx 0)) RSC_SWITCHES
         (set_uilock prsc (-1)),
       ev ++ [EvSendUi swval swvallen (uilock prsc);
              EvPrompt (uilock prsc);
              EvDelTimer (ptimer pctx)])
    else if negb (bkey prsc =? 0) then
      let newswitch := (Z.shiftl (data_at pkt 2) 16
                        + Z.shiftl (data_at pkt 1) 8
                        + data_at pkt 0) mod 2 ^ 32 in
      if negb (newswitch =? lastswitch pctx) then
        let swval := String.append (hex 6 newswitch) newline in
        let swvallen := Z.of_nat (String.length swval) in
        (set_slot_rsc (set_priv pslot (set_lastswitch pctx newswitch))
           RSC_SWITCHES (set_bkey prsc (dm_bcst dm (bkey prsc))),
         ev ++ [EvBcstUi swval swvallen (bkey prsc)])
      else (set_priv pslot (set_lastswitch pctx newswitch), ev)
    else (set_priv pslot pctx, ev).

(** The branches of the [if ... else if] chain of [usercmd]. *)
Inductive usercmd_branch : Type :=
| UcSetDisplay
| UcGetDisplay
| UcSetSegments
| UcGetSegments
| UcGetSwitches
| UcGetDrivlist
| UcNothing.

Definition usercmd_select (cmd : ui_cmd) (rscid : nat) : usercmd_branch :=
  if ui_cmd_eqb cmd PCSET && (rscid =? RSC_DISPLAY)%nat then UcSetDisplay
  else if ui_cmd_eqb cmd PCGET && (rscid =? RSC_DISPLAY)%nat then UcGetDisplay
  else if ui_cmd_eqb cmd PCSET && (rscid =? RSC_SEGMENTS)%nat
       then UcSetSegments
  else if ui_cmd_eqb cmd PCGET && (rscid =? RSC_SEGMENTS)%nat
       then UcGetSegments
  else if ui_cmd_eqb cmd PCGET && (rscid =? RSC_SWITCHES)%nat
       then UcGetSwitches
  else if ui_cmd_eqb cmd PCGET && (rscid =? RSC_DRIVLIST)%nat
       then UcGetDrivlist
  else UcNothing.

(** What a get/set callback leaves behind: the slot, [*plen], the text put
    in [buf] ([None] when [buf] is not written), and the calls made. *)
Record usercmd_result := {
  uc_slot : SLOT BASYSDEV;
  uc_plen : Z;
  uc_buf : option string;
  uc_ev : list drv_event
}.

(** The read packet [usercmd] builds for the switches.  [pkt] is a local
    of the C function whose [data] is not initialised; the two bytes that
    receive the CRC are shown as 0. *)
Definition switches_request (pmycore : CORE) : PC_PKT :=
  {| cmd := Z.lor PC_CMD_OP_READ PC_CMD_AUTOINC;
     core := uint8 (core_id pmycore);
     reg := BASYS_REG_SWITCHES; count := 3; data := [0; 0] |}.

(** The branch [(cmd == PCGET) && (rscid == RSC_SWITCHES)] of [usercmd],
    for the session [cn] and a buffer of [plen] bytes. *)
Definition usercmd_get_switches (dm : daemon) (pslot : SLOT BASYSDEV)
    (cn : Z) (plen : Z) : usercmd_result :=
  let pctx := priv pslot in
  let pmycore := pcore pslot in
  let pkt := switches_request pmycore in
  (* send the packet.  Report any errors *)
  let tx := pc_tx_pkt (dm_link dm) pmycore pkt 4 in
  let txret := tx_ret tx in
  if negb (txret =? 0) then
    let '(buf, ret) := snprintf_text plen E_WRFPGA in
    {| uc_slot := pslot; uc_plen := ret; uc_buf := Some buf;
       uc_ev := [EvTx tx] |}
  else
    (* Start timer to look for a read response *)
    let '(pctx, tev) :=
      if ptimer pctx =? 0
      then (set_ptimer pctx (dm_timer dm), [EvAddTimer 100 (dm_timer dm)])
      else (pctx, []) in
    (* lock this resource to the UI session cn *)
    let prsc := nth RSC_SWITCHES (rsc pslot) no_rsc in
    {| uc_slot := set_slot_rsc (set_priv pslot pctx) RSC_SWITCHES
                    (set_uilock prsc (to_char cn));
       uc_plen := 0; uc_buf := None;
       uc_ev := EvTx tx :: tev |}.

End Basys3.

(* ================================================================= *)
(** ** The [hostserial] driver *)

Module Hostserial.

Definition HSR_REG_CONFIG : Z := 0x00.

Record HSRDEV := {
  ptimer : Z;
  baud : Z;
  enabled : Z
}.

Definition set_ptimer (c : HSRDEV) (t : Z) : HSRDEV :=
  {| ptimer := t; baud := baud c; enabled := enabled c |}.

Definition packet_hdlr (pslot : SLOT HSRDEV) (pkt : PC_PKT) (len : Z)
  : SLOT HSRDEV * list drv_event :=
  let pctx := priv pslot in
  (* Clear the timer on a write response packet *)
  if Z.land (cmd pkt) PC_CMD_OP_MASK =? PC_CMD_OP_WRITE then
    if negb (ptimer pctx =? 0) then
      (set_priv pslot (set_ptimer pctx 0), [EvDelTimer (ptimer pctx)])
    else (pslot, [])
  (* Should be an autosend buffer overflow message *)
  else if (Z.land (cmd pkt) PC_CMD_OP_MASK =? PC_CMD_OP_READ)
          && (reg pkt =? HSR_REG_CONFIG) && (count pkt =? 1)
  then (pslot, [EvLog MsgHsrOverflow])
  else (pslot, [EvLog MsgHsrInvalid]).

End Hostserial.

(* ================================================================= *)
(** ** Sample states used by the examples *)

(** [Core[i].slot_id = slot] of the enumerator's packet handler. *)
Definition assign_slot (Core : list CORE) (idx : nat) (slot : Z)
  : list CORE :=
  match nth_error Core idx with
  | Some c => firstn idx Core
              ++ {| slot_id := slot; core_id := core_id c;
                    driv_id := driv_id c; pcb := pcb c |}
              :: skipn (S idx) Core
  | None => Core
  end.

(** Core 1 enumerated into slot 1, with a driver callback at 0x1000. *)
Definition sample_Core : list CORE :=
  register_pcb (assign_slot globalinit_Core 1 1) 1 0x1000.

Definition core1 : CORE :=
  {| slot_id := 1; core_id := 1; driv_id := 0; pcb := 0x1000 |}.

(** An open port on which [write] takes the whole frame. *)
Definition link_ok : link :=
  {| fpgaFD := 3; trace := false;
     sys_write := fun f => {| sntcount := Z.of_nat (length f);
                              wr_errno := 0 |} |}.

(** An open port on which [write] takes three bytes only. *)
Definition link_partial : link :=
  {| fpgaFD := 3; trace := false;
     sys_write := fun _ => {| sntcount := 3; wr_errno := 0 |} |}.

(** An open port on which [write] fails with the given [errno]. *)
Definition link_failing (errno : Z) : link :=
  {| fpgaFD := 3; trace := false;
     sys_write := fun _ => {| sntcount := -1; wr_errno := errno |} |}.

(** No port. *)
Definition link_closed : link :=
  {| fpgaFD := -1; trace := false;
     sys_write := fun _ => {| sntcount := -1; wr_errno := 9 |} |}.

Definition daemon_on (lk : link) : daemon :=
  {| dm_link := lk; dm_timer := 77; dm_bcst := fun k => k |}.

(** A one byte write to register 0 of core 1. *)
Definition sample_write : PC_PKT :=
  {| cmd := Z.lor PC_CMD_OP_WRITE PC_CMD_NOAUTOINC; core := 1; reg := 0;
     count := 1; data := [5; 0; 0] |}.

(** The resources of a [basys3] slot after [Initialize]. *)
Definition basys3_rsc : list RSC :=
  [ {| rsc_name := "drivlist"; bkey := 0; uilock := -1 |};
    {| rsc_name := "switches"; bkey := 0; uilock := -1 |};
    {| rsc_name := "segments"; bkey := 0; uilock := -1 |};
    {| rsc_name := "display"; bkey := 0; uilock := -1 |} ].

Definition core0 : CORE :=
  {| slot_id := 0; core_id := 0; driv_id := 0; pcb := 0x1000 |}.

(** A [basys3] slot on core 0 with watchdog handle [timer] and the
    switches locked to session [cn]. *)
Definition basys3_waiting (cn timer : Z) : SLOT Basys3.BASYSDEV :=
  {| priv := {| Basys3.lastswitch := 0; Basys3.text := EmptyString;
                Basys3.segs := [0; 0; 0; 0]; Basys3.ptimer := timer;
                Basys3.drivlist := [] |};
     rsc := set_rsc basys3_rsc Basys3.RSC_SWITCHES
              (set_uilock (nth Basys3.RSC_SWITCHES basys3_rsc no_rsc) cn);
     pcore := core0 |}.

(** A [basys3] slot on core 0 with nothing pending. *)
Definition basys3_quiet : SLOT Basys3.BASYSDEV :=
  {| priv := {| Basys3.lastswitch := 0; Basys3.text := EmptyString;
                Basys3.segs := [0; 0; 0; 0]; Basys3.ptimer := 0;
                Basys3.drivlist := [] |};
     rsc := basys3_rsc;
     pcore := core0 |}.

(** A [hostserial] slot on core 2 with watchdog handle [timer]. *)
Definition hostserial_waiting (timer : Z) : SLOT Hostserial.HSRDEV :=
  {| priv := {| Hostserial.ptimer := timer; Hostserial.baud := 3;
                Hostserial.enabled := 1 |};
     rsc := [ {| rsc_name := "config"; bkey := 0;
                 uilock := -1 |} ];
     pcore := {| slot_id := 2; core_id := 2; driv_id := 0; pcb := 0x2000 |} |}.

(** A response to a read of the three switch registers. *)
Definition switches_reply (d0 d1 d2 : Z) : PC_PKT :=
  {| cmd := 0xF6; core := 0xE0; reg := Basys3.BASYS_REG_SWITCHES; count := 3;
     data := [d0; d1; d2; 0] |}.

(** The text of the specification's example, [aa bbcc] and a newline, for
    the switch bytes ab, 12, 34. *)
Definition spec_switch_text : string := String.append "ab 1234" newline.

(* ================================================================= *)
(** ** Streams of packets on the wire *)

(** A packet as it travels between two [END]s: stuffed, and closed by the
    [END] that also opens the next one. *)
Definition slip_segment (body : list Z) : list Z :=
  slip_stuff body ++ [SLIP_END].

(** [END], then each packet with its closing [END]. *)
Definition slip_stream (bodies : list (list Z)) : list Z :=
  SLIP_END :: concat (map slip_segment bodies).

Definition nonempty (l : list Z) : bool :=
  match l with [] => false | _ :: _ => true end.

(** What holds at the head of the scan loop of [receivePkt] when the
    buffer has room for [bound] bytes: [dpix <= i], [Slix <= bound], and
    every packet dispatched so far is non-empty and shorter than
    [bound]. *)
Definition rx_inv (bound : nat) (s : rx_scan) : Prop :=
  (length (sc_pcpkt s) <= sc_i s)%nat /\
  (Slix (sc_g s) <= bound)%nat /\
  forall p, In (RxDispatch p) (sc_ev s) -> (0 < length p < bound)%nat.

(** A buffer holding a packet of 5 bytes, both sentinels among them, with
    room for the CRC. *)
Definition sample_buf : list Z := [0xF8; 0xE1; 0xC0; 0xDB; 0x05; 0; 0].

(** A byte the decoder passes over while it waits for the first packet
    after start-up: a zero (logged) or an [END]. *)
Definition skipped (c : Z) : bool := (c =? 0x00) || (c =? SLIP_END).

(** One "skipping zero byte" log per zero. *)
Definition zero_logs (pre : list Z) : list rx_event :=
  map (fun _ => RxLog MsgSkipZero) (filter (fun c => c =? 0x00) pre).


(** The scan loop as [receivePkt] enters it. *)
Definition rx_result_of (s : rx_scan) : rx_result :=
  {| rx_g := sc_g s; rx_ev := sc_ev s |}.

(** The events the scan loop can produce. *)
Definition loop_event (e : rx_event) : Prop :=
  match e with
  | RxDispatch _ | RxLog M_BADSLIP | RxLog MsgSkipZero => True
  | _ => False
  end.

(** The packet [pc_tx_pkt] works on once it has or-ed the two bytes. *)
Definition tx_marked (inpkt : PC_PKT) : PC_PKT :=
  {| cmd := uint8 (Z.lor (cmd inpkt) 0xf0);
     core := uint8 (Z.lor (core inpkt) 0xe0);
     reg := reg inpkt; count := count inpkt; data := data inpkt |}.

(* ================================================================= *)
(** ** Texts and timers shared by the drivers *)

Infix "+++" := String.append (right associativity, at level 60).

(** [E_NOACK] of [core.h]. *)
Definition E_NOACK : string :=
  "ERROR 101 : Missing ACK from the FPGA card. Is link overloaded?"
    +++ newline.

(** What a timer callback does. *)
Inductive timer_event : Type :=
| TmLog (text : string).                         (* pclog(text) *)

(** [buf[idx] = c] in a text that has a character at [idx]. *)
Definition set_char (buf : string) (idx : nat) (c : ascii) : string :=
  substring 0 idx buf
    +++ String c (substring (S idx) (String.length buf - S idx) buf).

(** [snprintf(&buf[at], size, s)] for a text without conversions, on a
    buffer that holds a text of at least [at] characters: the text of
    [buf] afterwards and the return value. *)
Definition snprintf_at (buf : string) (at_ : Z) (size : Z) (s : string)
  : string * Z :=
  let '(piece, ret) := snprintf_text size s in
  (substring 0 (Z.to_nat at_) buf +++ piece, ret).

(** The loop that prints the sixteen driver identifiers, ["%04x "] each
    (for identifiers below 0x10000, which print as four digits). *)
Fixpoint print_ids (ids : list Z) (plen : Z) (buf : string) (ret : Z)
  : string * Z :=
  match ids with
  | [] => (buf, ret)
  | id :: rest =>
      let '(buf, n) := snprintf_at buf ret (plen - ret) (hex 4 id +++ " ") in
      print_ids rest plen buf (ret + n)
  end.

(** The [PCGET] of a driver list: nothing when the buffer has fewer than
    [5 * NUM_CORE + 10] bytes, else the sixteen identifiers with the last
    blank replaced by a newline.  The result is [*plen] and the text in
    [buf] ([None] when [buf] is not written). *)
Definition get_drivlist (ids : list Z) (plen : Z) : Z * option string :=
  if plen <? 5 * NUM_CORE + 10 then (0, None)
  else
    let '(buf, ret) :=
      print_ids (map (fun i => nth i ids 0) (seq 0 16)) plen EmptyString 0 in
    (ret, Some (set_char buf (Z.to_nat (ret - 1)) "010"%char)).

(* ================================================================= *)
(** ** The [basys3] driver: display, segments and driver list *)

Module Basys3Cmd.

Import Basys3.

Definition NDIGITS : nat := 4.

(** The table [symbols]: segments MSB -> pgfedcba <- LSB. *)
Definition symbols : list (ascii * Z) :=
  [ ("0"%char, 0x3f); ("1"%char, 0x06); ("2"%char, 0x5b); ("3"%char, 0x4f);
    ("4"%char, 0x66); ("5"%char, 0x6d); ("6"%char, 0x7d); ("7"%char, 0x07);
    ("8"%char, 0x7f); ("9"%char, 0x67); ("a"%char, 0x77); ("b"%char, 0x7c);
    ("c"%char, 0x39); ("d"%char, 0x5e); ("e"%char, 0x79); ("f"%char, 0x71);
    ("A"%char, 0x77); ("B"%char, 0x7c); ("C"%char, 0x39); ("D"%char, 0x5e);
    ("E"%char, 0x79); ("F"%char, 0x71); ("o"%char, 0x5c); ("L"%char, 0x38);
    ("r"%char, 0x50); ("h"%char, 0x74); ("H"%char, 0x76); ("-"%char, 0x40);
    (" "%char, 0x00); ("_"%char, 0x08); ("u"%char, 0x1c); ("."%char, 0x00) ].

(** [text[k]] of the array [pctx->text], which [strncpy] and the store of
    the terminator fill with NUL behind the text. *)
Definition text_at (text : string) (k : nat) : ascii :=
  nth k (list_ascii_of_string text) Ascii.zero.

(** [segs[i] = 0] and the [for (j ...)] search with its [break]. *)
Fixpoint seg_lookup (c : ascii) (tbl : list (ascii * Z)) : Z :=
  match tbl with
  | [] => 0
  | (sym, segval) :: rest =>
      if Ascii.eqb c sym then segval else seg_lookup c rest
  end.

(** The [for (i ...)] loop of [text_to_segs], [n] digits to go, at [k]. *)
Fixpoint text_to_segs_from (n : nat) (text : string) (k : nat) : list Z :=
  match n with
  | O => []
  | S n' =>
      let seg := seg_lookup (text_at text k) symbols in
      if negb (Ascii.eqb (text_at text k) ".")
         && Ascii.eqb (text_at text (k + 1)) "."
      then Z.lor seg 0x80 :: text_to_segs_from n' text (S (S k))
      else seg :: text_to_segs_from n' text (S k)
  end.

Definition text_to_segs (text : string) : list Z :=
  text_to_segs_from NDIGITS text 0.

(** [strncpy(pctx->text, val, 2 * NDIGITS)] and the terminator behind it,
    for a C string [val]. *)
Definition copy_text (val : string) : string :=
  substring 0 (2 * NDIGITS) val.

Definition set_text_segs (c : BASYSDEV) (t : string) (s : list Z)
  : BASYSDEV :=
  {| lastswitch := lastswitch c; text := t; segs := s;
     ptimer := ptimer c; drivlist := drivlist c |}.

Definition set_segs (c : BASYSDEV) (s : list Z) : BASYSDEV :=
  {| lastswitch := lastswitch c; text := text c; segs := s;
     ptimer := ptimer c; drivlist := drivlist c |}.

(** The write packet [board2tofpga] builds; the two bytes behind the data
    receive the CRC and are shown as 0. *)
Definition display_request (pmycore : CORE) (segs : list Z) : PC_PKT :=
  {| cmd := Z.lor PC_CMD_OP_WRITE PC_CMD_AUTOINC;
     core := uint8 (core_id pmycore);
     reg := BASYS_REG_DISPLAY; count := 4;
     data := [uint8 (nth 0 segs 0); uint8 (nth 1 segs 0);
              uint8 (nth 2 segs 0); uint8 (nth 3 segs 0); 0; 0] |}.

(** [board2tofpga]: the slot afterwards, [txret], and the calls made. *)
Definition board2tofpga (dm : daemon) (pslot : SLOT BASYSDEV)
  : SLOT BASYSDEV * Z * list drv_event :=
  let pctx := priv pslot in
  let pmycore := pcore pslot in
  let pkt := display_request pmycore (segs pctx) in
  let tx := pc_tx_pkt (dm_link dm) pmycore pkt (4 + count pkt) in
  (* Start timer to look for a write response *)
  let '(pctx, tev) :=
    if ptimer pctx =? 0
    then (set_ptimer pctx (dm_timer dm), [EvAddTimer 100 (dm_timer dm)])
    else (pctx, []) in
  (set_priv pslot pctx, tx_ret tx, EvTx tx :: tev).

(** [noAck]: the context is left alone. *)
Definition noAck (pctx : BASYSDEV) : BASYSDEV * list timer_event :=
  (pctx, [TmLog E_NOACK]).

(** The read packet [getdriverlist] builds. *)
Definition drivlist_request (pmycore : CORE) : PC_PKT :=
  {| cmd := Z.lor PC_CMD_OP_READ PC_CMD_AUTOINC;
     core := uint8 (core_id pmycore);
     reg := BASYS_REG_DRIVLIST; count := 32; data := [0; 0] |}.

Definition getdriverlist (dm : daemon) (pslot : SLOT BASYSDEV)
  : SLOT BASYSDEV * list drv_event :=
  let pctx := priv pslot in
  let pmycore := pcore pslot in
  let tx := pc_tx_pkt (dm_link dm) pmycore (drivlist_request pmycore) 4 in
  let '(pctx, tev) :=
    if ptimer pctx =? 0
    then (set_ptimer pctx (dm_timer dm), [EvAddTimer 100 (dm_timer dm)])
    else (pctx, []) in
  (set_priv pslot pctx, EvTx tx :: tev).

(** What [sscanf(val, "%x %x %x %x", &s0, &s1, &s2, &s3)] returned, and the
    four variables as the call leaves them. *)
Record scan_segs := {
  scan_ret : Z;
  s0 : Z;
  s1 : Z;
  s2 : Z;
  s3 : Z
}.

Section Usercmd.

(** The text [E_BDVAL] gives for a resource name, and [sscanf]. *)
Variable E_BDVAL : string -> string.
Variable sscanf_segs : string -> scan_segs.

Definition reply (pslot : SLOT BASYSDEV) (plen : Z) (s : string)
    (ev : list drv_event) : usercmd_result :=
  let '(buf, ret) := snprintf_text plen s in
  {| uc_slot := pslot; uc_plen := ret; uc_buf := Some buf; uc_ev := ev |}.

(** Send the segments, and report a failure to the user. *)
Definition send_segs (dm : daemon) (pslot : SLOT BASYSDEV) (plen : Z)
  : usercmd_result :=
  let '(pslot, txret, ev) := board2tofpga dm pslot in
  if negb (txret =? 0) then reply pslot plen E_WRFPGA ev
  else {| uc_slot := pslot; uc_plen := plen; uc_buf := None; uc_ev := ev |}.

Definition out_of_byte (s : Z) : bool := (s <? 0) || (s >? 0xff).

Definition usercmd (dm : daemon) (cmd : ui_cmd) (rscid : nat)
    (val : string) (pslot : SLOT BASYSDEV) (cn : Z) (plen : Z)
  : usercmd_result :=
  let pctx := priv pslot in
  match usercmd_select cmd rscid with
  | UcSetDisplay =>
      let text := copy_text val in
      let pctx := set_text_segs pctx text (text_to_segs text) in
      send_segs dm (set_priv pslot pctx) plen
  | UcGetDisplay => reply pslot plen (text pctx +++ newline) []
  | UcSetSegments =>
      let sc := sscanf_segs val in
      if negb (scan_ret sc =? 4)
         || out_of_byte (s0 sc) || out_of_byte (s1 sc)
         || out_of_byte (s2 sc) || out_of_byte (s3 sc)
      then
        reply pslot plen (E_BDVAL (rsc_name (nth rscid (rsc pslot) no_rsc)))
          []
      else
        let pctx := set_segs pctx [s0 sc; s1 sc; s2 sc; s3 sc] in
        send_segs dm (set_priv pslot pctx) plen
  | UcGetSegments =>
      (* the fourth value printed is [segs[2]] *)
      reply pslot plen
        (hex 2 (nth 0 (segs pctx) 0) +++ " "
           +++ hex 2 (nth 1 (segs pctx) 0) +++ " "
           +++ hex 2 (nth 2 (segs pctx) 0) +++ " "
           +++ hex 2 (nth 2 (segs pctx) 0) +++ newline)
        []
  | UcGetSwitches => usercmd_get_switches dm pslot cn plen
  | UcGetDrivlist =>
      let '(ret, buf) := get_drivlist (drivlist pctx) plen in
      {| uc_slot := pslot; uc_plen := ret; uc_buf := buf; uc_ev := [] |}
  | UcNothing =>
      {| uc_slot := pslot; uc_plen := plen; uc_buf := None; uc_ev := [] |}
  end.

End Usercmd.

(** Four display positions, each a character with or without a decimal
    point behind it, as the text the user types. *)
Fixpoint render (digits : list (ascii * bool)) : list ascii :=
  match digits with
  | [] => []
  | (c, dot) :: rest =>
      if dot then c :: "."%char :: render rest else c :: render rest
  end.

Definition seg_dp (d : ascii * bool) : Z :=
  if snd d then Z.lor (seg_lookup (fst d) symbols) 0x80
  else seg_lookup (fst d) symbols.

End Basys3Cmd.

(* ================================================================= *)
(** ** The [hostserial] driver: the configuration *)

Module HostserialCmd.

Import Hostserial.

Definition RSC_CONFIG : nat := 0.

Definition set_config (c : HSRDEV) (b e : Z) : HSRDEV :=
  {| ptimer := ptimer c; baud := b; enabled := e |}.

(** The write packet [tofpga] builds; the two bytes behind the data
    receive the CRC and are shown as 0. *)
Definition config_request (pmycore : CORE) (pctx : HSRDEV) : PC_PKT :=
  {| cmd := Z.lor PC_CMD_OP_WRITE PC_CMD_NOAUTOINC;
     core := uint8 (core_id pmycore);
     reg := HSR_REG_CONFIG; count := 1;
     data := [uint8 (Z.lor (Z.shiftl (enabled pctx) 2) (baud pctx)); 0; 0] |}.

(** [tofpga]: the slot afterwards, [txret], and the calls made. *)
Definition tofpga (dm : daemon) (pslot : SLOT HSRDEV)
  : SLOT HSRDEV * Z * list drv_event :=
  let pctx := priv pslot in
  let pmycore := pcore pslot in
  let pkt := config_request pmycore pctx in
  let tx := pc_tx_pkt (dm_link dm) pmycore pkt (4 + count pkt) in
  let txret := tx_ret tx in
  (* Start timer to look for a write response *)
  if (txret =? 0) && (ptimer pctx =? 0) then
    (set_priv pslot (set_ptimer pctx (dm_timer dm)), txret,
     [EvTx tx; EvAddTimer 100 (dm_timer dm)])
  else (pslot, txret, [EvTx tx]).

(** [noAck]: the context is left alone. *)
Definition noAck (pctx : HSRDEV) : HSRDEV * list timer_event :=
  (pctx, [TmLog E_NOACK]).

(** What [sscanf(val, "%d %c", &newbaud, &newenabled)] returned, and the
    two variables as the call leaves them. *)
Record scan_config := {
  scan_ret : Z;
  newbaud : Z;
  newenabled : ascii
}.

(** The baud rate named by [PCGET]; the third test repeats the first. *)
Definition baud_text (baud : Z) : string :=
  if baud =? 0 then "460800"
  else if baud =? 1 then "230400"
  else if baud =? 0 then "153600"
  else "115200".

Record userconfig_result := {
  cf_slot : SLOT HSRDEV;
  cf_plen : Z;
  cf_buf : option string;
  cf_ev : list drv_event
}.

Section Userconfig.

Variable E_BDVAL : string -> string.
Variable sscanf_config : string -> scan_config.

Definition reply (pslot : SLOT HSRDEV) (plen : Z) (s : string)
    (ev : list drv_event) : userconfig_result :=
  let '(buf, ret) := snprintf_text plen s in
  {| cf_slot := pslot; cf_plen := ret; cf_buf := Some buf; cf_ev := ev |}.

Definition userconfig (dm : daemon) (cmd : ui_cmd) (rscid : nat)
    (val : string) (pslot : SLOT HSRDEV) (cn : Z) (plen : Z)
  : userconfig_result :=
  let pctx := priv pslot in
  if ui_cmd_eqb cmd PCGET then
    reply pslot plen
      (baud_text (baud pctx) +++ " "
         +++ String (if enabled pctx =? 1 then "e"%char else "d"%char)
               newline)
      []
  else
    (* User is updating the configuration *)
    let sc := sscanf_config val in
    if negb (scan_ret sc =? 2)
       || (negb (Ascii.eqb (newenabled sc) "e")
           && negb (Ascii.eqb (newenabled sc) "d"))
       || (negb (newbaud sc =? 460800) && negb (newbaud sc =? 230400)
           && negb (newbaud sc =? 153600) && negb (newbaud sc =? 115200))
    then
      reply pslot plen (E_BDVAL (rsc_name (nth rscid (rsc pslot) no_rsc))) []
    else
      let pctx :=
        set_config pctx
          (if newbaud sc =? 460800 then 0
           else if newbaud sc =? 230400 then 1
           else if newbaud sc =? 153600 then 2 else 3)
          (if Ascii.eqb (newenabled sc) "e" then 1 else 0) in
      (* Got a new value for the config.  Send down to the card. *)
      let '(pslot, txret, ev) := tofpga dm (set_priv pslot pctx) in
      if negb (txret =? 0) then reply pslot plen E_WRFPGA ev
      else {| cf_slot := pslot; cf_plen := plen; cf_buf := None;
              cf_ev := ev |}.

End Userconfig.

End HostserialCmd.

(** The switch value [packet_hdlr] of [basys3] makes of the first three
    data bytes of a packet. *)
Definition switch_value (pkt : PC_PKT) : Z :=
  (Z.shiftl (data_at pkt 2) 16 + Z.shiftl (data_at pkt 1) 8 + data_at pkt 0)
    mod 2 ^ 32.

(** A packet that is not a write response. *)
Definition not_write_ack (pkt : PC_PKT) : Prop :=
  Z.land (cmd pkt) PC_CMD_OP_MASK <> PC_CMD_OP_WRITE.

(** A slot of [basys3] on core 0 with a session monitoring the switches. *)
Definition basys3_monitored (key last : Z) : SLOT Basys3.BASYSDEV :=
  {| priv := {| Basys3.lastswitch := last; Basys3.text := EmptyString;
                Basys3.segs := [0; 0; 0; 0]; Basys3.ptimer := 0;
                Basys3.drivlist := [] |};
     rsc := set_rsc basys3_rsc Basys3.RSC_SWITCHES
              (set_bkey (nth Basys3.RSC_SWITCHES basys3_rsc no_rsc) key);
     pcore := core0 |}.

(** An autosend packet with the three switch bytes. *)
Definition switches_autosend (d0 d1 d2 : Z) : PC_PKT :=
  {| cmd := 0x76; core := 0xE0; reg := Basys3.BASYS_REG_SWITCHES; count := 3;
     data := [d0; d1; d2; 0] |}.

(** The response to the read of the driver list: sixteen identifiers, two
    bytes each. *)
Definition drivlist_reply (bytes : list Z) : PC_PKT :=
  {| cmd := 0xF6; core := 0xE0; reg := Basys3.BASYS_REG_DRIVLIST;
     count := 32; data := bytes |}.

(** The identifiers in such a response. *)
Definition reply_ids (pkt : PC_PKT) : list Z :=
  map (fun i => Z.shiftl (data_at pkt (2 * i)) 8 + data_at pkt (2 * i + 1))
      (seq 0 (Z.to_nat NUM_CORE)).

(** A [sscanf] that found the four segment values 3f 06 5b 4f. *)
Definition sample_sscanf_segs (val : string) : Basys3Cmd.scan_segs :=
  {| Basys3Cmd.scan_ret := 4; Basys3Cmd.s0 := 0x3f; Basys3Cmd.s1 := 0x06;
     Basys3Cmd.s2 := 0x5b; Basys3Cmd.s3 := 0x4f |}.

(** A text standing for [E_BDVAL] with the resource name filled in. *)
Definition sample_E_BDVAL (name : string) : string :=
  "bad value for " +++ name +++ newline.

Definition is_add_timer (e : drv_event) : bool :=
  match e with EvAddTimer _ _ => true | _ => false end.

(** The sixteen identifiers as [get_drivlist] prints them. *)
Definition ids_text (ids : list Z) : string :=
  fold_right (fun id acc => (hex 4 id +++ " ") +++ acc) EmptyString ids.

(** A response to the read of the driver list that names [bb4io] (42) in
    core 0 and [out4] (24) in core 1. *)
Definition sample_drivlist_reply : PC_PKT :=
  drivlist_reply ([0; 42; 0; 24] ++ repeat 0 28%nat).

(** The value [userconfig] of [hostserial] stores for a baud rate and for
    the enable character. *)
Definition baud_code (newbaud : Z) : Z :=
  if newbaud =? 460800 then 0
  else if newbaud =? 230400 then 1
  else if newbaud =? 153600 then 2 else 3.

Definition enable_code (newenabled : ascii) : Z :=
  if Ascii.eqb newenabled "e" then 1 else 0.

(** What [sscanf] makes of a well-formed configuration. *)
Definition valid_config (sc : HostserialCmd.scan_config) : Prop :=
  HostserialCmd.scan_ret sc = 2 /\
  (HostserialCmd.newenabled sc = "e"%char
   \/ HostserialCmd.newenabled sc = "d"%char) /\
  (HostserialCmd.newbaud sc = 460800 \/ HostserialCmd.newbaud sc = 230400
   \/ HostserialCmd.newbaud sc = 153600 \/ HostserialCmd.newbaud sc = 115200).

(** A [sscanf] that found "153600 e". *)
Definition sample_sscanf_config (val : string) : HostserialCmd.scan_config :=
  {| HostserialCmd.scan_ret := 2; HostserialCmd.newbaud := 153600;
     HostserialCmd.newenabled := "e"%char |}.

(** A [hostserial] slot on core 2 with nothing pending. *)
Definition hostserial_quiet : SLOT Hostserial.HSRDEV :=
  {| priv := {| Hostserial.ptimer := 0; Hostserial.baud := 0;
                Hostserial.enabled := 1 |};
     rsc := [ {| rsc_name := "config"; bkey := 0; uilock := -1 |} ];
     pcore := {| slot_id := 2; core_id := 2; driv_id := 0; pcb := 0x2000 |} |}.

(* ================================================================= *)
(** ** The [enumerator] driver *)

Module Enumerator.

Definition ENUM_REG_DRIVLIST : Z := 0x40.
Definition RSC_DRIVLIST : nat := 0.

Record ENUMDEV := {
  ptimer : Z
}.

(** The table [pdesc] of [drivlist.h]: [periname] and [drivid]. *)
Definition pdesc : list (string * Z) :=
  [ ("null", 1); ("serout8", 2); ("qtr8", 3); ("qtr4", 4); ("ws2812", 5);
    ("rcrx", 6); ("serout4", 7); ("roten", 8); ("servo4", 9); ("stepu", 10);
    ("stepb", 11); ("pwmout4", 12); ("quad2", 13); ("pwmin4", 14);
    ("ping4", 15); ("pgen16", 16); ("irio", 17); ("pulse2", 18);
    ("touch4", 19); ("dc2", 20); ("count4", 21); ("gpio4", 22); ("in4", 23);
    ("out4", 24); ("out4l", 25); ("espi", 26); ("ei2c", 27); ("lcd6", 28);
    ("in32", 29); ("io8", 30); ("aamp", 31); ("dac8", 32); ("qpot", 33);
    ("rtc", 34); ("avr", 35); ("adc812", 36); ("slide4", 37); ("tif", 38);
    ("us8", 39); ("rfob", 40); ("out32", 41); ("bb4io", 42); ("axo2", 43);
    ("tang4k", 44); ("tonegen", 45); ("stpxo2", 46) ]%string.

(** The [for (i ...)] search of [getSoName]: the first entry with the
    driver ID. *)
Fixpoint find_peri (tbl : list (string * Z)) (driv_id : Z) : option string :=
  match tbl with
  | [] => None
  | (periname, drivid) :: rest =>
      if negb (drivid =? driv_id) then find_peri rest driv_id
      else Some periname
  end.

(** [getSoName]: the text in [soname] afterwards, and whether the missing
    driver was logged.  [MX_SONAME] is the size of [soname]. *)
Definition getSoName (MX_SONAME : nat) (soname : string) (driv_id : Z)
  : string * bool :=
  if negb (String.eqb soname EmptyString)
     && negb (String.eqb (substring 0 MX_SONAME soname)
                (substring 0 MX_SONAME "enumerator.so"))
  then (soname, false)
  else
    match find_peri pdesc driv_id with
    | Some periname =>
        (fst (snprintf_text (Z.of_nat MX_SONAME - 1) (periname +++ ".so")),
         false)
    | None => (soname, true)
    end.

(** What [packet_hdlr] stores and calls, in order. *)
Inductive enum_event : Type :=
| EnDelTimer (handle : Z)              (* del_timer(handle) *)
| EnDrivId (core : nat) (id : Z)       (* Core[core].driv_id = id *)
| EnAssign (slot : Z) (core : nat)     (* Slots[slot].pcore = &Core[core];
                                          Core[core].slot_id = slot *)
| EnSoName (slot : Z) (id : Z)         (* getSoName(Slots[slot].soname, id) *)
| EnInitslot (slot : Z)                (* initslot(&Slots[slot]) *)
| EnLog (core : nat).                  (* "Unable to allocate a SLOT ..." *)

(** The loop over the cores, from the cores still to do and the next free
    slot; the [return] on a full table ends it. *)
Fixpoint assign_loop (MX_SLOT : Z) (pkt : PC_PKT) (cores : list nat)
    (slot : Z) : list enum_event :=
  match cores with
  | [] => []
  | i :: rest =>
      let id := Z.shiftl (data_at pkt (2 * i)) 8 + data_at pkt (2 * i + 1) in
      EnDrivId i id
        :: (if id =? 0 then assign_loop MX_SLOT pkt rest slot
            else if slot =? MX_SLOT then [EnLog i]
            else EnAssign slot i :: EnSoName slot id :: EnInitslot slot
                   :: assign_loop MX_SLOT pkt rest (slot + 1))
  end.

Definition packet_hdlr (MX_SLOT : Z) (pctx : ENUMDEV) (pkt : PC_PKT)
    (len : Z) : ENUMDEV * list enum_event :=
  (* Clear the timer on write response packets *)
  if Z.land (cmd pkt) PC_CMD_OP_MASK =? PC_CMD_OP_WRITE then
    if negb (ptimer pctx =? 0)
    then ({| ptimer := 0 |}, [EnDelTimer (ptimer pctx)])
    else (pctx, [])
  (* Response to Driver ID table read ? *)
  else if is_response pkt && (reg pkt =? ENUM_REG_DRIVLIST)
          && (count pkt =? 2 * NUM_CORE)
  then ({| ptimer := 0 |},
        EnDelTimer (ptimer pctx)
          :: assign_loop MX_SLOT pkt (seq 0 (Z.to_nat NUM_CORE)) 0)
  else (pctx, []).

(** [usercmd]: [*plen] and the text in [buf], for the driver IDs of the
    [Core] table. *)
Definition usercmd (Core : list CORE) (cmd : ui_cmd) (rscid : nat)
    (plen : Z) : Z * option string :=
  if ui_cmd_eqb cmd PCGET && (rscid =? RSC_DRIVLIST)%nat
  then get_drivlist (map driv_id Core) plen
  else (plen, None).

(** The slots given out and the cores they went to. *)
Definition assigned (ev : list enum_event) : list (Z * nat) :=
  flat_map (fun e => match e with EnAssign s c => [(s, c)] | _ => [] end) ev.

(** The slots handed to [initslot]. *)
Definition initialised (ev : list enum_event) : list Z :=
  flat_map (fun e => match e with EnInitslot s => [s] | _ => [] end) ev.

(** The cores whose driver ID was stored. *)
Definition stored_cores (ev : list enum_event) : list nat :=
  flat_map (fun e => match e with EnDrivId c _ => [c] | _ => [] end) ev.

Definition logged (ev : list enum_event) : list nat :=
  flat_map (fun e => match e with EnLog c => [c] | _ => [] end) ev.

(** The cores of a response that have a driver. *)
Definition with_driver (pkt : PC_PKT) (cores : list nat) : list nat :=
  filter (fun i => negb (Z.shiftl (data_at pkt (2 * i)) 8
                         + data_at pkt (2 * i + 1) =? 0)) cores.

(** The slots [slot], [slot + 1], ... *)
Definition slots_from (slot : Z) (n : nat) : list Z :=
  map (fun k => slot + Z.of_nat k) (seq 0 n).

End Enumerator.

(** A response to the read of the driver list in which the cores 0, 1 and
    2 have a driver (42, 24 and 23). *)
Definition three_drivers_reply : PC_PKT :=
  drivlist_reply ([0; 42; 0; 24; 0; 23] ++ repeat 0 26%nat).

(* ================================================================= *)
(** ** The [avr] driver: the head of the packet handler *)

Module Avr.

Definition QCSPI_REG_MODE : Z := 0x00.
Definition QCSPI_REG_COUNT : Z := 0x01.

(** [AVRDEV]: the fields the head of [packet_hdlr] reads. *)
Record AVRDEV := {
  ptimer : Z;
  nbxfer : Z
}.

Inductive avr_event : Type :=
| AvLog (text : string)                 (* pclog(text) *)
| AvDelTimer (handle : Z).              (* del_timer(handle) *)

Definition M_INVALID : string := "Invalid avr packet from board to host".

(** The three packets the handler knows: the autosend packet, the write
    response for the mosi data and the write response for the config. *)
Definition known_packet (pctx : AVRDEV) (pkt : PC_PKT) : bool :=
  (negb (is_response pkt) && (reg pkt =? QCSPI_REG_MODE)
   && (count pkt =? 16))
  || (is_response pkt && (reg pkt =? QCSPI_REG_COUNT)
      && (count pkt =? 1 + nbxfer pctx))
  || (is_response pkt && (reg pkt =? QCSPI_REG_MODE) && (count pkt =? 1)).

(** How the head of [packet_hdlr] ends: with a [return], or by going on to
    the task state machines.  Either way with the context as the head
    leaves it and the calls it made. *)
Inductive hdlr_head : Type :=
| HdReturn (pctx : AVRDEV) (ev : list avr_event)
| HdTasks (pctx : AVRDEV) (ev : list avr_event).

(** [packet_hdlr] up to the [switch (pctx->taskId)]; nothing is stored
    into [pctx] on the way. *)
Definition packet_hdlr_head (pctx : AVRDEV) (pkt : PC_PKT) (len : Z)
  : hdlr_head :=
  if negb (known_packet pctx pkt) then
    (* unknown packet *)
    HdReturn pctx [AvLog M_INVALID]
  else
    (* Got a response so clear timer if one is set *)
    let ev := if negb (ptimer pctx =? 0) then [AvDelTimer (ptimer pctx)]
              else [] in
    (* Return if just write reply *)
    if is_response pkt then HdReturn pctx ev
    else HdTasks pctx ev.

Definition head_ctx (h : hdlr_head) : AVRDEV :=
  match h with HdReturn pctx _ | HdTasks pctx _ => pctx end.

Definition head_ev (h : hdlr_head) : list avr_event :=
  match h with HdReturn _ ev | HdTasks _ ev => ev end.

End Avr.

(** An [avr] context that waits for the response to a transfer of four
    bytes, with the watchdog handle [timer]. *)
Definition avr_waiting (timer : Z) : Avr.AVRDEV :=
  {| Avr.ptimer := timer; Avr.nbxfer := 4 |}.
(* ================================================================= *)
(** ** Fixed width integers *)

Lemma uint8_mod z : uint8 z = z mod 256.
Proof. unfold uint8. change 0xFF with (Z.ones 8). now rewrite Z.land_ones. Qed.

Lemma uint16_mod z : uint16 z = z mod 65536.
Proof.
  unfold uint16. change 0xFFFF with (Z.ones 16). now rewrite Z.land_ones.
Qed.

Lemma uint8_range z : 0 <= uint8 z < 256.
Proof. rewrite uint8_mod. apply Z.mod_pos_bound. lia. Qed.

Lemma uint16_range z : 0 <= uint16 z < 65536.
Proof. rewrite uint16_mod. apply Z.mod_pos_bound. lia. Qed.

Lemma uint8_small z : 0 <= z < 256 -> uint8 z = z.
Proof. intros. rewrite uint8_mod. now apply Z.mod_small. Qed.

Lemma to_char_small cn : 0 <= cn < 128 -> to_char cn = cn.
Proof.
  intros H. unfold to_char. rewrite uint8_small by lia.
  assert (E : (cn <? 128) = true) by (apply Z.ltb_lt; lia).
  now rewrite E.
Qed.

(** A property of the numbers below [n] that a run over all of them
    confirms. *)
Lemma byte_cases (f : Z -> bool) (n : nat) :
  forallb f (map Z.of_nat (seq 0 n)) = true ->
  forall c, 0 <= c < Z.of_nat n -> f c = true.
Proof.
  intros H c Hc. rewrite forallb_forall in H. apply H.
  apply in_map_iff. exists (Z.to_nat c). split; [lia|].
  apply in_seq. lia.
Qed.

(* ================================================================= *)
(** ** Properties of [crc16] *)

Lemma crc16_step_range crc c : 0 <= crc16_step crc c < 65536.
Proof. unfold crc16_step. apply uint16_range. Qed.

Lemma fold_crc_range l : forall crc,
  0 <= crc < 65536 -> 0 <= fold_left crc16_step l crc < 65536.
Proof.
  induction l as [|b l IH]; intros crc Hc; simpl; [exact Hc|].
  apply IH, crc16_step_range.
Qed.

Lemma crc16_range pkt n : 0 <= crc16 pkt n < 65536.
Proof. unfold crc16. apply fold_crc_range. lia. Qed.

Lemma crc16_app P tail :
  crc16 (P ++ tail) (length P + length tail)
  = fold_left crc16_step tail (crc16 P (length P)).
Proof.
  unfold crc16. rewrite <- length_app, !firstn_all. apply fold_left_app.
Qed.

(** When the byte fed equals the high byte of the register, the feedback
    term [x] vanishes and the step is a plain shift. *)
Lemma crc16_step_cancel crc c :
  0 <= c < 256 -> Z.shiftr crc 8 = c ->
  crc16_step crc c = uint16 (Z.shiftl crc 8).
Proof.
  intros Hc Hs. unfold crc16_step.
  rewrite (uint8_small c Hc), Hs, Z.lxor_nilpotent.
  change (uint8 0) with 0. change (Z.shiftr 0 4) with 0.
  change (Z.lxor 0 0) with 0. change (uint8 0) with 0.
  now rewrite !Z.shiftl_0_l, !Z.lxor_0_r.
Qed.

(** Feeding a 16-bit register its own two bytes, high byte first. *)
Section Trailer.

Variable crc : Z.
Hypothesis crc_word : 0 <= crc < 65536.

Lemma crc_hi_div : crc_hi crc = crc / 256.
Proof.
  unfold crc_hi. rewrite Z.shiftr_div_pow2 by lia.
  change (2 ^ 8) with 256. apply uint8_small.
  split; [apply Z.div_pos; lia | apply Z.div_lt_upper_bound; lia].
Qed.

Lemma crc_lo_mod : crc_lo crc = crc mod 256.
Proof.
  unfold crc_lo. change 0x00ff with (Z.ones 8). rewrite Z.land_ones by lia.
  change (2 ^ 8) with 256. apply uint8_small. apply Z.mod_pos_bound. lia.
Qed.

Lemma crc_big_endian : 256 * crc_hi crc + crc_lo crc = crc.
Proof. rewrite crc_hi_div, crc_lo_mod. symmetry. apply Z.div_mod. lia. Qed.

Lemma crc16_step_hi : crc16_step crc (crc_hi crc) = crc mod 256 * 256.
Proof.
  rewrite crc16_step_cancel.
  - rewrite uint16_mod, Z.shiftl_mul_pow2 by lia. change (2 ^ 8) with 256.
    change 65536 with (256 * 256).
    rewrite (Z.mul_comm crc 256), Zmult_mod_distr_l. lia.
  - apply uint8_range.
  - rewrite crc_hi_div. now rewrite Z.shiftr_div_pow2 by lia.
Qed.

Lemma crc16_step_lo : crc16_step (crc mod 256 * 256) (crc_lo crc) = 0.
Proof.
  pose proof (Z.mod_pos_bound crc 256 ltac:(lia)) as Hm.
  rewrite crc16_step_cancel.
  - rewrite uint16_mod, Z.shiftl_mul_pow2 by lia. change (2 ^ 8) with 256.
    replace (crc mod 256 * 256 * 256) with (crc mod 256 * 65536) by lia.
    apply Z_mod_mult.
  - rewrite crc_lo_mod. exact Hm.
  - rewrite crc_lo_mod, Z.shiftr_div_pow2 by lia. change (2 ^ 8) with 256.
    apply Z_div_mult. lia.
Qed.

Lemma crc16_own_bytes :
  fold_left crc16_step [crc_hi crc; crc_lo crc] crc = 0.
Proof. simpl. rewrite crc16_step_hi. apply crc16_step_lo. Qed.

End Trailer.

(** The check value of the CRC-16/XMODEM catalogue entry: the CRC of the
    ASCII digits "123456789" is 0x31C3. *)
Example crc16_check_value :
  crc16 [49; 50; 51; 52; 53; 54; 55; 56; 57] 9 = 0x31C3.
Proof. vm_compute. reflexivity. Qed.

(** C4. For every byte sequence [P], of any length and content, the CRC of
    [P] followed by the two bytes [pctoslip] appends (high byte of
    [crc16 P] first, low byte second, which together are the big-endian
    encoding of the CRC) is zero, which is what the receiver tests with
    [crc16(inbuf, len) == 0]. *)
Theorem crc16_trailer_zero : forall P : list Z,
  let crc := crc16 P (length P) in
  256 * crc_hi crc + crc_lo crc = crc /\
  crc16 (P ++ [crc_hi crc; crc_lo crc]) (length P + 2) = 0.
Proof.
  intros P crc. pose proof (crc16_range P (length P)) as Hr. fold crc in Hr.
  split.
  - apply crc_big_endian, Hr.
  - change 2%nat with (length [crc_hi crc; crc_lo crc]).
    rewrite crc16_app. fold crc. apply crc16_own_bytes, Hr.
Qed.

(* ================================================================= *)
(** ** The scan loop of [receivePkt] terminates *)

Ltac rx_cases :=
  repeat match goal with
         | |- context [if ?b then _ else _] => destruct b
         end.

(** Every turn that continues leaves strictly fewer bytes to scan, also
    when it moves the buffer down and rescans. *)
Lemma rx_body_decreases s s' :
  (sc_i s < Slix (sc_g s))%nat -> rx_body s = RxNext s' ->
  (rx_left (rx_incr s') < rx_left s)%nat.
Proof.
  unfold rx_body, rx_left. intros Hlt.
  rx_cases; intros H; inversion H; subst; simpl; lia.
Qed.

Lemma rx_loop_total fuel : forall s,
  (rx_left s <= fuel)%nat -> exists s', rx_loop fuel s = Some s'.
Proof.
  induction fuel as [|fuel IH]; intros s Hs; simpl.
  - destruct (sc_i s <? Slix (sc_g s))%nat eqn:E; [|eauto].
    apply Nat.ltb_lt in E. unfold rx_left in Hs. lia.
  - destruct (sc_i s <? Slix (sc_g s))%nat eqn:E; [|eauto].
    apply Nat.ltb_lt in E.
    destruct (rx_body s) as [s1|s1] eqn:B; [|eauto].
    apply IH. pose proof (rx_body_decreases s s1 E B). lia.
Qed.

Lemma rx_loop_step fuel s s' :
  (sc_i s < Slix (sc_g s))%nat -> rx_body s = RxNext s' ->
  rx_loop (S fuel) s = rx_loop fuel (rx_incr s').
Proof.
  intros Hlt Hb. simpl. apply Nat.ltb_lt in Hlt. now rewrite Hlt, Hb.
Qed.

Lemma rx_loop_done fuel s :
  (Slix (sc_g s) <= sc_i s)%nat -> rx_loop fuel s = Some s.
Proof.
  intros H. apply Nat.ltb_ge in H. destruct fuel; simpl; now rewrite H.
Qed.

(** Whatever [read] returned, [receivePkt] comes back. *)
Lemma receivePkt_total g rd : exists r, receivePkt g rd = Some r.
Proof.
  unfold receivePkt. destruct rd as [data|errno].
  - destruct (firstn (RXBUF_SZ - Slix g) data) as [|b l]; [eauto|].
    match goal with
    | |- context [rx_loop ?f ?s] =>
        destruct (rx_loop_total f s) as [s' Hs']
    end.
    + unfold rx_left. simpl. lia.
    + rewrite Hs'. eauto.
  - destruct (negb (errno =? EAGAIN)); eauto.
Qed.

(** One turn of the loop, justified by a lemma on [rx_body]. *)
Ltac rx_step L :=
  etransitivity; [ apply rx_loop_step; [ | exact L ]; simpl; lia | ].

Lemma skipn_cons_nth (buf : list Z) : forall i c rest,
  skipn i buf = c :: rest -> nth i buf 0 = c /\ skipn (S i) buf = rest.
Proof.
  induction buf as [|b buf IH]; intros [|i] c rest H; simpl in *;
    try discriminate.
  - inversion H. now subst.
  - now apply IH.
Qed.

Lemma slip_stuff_length l :
  (length l <= length (slip_stuff l) <= 2 * length l)%nat.
Proof.
  induction l as [|b l IH]; simpl; [lia|].
  destruct (b =? SLIP_END); [simpl; lia|].
  destruct (b =? SLIP_ESC); simpl; lia.
Qed.

(* ================================================================= *)
(** ** The loop body, case by case *)

Section Body.

Variables (buf : list Z) (slix : nat) (ev : list rx_event).
Variables (i : nat) (pk : list Z).

Lemma body_plain c :
  nth i buf 0 = c -> c <> SLIP_END -> c <> SLIP_ESC ->
  rx_body (scan_at buf slix IN_PACKET i pk ev)
  = RxNext (scan_at buf slix IN_PACKET i (pk ++ [c]) ev).
Proof.
  intros Hn He Hs. unfold rx_body, scan_at. simpl. rewrite Hn.
  apply Z.eqb_neq in He, Hs. rewrite He, Hs, !andb_false_r. reflexivity.
Qed.

Lemma body_esc :
  nth i buf 0 = SLIP_ESC ->
  rx_body (scan_at buf slix IN_PACKET i pk ev)
  = RxNext (scan_at buf slix INESCAPE i pk ev).
Proof. intros Hn. unfold rx_body, scan_at. simpl. now rewrite Hn. Qed.

Lemma body_unesc_end :
  nth i buf 0 = INPKT_END ->
  rx_body (scan_at buf slix INESCAPE i pk ev)
  = RxNext (scan_at buf slix IN_PACKET i (pk ++ [SLIP_END]) ev).
Proof. intros Hn. unfold rx_body, scan_at. simpl. now rewrite Hn. Qed.

Lemma body_unesc_esc :
  nth i buf 0 = INPKT_ESC ->
  rx_body (scan_at buf slix INESCAPE i pk ev)
  = RxNext (scan_at buf slix IN_PACKET i (pk ++ [SLIP_ESC]) ev).
Proof. intros Hn. unfold rx_body, scan_at. simpl. now rewrite Hn. Qed.

Lemma body_end_empty :
  nth i buf 0 = SLIP_END -> (i < slix)%nat ->
  rx_body (scan_at buf slix IN_PACKET i [] ev)
  = RxNext (scan_at (memmove buf i (slix - i)) (slix - i) IN_PACKET 0 [] ev).
Proof.
  intros Hn Hlt. unfold rx_body, scan_at. simpl. rewrite Hn. simpl.
  assert (E : (i =? slix)%nat = false) by (apply Nat.eqb_neq; lia).
  now rewrite E.
Qed.

Lemma body_end_full :
  nth i buf 0 = SLIP_END -> (i < slix)%nat -> pk <> [] ->
  rx_body (scan_at buf slix IN_PACKET i pk ev)
  = RxNext (scan_at (memmove buf i (slix - i)) (slix - i) IN_PACKET 0 []
              (ev ++ [RxDispatch pk])).
Proof.
  intros Hn Hlt Hpk. unfold rx_body, scan_at. simpl. rewrite Hn. simpl.
  assert (E : (i =? slix)%nat = false) by (apply Nat.eqb_neq; lia).
  destruct pk as [|p pk']; [congruence|]. simpl. now rewrite E.
Qed.

(** In [INESCAPE] a byte that is none of [END], [ESC], 0xDC, 0xDD falls
    through every test of the loop body to the last [else]: it is stored as
    a normal character, nothing is logged and the state is left alone. *)
Lemma body_bad_escape b :
  nth i buf 0 = b ->
  b <> SLIP_END -> b <> SLIP_ESC -> b <> INPKT_END -> b <> INPKT_ESC ->
  rx_body (scan_at buf slix INESCAPE i pk ev)
  = RxNext (scan_at buf slix INESCAPE i (pk ++ [b]) ev).
Proof.
  intros Hn H1 H2 H3 H4. unfold rx_body, scan_at. simpl. rewrite Hn.
  apply Z.eqb_neq in H1, H2, H3, H4.
  rewrite H1, H2, H3, H4, !andb_false_r. reflexivity.
Qed.

(** In [INESCAPE] an [END] is skipped: the frame is not closed. *)
Lemma body_end_in_escape :
  nth i buf 0 = SLIP_END ->
  rx_body (scan_at buf slix INESCAPE i pk ev)
  = RxNext (scan_at buf slix INESCAPE i pk ev).
Proof. intros Hn. unfold rx_body, scan_at. simpl. now rewrite Hn. Qed.

(** Only a second [ESC] is reported. *)
Lemma body_esc_in_escape :
  nth i buf 0 = SLIP_ESC ->
  rx_body (scan_at buf slix INESCAPE i pk ev)
  = RxNext (scan_at (memmove buf i (slix - i)) (slix - i - 1) IN_PACKET 0 []
              (ev ++ [RxLog M_BADSLIP])).
Proof. intros Hn. unfold rx_body, scan_at. simpl. now rewrite Hn. Qed.

End Body.

(* ================================================================= *)
(** ** Decoding what [pctoslip] encoded *)

(** The loop un-stuffs a stuffed run byte for byte: started in [IN_PACKET]
    at the first byte of [slip_stuff body], it reaches the byte behind the
    run, still in [IN_PACKET], with [body] appended to the packet. *)
Lemma scan_stuffed buf slix ev post : forall body i pk fuel,
  skipn i buf = slip_stuff body ++ post ->
  (i + length (slip_stuff body) <= slix)%nat ->
  rx_loop (length (slip_stuff body) + fuel)
          (scan_at buf slix IN_PACKET i pk ev)
  = rx_loop fuel
      (scan_at buf slix IN_PACKET (i + length (slip_stuff body))
         (pk ++ body) ev).
Proof.
  induction body as [|b body IH]; intros i pk fuel Hsk Hle.
  - simpl. now rewrite Nat.add_0_r, app_nil_r.
  - cbn [slip_stuff] in *.
    destruct (b =? SLIP_END) eqn:Eend; [|destruct (b =? SLIP_ESC) eqn:Eesc].
    + apply Z.eqb_eq in Eend. subst b.
      cbn [app length] in Hsk, Hle.
      apply skipn_cons_nth in Hsk as [Hn1 Hsk].
      apply skipn_cons_nth in Hsk as [Hn2 Hsk].
      rx_step (body_esc buf slix ev i pk Hn1).
      rx_step (body_unesc_end buf slix ev (S i) pk Hn2).
      etransitivity; [apply (IH (S (S i))); [exact Hsk | lia]|].
      cbn [scan_at sc_pcpkt]. rewrite <- app_assoc. cbn [app length].
      do 2 f_equal. lia.
    + apply Z.eqb_eq in Eesc. subst b.
      cbn [app length] in Hsk, Hle.
      apply skipn_cons_nth in Hsk as [Hn1 Hsk].
      apply skipn_cons_nth in Hsk as [Hn2 Hsk].
      rx_step (body_esc buf slix ev i pk Hn1).
      rx_step (body_unesc_esc buf slix ev (S i) pk Hn2).
      etransitivity; [apply (IH (S (S i))); [exact Hsk | lia]|].
      cbn [scan_at sc_pcpkt]. rewrite <- app_assoc. cbn [app length].
      do 2 f_equal. lia.
    + apply Z.eqb_neq in Eend, Eesc.
      cbn [app length] in Hsk, Hle.
      apply skipn_cons_nth in Hsk as [Hn1 Hsk].
      rx_step (body_plain buf slix ev i pk b Hn1 Eend Eesc).
      etransitivity; [apply (IH (S i)); [exact Hsk | lia]|].
      cbn [scan_at sc_pcpkt]. rewrite <- app_assoc. cbn [app length].
      do 2 f_equal. lia.
Qed.

Lemma store_end buf v : store buf (length buf) v = buf ++ [v].
Proof.
  unfold store. rewrite firstn_all, skipn_all2 by lia. reflexivity.
Qed.

Lemma memmove_zero buf n : memmove buf 0 n = buf.
Proof. unfold memmove. simpl. apply firstn_skipn. Qed.

(** The frame [pctoslip] builds for a packet that fills its buffer. *)
Lemma pctoslip_frame P :
  (length P <= PC_PKTLEN)%nat ->
  let crc := crc16 P (length P) in
  pctoslip P (length P)
  = {| so_pcpkt := P ++ [crc_hi crc; crc_lo crc];
       so_slppkt := SLIP_END :: slip_stuff (P ++ [crc_hi crc; crc_lo crc])
                      ++ [SLIP_END] |}.
Proof.
  intros Hlen crc. unfold pctoslip.
  apply Nat.ltb_ge in Hlen. rewrite Hlen. fold crc.
  rewrite store_end.
  replace (length P + 1)%nat with (length (P ++ [crc_hi crc]))
    by (rewrite length_app; reflexivity).
  rewrite store_end, <- app_assoc. cbn [app].
  rewrite firstn_all2; [reflexivity|].
  rewrite !length_app. simpl. lia.
Qed.

(** Scanning a frame [END, stuffed body, END]. *)
Section Frame.

Variables (body rest : list Z) (ev : list rx_event).
Hypothesis body_nonempty : body <> [].

Let n := length (slip_stuff body).
Let frame := SLIP_END :: slip_stuff body ++ SLIP_END :: rest.

(** From just behind the opening [END] to the end of the buffer: one
    packet is dispatched, and the closing [END] is kept as the only byte
    of the buffer. *)
Lemma scan_frame_tail fuel :
  rx_loop (n + S fuel) (scan_at frame (n + 2) IN_PACKET 1 [] ev)
  = Some (scan_at (SLIP_END :: skipn 1 frame) 1 IN_PACKET 1 []
            (ev ++ [RxDispatch body])).
Proof.
  etransitivity;
    [apply (scan_stuffed frame (n + 2) ev (SLIP_END :: rest) body 1 []
              (S fuel));
     [reflexivity | subst n; lia]|].
  fold n. cbn [app].
  assert (Hsk : skipn (1 + n) frame = SLIP_END :: rest).
  { subst frame n. cbn [Nat.add skipn].
    rewrite skipn_app, skipn_all, Nat.sub_diag. reflexivity. }
  pose proof (skipn_cons_nth _ _ _ _ Hsk) as [Hn _].
  rx_step (body_end_full frame (n + 2) ev (1 + n) body Hn ltac:(lia)
             body_nonempty).
  rewrite rx_loop_done.
  - unfold rx_incr, scan_at. cbn [sc_g sc_i sc_pcpkt sc_ev].
    replace (n + 2 - (1 + n))%nat with 1%nat by lia.
    unfold memmove. rewrite Hsk. reflexivity.
  - cbn [rx_incr scan_at sc_g sc_i Slix]. lia.
Qed.

(** The frame at the start of the buffer. *)
Lemma scan_whole_frame :
  rx_loop (n + 2) (scan_at frame (n + 2) IN_PACKET 0 [] ev)
  = Some (scan_at (SLIP_END :: skipn 1 frame) 1 IN_PACKET 1 []
            (ev ++ [RxDispatch body])).
Proof.
  replace (n + 2)%nat with (S (n + 1)) at 1 by lia.
  rx_step (body_end_empty frame (n + 2) ev 0 eq_refl ltac:(lia)).
  rewrite Nat.sub_0_r, memmove_zero.
  replace (n + 1)%nat with (n + S 0)%nat by lia.
  apply scan_frame_tail.
Qed.

End Frame.

(** The frame behind the [END] kept from the previous one.  The [memmove]
    that drops the old [END] leaves a stale copy of the last byte behind
    the frame. *)
Lemma scan_frame_after_end body rest ev :
  body <> [] ->
  let frame := SLIP_END :: slip_stuff body ++ SLIP_END :: rest in
  let n := length (slip_stuff body) in
  exists rest',
    rx_loop (n + 3) (scan_at (SLIP_END :: frame) (n + 3) IN_PACKET 0 [] ev)
    = Some (scan_at (SLIP_END :: rest') 1 IN_PACKET 1 []
              (ev ++ [RxDispatch body])).
Proof.
  intros Hb frame n.
  assert (Hm : memmove (SLIP_END :: frame) 1 (n + 2)
               = SLIP_END :: slip_stuff body ++ SLIP_END :: SLIP_END :: rest).
  { unfold memmove. subst frame.
    replace (n + 2)%nat with (S (S n)) by lia.
    set (L := slip_stuff body ++ SLIP_END :: rest).
    change (skipn 1 (SLIP_END :: SLIP_END :: L)) with (SLIP_END :: L).
    change (skipn (S (S n)) (SLIP_END :: SLIP_END :: L)) with (skipn n L).
    rewrite firstn_cons. subst L.
    rewrite firstn_app, skipn_app.
    replace (S n - length (slip_stuff body))%nat with 1%nat by (subst n; lia).
    replace (n - length (slip_stuff body))%nat with 0%nat by (subst n; lia).
    rewrite firstn_all2, skipn_all2 by (subst n; lia).
    cbn [firstn skipn app]. rewrite <- app_assoc. reflexivity. }
  eexists.
  replace (n + 3)%nat with (S (S (n + 1))) at 1 by lia.
  rx_step (body_end_empty (SLIP_END :: frame) (n + 3) ev 0 eq_refl
             ltac:(lia)).
  rewrite Nat.sub_0_r, memmove_zero.
  rx_step (body_end_empty (SLIP_END :: frame) (n + 3) ev 1 eq_refl
             ltac:(lia)).
  replace (n + 3 - 1)%nat with (n + 2)%nat by lia.
  rewrite Hm.
  replace (n + 1)%nat with (n + S 0)%nat by lia.
  apply (scan_frame_tail body (SLIP_END :: rest) ev Hb 0).
Qed.

(** One call of [receivePkt] on a read that holds exactly one frame. *)
Lemma receive_frame body g :
  body <> [] -> (length (slip_stuff body) + 3 <= RXBUF_SZ)%nat -> rx_idle g ->
  exists r,
    receivePkt g (RdBytes (SLIP_END :: slip_stuff body ++ [SLIP_END])) = Some r
    /\ rx_ev r = [RxDispatch body] /\ rx_idle (rx_g r).
Proof.
  intros Hb Hsz [Hst Hix]. unfold receivePkt.
  set (n := length (slip_stuff body)) in *.
  set (frame := SLIP_END :: slip_stuff body ++ [SLIP_END]).
  assert (Hlen : length frame = (n + 2)%nat).
  { subst frame n. cbn [length]. rewrite length_app. cbn [length]. lia. }
  destruct g as [buf slix st]. cbn [s_slstate Slix Slrx] in *. subst st.
  rewrite firstn_all2 by (destruct Hix as [->|[-> _]]; lia).
  unfold frame at 1. rewrite Hlen.
  destruct Hix as [-> | [-> [rest ->]]].
  - pose proof (scan_whole_frame body (skipn (n + 2) buf) [] Hb) as H.
    fold n in H.
    replace (blit buf 0 frame)
      with (SLIP_END :: slip_stuff body ++ SLIP_END :: skipn (n + 2) buf).
    2:{ unfold blit. cbn [firstn app Nat.add]. rewrite Hlen.
        unfold frame. rewrite <- app_comm_cons, <- app_assoc.
        reflexivity. }
    change (0 + (n + 2))%nat with (n + 2)%nat.
    match goal with
    | |- context [rx_loop _ ?s] =>
        change s with (scan_at (SLIP_END :: slip_stuff body ++ SLIP_END
                                  :: skipn (n + 2) buf)
                         (n + 2) IN_PACKET 0 [] [])
    end.
    rewrite H. eexists. split; [reflexivity|].
    cbn [rx_ev rx_g scan_at sc_g sc_ev app]. split; [reflexivity|].
    split; [reflexivity|]. right. split; [reflexivity|]. eexists. reflexivity.
  - pose proof (scan_frame_after_end body
                  (skipn (1 + (n + 2)) (SLIP_END :: rest)) [] Hb) as H.
    cbv zeta in H. fold n in H. destruct H as [rest' H].
    replace (blit (SLIP_END :: rest) 1 frame)
      with (SLIP_END :: SLIP_END :: slip_stuff body ++ SLIP_END
              :: skipn (1 + (n + 2)) (SLIP_END :: rest)).
    2:{ unfold blit. rewrite Hlen. unfold frame.
        change (firstn 1 (SLIP_END :: rest)) with [SLIP_END].
        rewrite <- !app_comm_cons, <- app_assoc. reflexivity. }
    replace (1 + (n + 2))%nat with (n + 3)%nat in * by lia.
    match goal with
    | |- context [rx_loop _ ?s] =>
        change s with (scan_at (SLIP_END :: SLIP_END :: slip_stuff body
                                  ++ SLIP_END
                                  :: skipn (n + 3) (SLIP_END :: rest))
                         (n + 3) IN_PACKET 0 [] [])
    end.
    rewrite H. eexists. split; [reflexivity|].
    cbn [rx_ev rx_g scan_at sc_g sc_ev app]. split; [reflexivity|].
    split; [reflexivity|]. right. split; [reflexivity|]. eexists. reflexivity.
Qed.

(** The round trip of a frame that arrives whole.  For every packet [P] of
    4 to 512 bytes: when the frame [pctoslip] builds from [P] is read by one
    call of [receivePkt] while the decoder sits between frames in the
    in-packet state, the scan loop hands exactly one packet to
    [dispatch_packet], namely [P] followed by the two CRC bytes, logs
    nothing, and is again between frames. *)
Theorem slip_roundtrip : forall (P : list Z) (g : rx_globals),
  (4 <= length P <= 512)%nat ->
  Forall is_byte P ->
  rx_idle g ->
  let crc := crc16 P (length P) in
  exists r,
    receivePkt g (RdBytes (so_slppkt (pctoslip P (length P)))) = Some r /\
    rx_ev r = [RxDispatch (P ++ [crc_hi crc; crc_lo crc])] /\
    dispatched (rx_ev r) = [P ++ [crc_hi crc; crc_lo crc]] /\
    rx_idle (rx_g r).
Proof.
  intros P g Hlen _ Hidle crc.
  assert (HP : (length P <= PC_PKTLEN)%nat) by (unfold PC_PKTLEN; lia).
  rewrite (pctoslip_frame P HP). fold crc. cbn [so_slppkt].
  set (body := P ++ [crc_hi crc; crc_lo crc]).
  assert (Hbl : length body = (length P + 2)%nat)
    by (subst body; rewrite length_app; reflexivity).
  destruct (receive_frame body g) as (r & Hr & Hev & Hid).
  - intros E. rewrite E in Hbl. simpl in Hbl. lia.
  - pose proof (slip_stuff_length body). unfold RXBUF_SZ. lia.
  - exact Hidle.
  - exists r. rewrite Hev. repeat split; try assumption; apply Hid.
Qed.

Lemma slip_roundtrip_witness :
  exists r,
    receivePkt rx_start
      (RdBytes (so_slppkt (pctoslip [0xF4; 0xE1; 192; 219] 4))) = Some r /\
    rx_ev r = [RxDispatch ([0xF4; 0xE1; 192; 219]
                 ++ [crc_hi (crc16 [0xF4; 0xE1; 192; 219] 4);
                     crc_lo (crc16 [0xF4; 0xE1; 192; 219] 4)])] /\
    dispatched (rx_ev r)
      = [[0xF4; 0xE1; 192; 219]
           ++ [crc_hi (crc16 [0xF4; 0xE1; 192; 219] 4);
               crc_lo (crc16 [0xF4; 0xE1; 192; 219] 4)]] /\
    rx_idle (rx_g r).
Proof.
  apply (slip_roundtrip [0xF4; 0xE1; 192; 219] rx_start).
  - simpl. lia.
  - repeat constructor; unfold is_byte; lia.
  - split; [reflexivity | left; reflexivity].
Defined.

(** C1, on the code.  The round trip is lost at a read boundary.  Each call
    of [receivePkt] scans the buffer again from its start with an empty
    packet, while [s_slstate] is kept from the call before: the frame of
    the packet [F8 E1 00 01 C0], read whole, is dispatched, but the same ten
    bytes in two reads, the first ending just behind the [ESC], give one
    [M_BADSLIP] and no packet.  And for every packet of 511 or 512 bytes
    the frame is longer than the [PC_PKTLEN] bytes of the array in which
    [pc_tx_pkt] has [pctoslip] build it. *)
Theorem frame_split_behind_escape :
  option_map snd
    (receive_reads rx_start
       [[0xC0; 0xF8; 0xE1; 0x00; 0x01; 0xDB]; [0xDC; 0x25; 0x58; 0xC0]])
  = Some [RxLog M_BADSLIP]
  /\ so_slppkt (pctoslip [0xF8; 0xE1; 0x00; 0x01; 0xC0] 5)
     = [0xC0; 0xF8; 0xE1; 0x00; 0x01; 0xDB] ++ [0xDC; 0x25; 0x58; 0xC0]
  /\ option_map rx_ev
       (receivePkt rx_start
          (RdBytes ([0xC0; 0xF8; 0xE1; 0x00; 0x01; 0xDB]
                      ++ [0xDC; 0x25; 0x58; 0xC0])))
     = Some [RxDispatch [0xF8; 0xE1; 0x00; 0x01; 0xC0; 0x25; 0x58]]
  /\ (forall P : list Z,
        (511 <= length P <= 512)%nat -> ~ sltx_fits P (length P)).
Proof.
  split; [vm_compute; reflexivity|].
  split; [vm_compute; reflexivity|].
  split; [vm_compute; reflexivity|].
  intros P HP. unfold sltx_fits.
  rewrite pctoslip_frame by (unfold PC_PKTLEN; lia).
  cbn [so_slppkt length]. rewrite length_app. cbn [length].
  pose proof (slip_stuff_length
                (P ++ [crc_hi (crc16 P (length P));
                       crc_lo (crc16 P (length P))])) as Hs.
  rewrite length_app in Hs. cbn [length] in Hs.
  unfold PC_PKTLEN. lia.
Qed.

Lemma frame_split_behind_escape_witness :
  ~ sltx_fits (repeat 0 511%nat) (length (repeat 0 511%nat)).
Proof.
  apply (proj2 (proj2 (proj2 frame_split_behind_escape))
           (repeat 0 511%nat)).
  rewrite repeat_length. lia.
Defined.

(* ================================================================= *)
(** ** A violated escape sequence *)

(** C2, on the code.  Read in the in-packet state, the stream
    [C0 01 DB FF 02 C0] logs nothing and leaves the decoder in the
    in-escape state holding the partial frame; the same happens from the
    start-up state.  A well-formed frame that follows in the same read is
    swallowed as well; when it follows in a read of its own, one protocol
    error is logged, the bytes [FF 02] are dispatched as a packet and the
    frame itself is not delivered.  The same frame read on its own is
    delivered. *)
Theorem bad_escape_goes_unnoticed :
  receivePkt rx_start (RdBytes bad_escape_stream)
  = Some {| rx_g := {| Slrx := bad_escape_stream; Slix := 6%nat;
                       s_slstate := INESCAPE |};
            rx_ev := [] |}
  /\ option_map (fun r => (rx_ev r, s_slstate (rx_g r)))
        (receivePkt rx_boot (RdBytes bad_escape_stream))
     = Some ([], INESCAPE)
  /\ option_map (fun r => (rx_ev r, s_slstate (rx_g r)))
        (receivePkt rx_start (RdBytes (bad_escape_stream ++ good_frame)))
     = Some ([], INESCAPE)
  /\ option_map snd (receive_reads rx_start [bad_escape_stream; good_frame])
     = Some [RxLog M_BADSLIP; RxDispatch [0xFF; 0x02]]
  /\ option_map rx_ev (receivePkt rx_start (RdBytes good_frame))
     = Some [RxDispatch [0xF8; 0xE1; 0x00; 0x01; 0x05; 0xAC; 0xB1]].
Proof.
  repeat split; vm_compute; reflexivity.
Qed.

(* ================================================================= *)
(** ** The packet router *)

Lemma pktcore_range b : 0 <= Z.land b 0x0f < NUM_CORE.
Proof.
  change 0x0f with (Z.ones 4). rewrite Z.land_ones by lia.
  unfold NUM_CORE. apply Z.mod_pos_bound. lia.
Qed.

Lemma op_read_bit c :
  Z.land c PC_CMD_OP_MASK = PC_CMD_OP_READ -> Z.land c PC_CMD_OP_READ <> 0.
Proof.
  intros H.
  replace (Z.land c PC_CMD_OP_READ)
    with (Z.land (Z.land c PC_CMD_OP_MASK) PC_CMD_OP_READ)
    by (rewrite <- Z.land_assoc; reflexivity).
  rewrite H. discriminate.
Qed.

(** One frame in front of one core table. *)
Section Dispatch.

Variables (Core : list CORE) (trace : bool) (inbuf : list Z) (len : Z).

(** What [bogus == 0] means. *)
Lemma dispatch_bogus_zero :
  dispatch_bogus inbuf len = 0 ->
  6 <= len /\
  crc16 inbuf (Z.to_nat len) = 0 /\
  Z.land (cmd (as_pkt inbuf)) PC_CMD_OP_MASK <> 0 /\
  (Z.land (cmd (as_pkt inbuf)) PC_CMD_OP_READ <> 0 ->
   nth (Z.to_nat (len - 3)) inbuf 0 = count (as_pkt inbuf) - (len - 7)).
Proof.
  unfold dispatch_bogus.
  destruct (len <? 6) eqn:E1; [discriminate|].
  destruct (crc16 inbuf (Z.to_nat len) =? 0) eqn:E2; [|discriminate].
  destruct (Z.land (cmd (as_pkt inbuf)) PC_CMD_OP_MASK =? 0) eqn:E3;
    [discriminate|].
  destruct (Z.land (core (as_pkt inbuf)) 0x0f >=? NUM_CORE) eqn:E4;
    [discriminate|].
  cbn [negb]. apply Z.ltb_ge in E1. apply Z.eqb_eq in E2.
  apply Z.eqb_neq in E3. intros H. repeat split; try assumption.
  intros Hrd. apply Z.eqb_neq in Hrd. rewrite Hrd in H. cbn [negb] in H.
  destruct (nth (Z.to_nat (len - 3)) inbuf 0
            =? count (as_pkt inbuf) - (len - 7)) eqn:E5;
    [now apply Z.eqb_eq in E5 | discriminate].
Qed.

(** A callback is reached on one path only. *)
Lemma dispatch_call_inv cb slot ppkt n :
  In (DCall cb slot ppkt n) (dispatch_packet Core trace inbuf len) ->
  dispatch_bogus inbuf len = 0 /\
  exists c,
    nth_error Core (Z.to_nat (Z.land (core (as_pkt inbuf)) 0x0f)) = Some c /\
    pcb c <> 0 /\ cb = pcb c /\ slot = slot_id c /\
    ppkt = as_pkt inbuf /\ n = len - 2.
Proof.
  unfold dispatch_packet.
  destruct (dispatch_bogus inbuf len =? 0) eqn:Eb; cbn [negb].
  - apply Z.eqb_eq in Eb. intros H. split; [exact Eb|].
    apply in_app_or in H. destruct H as [H|H].
    { destruct trace; simpl in H; [destruct H as [H|[]]; discriminate|easy]. }
    destruct (nth_error Core _) as [c|] eqn:Ec.
    + destruct (pcb c =? 0) eqn:Ep; cbn [negb] in H.
      * destruct H as [H|[]]. discriminate.
      * destruct H as [H|[]]. inversion H; subst. exists c.
        apply Z.eqb_neq in Ep. repeat split; trivial.
    + destruct H as [H|[]]. discriminate.
  - intros [H|H]; [discriminate|].
    destruct trace; simpl in H; [destruct H as [H|[]]; discriminate|easy].
Qed.

End Dispatch.

(** A core table in which core 1 has a driver that registered its callback
    while [slot_id] still holds the -1 of [globalinit]. *)
Example overloaded_Core_entry :
  nth_error (register_pcb globalinit_Core 1 0x1000) 1
  = Some {| slot_id := -1; core_id := 1; driv_id := 0; pcb := 0x1000 |}.
Proof. vm_compute. reflexivity. Qed.

(** C3, as stated, fails: the callback of a core is called although the
    [slot_id] of the core is not an index of the slot table. *)
Lemma dispatch_calls_with_invalid_slot :
  dispatch_packet (register_pcb globalinit_Core 1 0x1000) false
    [0xF8; 0xE1; 0x00; 0x01; 0x05; 0xAC; 0xB1] 7
  = [DCall 0x1000 (-1)
       (as_pkt [0xF8; 0xE1; 0x00; 0x01; 0x05; 0xAC; 0xB1]) 5]
  /\ forall MX_SLOT, ~ valid_slot MX_SLOT (-1).
Proof.
  split; [vm_compute; reflexivity|]. intros mx [H _]. lia.
Qed.

(** C3, amended.  A callback is called only for a frame of at least 6
    bytes whose CRC over the whole frame is 0 and whose core has a non-null
    [pcb]; it is that [pcb], called with the core's [slot_id] as it stands
    (unchecked), the frame itself and its length less the CRC.  A frame of
    6 bytes or more whose CRC is not 0 is logged as [M_BADPKT] and nothing
    else happens; a frame that passes the checks for a core with a null
    [pcb] is logged as [M_NOSO] and no callback is called. *)
Theorem dispatch_call_guard :
  forall (Core : list CORE) (trace : bool) (inbuf : list Z) (len : Z),
  (forall cb slot ppkt n,
     In (DCall cb slot ppkt n) (dispatch_packet Core trace inbuf len) ->
     6 <= len /\ crc16 inbuf (Z.to_nat len) = 0 /\
     exists c,
       nth_error Core (Z.to_nat (Z.land (core (as_pkt inbuf)) 0x0f)) = Some c
       /\ pcb c <> 0 /\ cb = pcb c /\ slot = slot_id c
       /\ ppkt = as_pkt inbuf /\ n = len - 2)
  /\ (6 <= len -> crc16 inbuf (Z.to_nat len) <> 0 ->
      dispatch_packet Core trace inbuf len
      = DLog M_BADPKT
          :: (if trace then [DDump false (firstn (Z.to_nat len) inbuf)]
              else []))
  /\ (forall c,
        dispatch_bogus inbuf len = 0 ->
        nth_error Core (Z.to_nat (Z.land (core (as_pkt inbuf)) 0x0f)) = Some c ->
        pcb c = 0 ->
        dispatch_packet Core trace inbuf len
        = (if trace then [DDump true (firstn (Z.to_nat len) inbuf)] else [])
            ++ [DLog (M_NOSO (core_id c))]).
Proof.
  intros Core trace inbuf len. split; [|split].
  - intros cb slot ppkt n H.
    apply dispatch_call_inv in H as [Hb Hc].
    apply dispatch_bogus_zero in Hb as (H6 & Hcrc & _). auto.
  - intros H6 Hcrc. unfold dispatch_packet, dispatch_bogus.
    apply Z.ltb_ge in H6. apply Z.eqb_neq in Hcrc. rewrite H6, Hcrc.
    reflexivity.
  - intros c Hb Hc Hp. unfold dispatch_packet. rewrite Hb, Hc, Hp.
    reflexivity.
Qed.

Lemma dispatch_call_guard_witness :
  (6 <= 7 /\ crc16 [0xF8; 0xE1; 0x00; 0x01; 0x05; 0xAC; 0xB1] 7 = 0)
  /\ dispatch_packet globalinit_Core true
       [0xF8; 0xE1; 0x00; 0x01; 0x05; 0xAC; 0xB0] 7
     = [DLog M_BADPKT;
        DDump false [0xF8; 0xE1; 0x00; 0x01; 0x05; 0xAC; 0xB0]]
  /\ dispatch_packet globalinit_Core false
       [0xF8; 0xE1; 0x00; 0x01; 0x05; 0xAC; 0xB1] 7
     = [DLog (M_NOSO 1)].
Proof.
  split; [|split].
  - pose proof (dispatch_call_guard (register_pcb globalinit_Core 1 0x1000)
                  false [0xF8; 0xE1; 0x00; 0x01; 0x05; 0xAC; 0xB1] 7)
      as [H _].
    destruct (H 0x1000 (-1)
                (as_pkt [0xF8; 0xE1; 0x00; 0x01; 0x05; 0xAC; 0xB1]) 5
                ltac:(vm_compute; left; reflexivity)) as (H6 & Hcrc & _).
    split; assumption.
  - apply (dispatch_call_guard globalinit_Core true
             [0xF8; 0xE1; 0x00; 0x01; 0x05; 0xAC; 0xB0] 7).
    + lia.
    + vm_compute. discriminate.
  - apply (proj2 (proj2 (dispatch_call_guard globalinit_Core false
             [0xF8; 0xE1; 0x00; 0x01; 0x05; 0xAC; 0xB1] 7))
             {| slot_id := -1; core_id := 1; driv_id := 0; pcb := 0 |});
      vm_compute; reflexivity.
Defined.

(** C5. A frame shorter than 6 bytes is logged as [M_BADPKT] and reaches
    no callback; and when a frame whose op field is "read" reaches a
    callback, its third byte from the end equals the requested count less
    the returned bytes, [count - (len - 7)]. *)
Theorem dispatch_length_and_remaining :
  forall (Core : list CORE) (trace : bool) (inbuf : list Z) (len : Z),
  (len < 6 ->
   dispatch_packet Core trace inbuf len
   = DLog M_BADPKT
       :: (if trace then [DDump false (firstn (Z.to_nat len) inbuf)] else [])
   /\ forallb (fun e => negb (is_call e))
        (dispatch_packet Core trace inbuf len) = true)
  /\ (forall cb slot ppkt n,
        Z.land (cmd (as_pkt inbuf)) PC_CMD_OP_MASK = PC_CMD_OP_READ ->
        In (DCall cb slot ppkt n) (dispatch_packet Core trace inbuf len) ->
        6 <= len /\
        nth (Z.to_nat (len - 3)) inbuf 0
        = count (as_pkt inbuf) - (len - 7)).
Proof.
  intros Core trace inbuf len. split.
  - intros Hlt. apply Z.ltb_lt in Hlt.
    assert (E : dispatch_packet Core trace inbuf len
                = DLog M_BADPKT
                    :: (if trace
                        then [DDump false (firstn (Z.to_nat len) inbuf)]
                        else [])).
    { unfold dispatch_packet, dispatch_bogus. rewrite Hlt. reflexivity. }
    split; [exact E|]. rewrite E. now destruct trace.
  - intros cb slot ppkt n Hop H.
    apply dispatch_call_inv in H as [Hb _].
    apply dispatch_bogus_zero in Hb as (H6 & _ & _ & Hrem).
    split; [exact H6|]. apply Hrem, op_read_bit, Hop.
Qed.

(** A read response of core 1 that returns one of three requested bytes:
    [count = 3], one data byte, [remaining = 2]. *)
Lemma dispatch_length_and_remaining_witness :
  (dispatch_packet globalinit_Core false [0xF4; 0xE1; 0x00; 0x03; 0x00] 5
   = [DLog M_BADPKT]
   /\ forallb (fun e => negb (is_call e))
        (dispatch_packet globalinit_Core false
           [0xF4; 0xE1; 0x00; 0x03; 0x00] 5) = true)
  /\ (6 <= 8 /\
      nth (Z.to_nat (8 - 3)) [0xF4; 0xE1; 0x00; 0x03; 0x2A; 0x02; 0x96; 0x7F] 0
      = count (as_pkt [0xF4; 0xE1; 0x00; 0x03; 0x2A; 0x02; 0x96; 0x7F])
        - (8 - 7)).
Proof.
  split.
  - apply (dispatch_length_and_remaining globalinit_Core false
             [0xF4; 0xE1; 0x00; 0x03; 0x00] 5). lia.
  - apply (proj2 (dispatch_length_and_remaining
                    (register_pcb globalinit_Core 1 0x1000) false
                    [0xF4; 0xE1; 0x00; 0x03; 0x2A; 0x02; 0x96; 0x7F] 8)
             0x1000 (-1)
             (as_pkt [0xF4; 0xE1; 0x00; 0x03; 0x2A; 0x02; 0x96; 0x7F]) 6).
    + vm_compute. reflexivity.
    + vm_compute. left. reflexivity.
Defined.

(** C10. The core index of a frame, the core byte masked with 0x0F, is
    always below [NUM_CORE]; no frame sets [bogus] to 4; and with a core
    table of [NUM_CORE] entries no frame makes [dispatch_packet] index the
    table out of range. *)
Theorem dispatch_core_in_range :
  forall (inbuf : list Z) (len : Z),
  0 <= Z.land (core (as_pkt inbuf)) 0x0f < NUM_CORE
  /\ dispatch_bogus inbuf len <> 4
  /\ (forall Core trace,
        Z.of_nat (length Core) = NUM_CORE ->
        ~ In DFault (dispatch_packet Core trace inbuf len)).
Proof.
  intros inbuf len.
  pose proof (pktcore_range (core (as_pkt inbuf))) as Hr.
  split; [exact Hr|]. split.
  - unfold dispatch_bogus.
    destruct (len <? 6); [discriminate|].
    destruct (negb (crc16 inbuf (Z.to_nat len) =? 0)); [discriminate|].
    destruct (Z.land (cmd (as_pkt inbuf)) PC_CMD_OP_MASK =? 0);
      [discriminate|].
    destruct (Z.land (core (as_pkt inbuf)) 0x0f >=? NUM_CORE) eqn:E.
    + rewrite Z.geb_leb in E. apply Z.leb_le in E. lia.
    + destruct (negb (Z.land (cmd (as_pkt inbuf)) PC_CMD_OP_READ =? 0));
        [|discriminate].
      destruct (negb _); discriminate.
  - intros Core trace Hlen Hin. unfold dispatch_packet in Hin.
    destruct (negb (dispatch_bogus inbuf len =? 0)).
    + destruct Hin as [H|H]; [discriminate|].
      destruct trace; simpl in H; [destruct H as [H|[]]; discriminate|easy].
    + apply in_app_or in Hin. destruct Hin as [H|H].
      { destruct trace; simpl in H; [destruct H as [H|[]]; discriminate|easy]. }
      destruct (nth_error Core _) as [c|] eqn:Ec.
      * destruct (negb (pcb c =? 0)); destruct H as [H|[]]; discriminate.
      * apply nth_error_None in Ec. lia.
Qed.

Lemma dispatch_core_in_range_witness :
  0 <= Z.land (core (as_pkt [0xF8; 0xFF; 0x00; 0x01; 0x05; 0x00; 0x00])) 0x0f
    < NUM_CORE
  /\ dispatch_bogus [0xF8; 0xFF; 0x00; 0x01; 0x05; 0x00; 0x00] 7 <> 4
  /\ ~ In DFault (dispatch_packet globalinit_Core true
                    [0xF8; 0xFF; 0x00; 0x01; 0x05; 0x00; 0x00] 7).
Proof.
  pose proof (dispatch_core_in_range
                [0xF8; 0xFF; 0x00; 0x01; 0x05; 0x00; 0x00] 7) as (H1 & H2 & H3).
  split; [exact H1|]. split; [exact H2|].
  apply (H3 globalinit_Core true). vm_compute. reflexivity.
Defined.

(* ================================================================= *)
(** ** The sanity nibbles *)



(** With a port and a length of 4 or more, [write] is called once, on the
    frame of the packet with the two bytes or-ed. *)
Lemma pc_tx_pkt_written lk pcore inpkt len :
  4 <= len -> fpgaFD lk <> -1 ->
  written (tx_ev (pc_tx_pkt lk pcore inpkt len))
  = [so_slppkt
       (pctoslip
          (pkt_bytes {| cmd := uint8 (Z.lor (cmd inpkt) 0xf0);
                        core := uint8 (Z.lor (core inpkt) 0xe0);
                        reg := reg inpkt; count := count inpkt;
                        data := data inpkt |})
          (Z.to_nat len))].
Proof.
  intros Hlen Hfd. unfold pc_tx_pkt.
  apply Z.ltb_ge in Hlen. apply Z.eqb_neq in Hfd. rewrite Hlen, Hfd.
  destruct (negb _); cbn [tx_ev]; destruct (trace lk);
    try destruct (_ && _); reflexivity.
Qed.




(* ================================================================= *)
(** ** Return value of [pc_tx_pkt] *)

(** How the return value comes about, for a length of 4 or more and an
    open port: 0 when [write] reports the length of the frame, else
    whatever [write] returned. *)
Lemma pc_tx_pkt_ret lk pcore inpkt len :
  4 <= len -> fpgaFD lk <> -1 ->
  exists frame,
    written (tx_ev (pc_tx_pkt lk pcore inpkt len)) = [frame] /\
    tx_ret (pc_tx_pkt lk pcore inpkt len)
    = if sntcount (sys_write lk frame) =? Z.of_nat (length frame) then 0
      else sntcount (sys_write lk frame).
Proof.
  intros Hlen Hfd. eexists. split.
  - apply pc_tx_pkt_written; assumption.
  - unfold pc_tx_pkt. apply Z.ltb_ge in Hlen. apply Z.eqb_neq in Hfd.
    rewrite Hlen, Hfd. unfold pctoslip_ret.
    match goal with
    | |- context [negb (?a =? ?b)] => destruct (a =? b)
    end; reflexivity.
Qed.

(** C7, on the code.  When [write] takes 3 of the 9 bytes of a frame the
    call returns 3, a positive value; a full port ([EAGAIN]), a failed port
    ([EIO], 5), a missing port and a packet that is too short all return
    the same -1. *)
Theorem pc_tx_pkt_return_values :
  tx_ret (pc_tx_pkt link_ok core1
            sample_write 5) = 0
  /\ tx_ret (pc_tx_pkt link_partial core1
            sample_write 5) = 3
  /\ written (tx_ev (pc_tx_pkt link_partial core1
            sample_write 5))
     = [[0xC0; 0xF8; 0xE1; 0x00; 0x01; 0x05; 0xAC; 0xB1; 0xC0]]
  /\ tx_ret (pc_tx_pkt (link_failing EAGAIN) core1
            sample_write 5) = -1
  /\ tx_ret (pc_tx_pkt (link_failing 5) core1
            sample_write 5) = -1
  /\ tx_ret (pc_tx_pkt link_closed core1
            sample_write 5) = -1
  /\ tx_ret (pc_tx_pkt link_ok core1
            sample_write 3) = -1.
Proof.
  repeat split; vm_compute; reflexivity.
Qed.

(* ================================================================= *)
(** ** The drivers' packet handlers *)

(** In the [basys3] and in the [hostserial] driver, when the watchdog
    handle [ptimer] is not 0 and a packet whose op field is "write" reaches
    the packet handler, the handler calls [del_timer] on that handle, does
    nothing else, and leaves 0 in [ptimer]. *)
Theorem write_ack_cancels_watchdog :
  (forall dm pslot pkt len,
     Basys3.ptimer (priv pslot) <> 0 ->
     Z.land (cmd pkt) PC_CMD_OP_MASK = PC_CMD_OP_WRITE ->
     snd (Basys3.packet_hdlr dm pslot pkt len)
     = [EvDelTimer (Basys3.ptimer (priv pslot))]
     /\ Basys3.ptimer (priv (fst (Basys3.packet_hdlr dm pslot pkt len))) = 0)
  /\ (forall pslot pkt len,
        Hostserial.ptimer (priv pslot) <> 0 ->
        Z.land (cmd pkt) PC_CMD_OP_MASK = PC_CMD_OP_WRITE ->
        snd (Hostserial.packet_hdlr pslot pkt len)
        = [EvDelTimer (Hostserial.ptimer (priv pslot))]
        /\ Hostserial.ptimer (priv (fst (Hostserial.packet_hdlr pslot pkt len)))
           = 0).
Proof.
  split.
  - intros dm pslot pkt len Ht Hop. unfold Basys3.packet_hdlr.
    apply Z.eqb_eq in Hop. apply Z.eqb_neq in Ht. rewrite Hop, Ht.
    split; reflexivity.
  - intros pslot pkt len Ht Hop. unfold Hostserial.packet_hdlr.
    apply Z.eqb_eq in Hop. apply Z.eqb_neq in Ht. rewrite Hop, Ht.
    split; reflexivity.
Qed.

Lemma write_ack_cancels_watchdog_witness :
  (snd (Basys3.packet_hdlr (daemon_on link_ok) (basys3_waiting (-1) 42)
          (as_pkt [0xF8; 0xE0; 0x04; 0x04]) 4)
   = [EvDelTimer 42]
   /\ Basys3.ptimer (priv (fst (Basys3.packet_hdlr (daemon_on link_ok)
                                  (basys3_waiting (-1) 42)
                                  (as_pkt [0xF8; 0xE0; 0x04; 0x04]) 4))) = 0)
  /\ (snd (Hostserial.packet_hdlr (hostserial_waiting 42)
             (as_pkt [0xF8; 0xE2; 0x00; 0x01]) 4)
      = [EvDelTimer 42]
      /\ Hostserial.ptimer (priv (fst (Hostserial.packet_hdlr
                                         (hostserial_waiting 42)
                                         (as_pkt [0xF8; 0xE2; 0x00; 0x01]) 4)))
         = 0).
Proof.
  split.
  - apply (proj1 write_ack_cancels_watchdog (daemon_on link_ok)
             (basys3_waiting (-1) 42) (as_pkt [0xF8; 0xE0; 0x04; 0x04]) 4).
    + vm_compute. discriminate.
    + vm_compute. reflexivity.
  - apply (proj2 write_ack_cancels_watchdog (hostserial_waiting 42)
             (as_pkt [0xF8; 0xE2; 0x00; 0x01]) 4).
    + vm_compute. discriminate.
    + vm_compute. reflexivity.
Defined.

(** C8, on the code.  The packet handler of [avr] stores nothing into its
    context: when a response arrives while [ptimer] holds a handle, the
    handler calls [del_timer] on it for the packets it knows and only logs
    for any other, and in both cases the handle stays in [ptimer]. *)
Theorem avr_ack_keeps_handle :
  forall (pctx : Avr.AVRDEV) (pkt : PC_PKT) (len : Z),
  Avr.ptimer pctx <> 0 ->
  Avr.ptimer (Avr.head_ctx (Avr.packet_hdlr_head pctx pkt len))
  = Avr.ptimer pctx
  /\ (is_response pkt = true -> Avr.known_packet pctx pkt = true ->
      Avr.packet_hdlr_head pctx pkt len
      = Avr.HdReturn pctx [Avr.AvDelTimer (Avr.ptimer pctx)])
  /\ (Avr.known_packet pctx pkt = false ->
      Avr.packet_hdlr_head pctx pkt len
      = Avr.HdReturn pctx [Avr.AvLog Avr.M_INVALID]).
Proof.
  intros pctx pkt len Ht. unfold Avr.packet_hdlr_head.
  apply Z.eqb_neq in Ht. rewrite Ht. cbn [negb].
  split; [|split].
  - destruct (Avr.known_packet pctx pkt), (is_response pkt); reflexivity.
  - intros -> ->. reflexivity.
  - intros ->. reflexivity.
Qed.

Lemma avr_ack_keeps_handle_witness :
  Avr.packet_hdlr_head (avr_waiting 42) (as_pkt [0xF8; 0xE3; 0x01; 0x05]) 4
  = Avr.HdReturn (avr_waiting 42) [Avr.AvDelTimer 42]
  /\ Avr.packet_hdlr_head (avr_waiting 42) (as_pkt [0xF8; 0xE3; 0x05; 0x01]) 4
     = Avr.HdReturn (avr_waiting 42) [Avr.AvLog Avr.M_INVALID]
  /\ Z.land (cmd (as_pkt [0xF8; 0xE3; 0x01; 0x05])) PC_CMD_OP_MASK
     = PC_CMD_OP_WRITE.
Proof.
  split; [|split].
  - apply (proj1 (proj2 (avr_ack_keeps_handle (avr_waiting 42)
                           (as_pkt [0xF8; 0xE3; 0x01; 0x05]) 4
                           ltac:(discriminate)))).
    + reflexivity.
    + reflexivity.
  - apply (proj2 (proj2 (avr_ack_keeps_handle (avr_waiting 42)
                           (as_pkt [0xF8; 0xE3; 0x05; 0x01]) 4
                           ltac:(discriminate)))).
    reflexivity.
  - reflexivity.
Defined.

(* ================================================================= *)
(** ** Reading the switches of the [basys3] *)

Lemma nth_set_rsc l idx r d :
  (idx < length l)%nat -> nth idx (set_rsc l idx r) d = r.
Proof.
  intros H. unfold set_rsc.
  rewrite app_nth2; rewrite length_firstn, Nat.min_l by lia; [|lia].
  now rewrite Nat.sub_diag.
Qed.

(** A [pcget] of the switches takes the branch modelled by
    [Basys3.usercmd_get_switches]. *)
Lemma usercmd_select_switches :
  Basys3.usercmd_select PCGET Basys3.RSC_SWITCHES = Basys3.UcGetSwitches.
Proof. reflexivity. Qed.

(** C9, as stated, fails in two ways: the reply to the session is six hex
    digits and a newline, without the blank of [aa bbcc]; and when the
    link read cannot be sent (here: no port) the callback answers with
    [E_WRFPGA] and does not take the lock. *)
Lemma switches_reply_differs :
  snd (Basys3.packet_hdlr (daemon_on link_ok) (basys3_waiting 5 42)
         (switches_reply 0x34 0x12 0xab) 8)
  = [EvSendUi (String.append "ab1234" newline) 7 5; EvPrompt 5; EvDelTimer 42]
  /\ String.append "ab1234" newline <> spec_switch_text
  /\ Basys3.uc_plen (Basys3.usercmd_get_switches (daemon_on link_closed)
                       basys3_quiet 5 80) = 64
  /\ Basys3.uc_buf (Basys3.usercmd_get_switches (daemon_on link_closed)
                      basys3_quiet 5 80) = Some E_WRFPGA
  /\ uilock (nth Basys3.RSC_SWITCHES
               (rsc (Basys3.uc_slot
                       (Basys3.usercmd_get_switches (daemon_on link_closed)
                          basys3_quiet 5 80)))
               no_rsc) = -1.
Proof.
  split; [vm_compute; reflexivity|].
  split; [vm_compute; discriminate|].
  repeat split; vm_compute; reflexivity.
Qed.

(** C9, amended.  A [pcget] of the switches from session [cn], when
    [pc_tx_pkt] returns 0 for the read packet (op read with auto-increment,
    register 0, count 3, length 4): [*plen] is 0, [buf] is not written,
    the first call made is that [pc_tx_pkt], and the [uilock] of the
    switches is [cn] (for [cn] below 128).  When then a packet with bit 7
    of [cmd] set, an op other than write, register 0 and count 3 arrives:
    the handler sends the six hex digits of [data[2]], [data[1]],
    [data[0]] and a newline, 7 characters, to the session in [uilock],
    then the prompt to the same session, cancels the timer, and leaves -1
    in [uilock] and 0 in [ptimer].  When [pc_tx_pkt] does not return 0 the
    callback leaves the slot as it is and, given a buffer of at least one
    byte, answers with [E_WRFPGA]. *)
Theorem async_get_switches :
  (forall dm pslot cn plen,
     tx_ret (pc_tx_pkt (dm_link dm) (pcore pslot)
               (Basys3.switches_request (pcore pslot)) 4) = 0 ->
     (Basys3.RSC_SWITCHES < length (rsc pslot))%nat ->
     0 <= cn < 128 ->
     let r := Basys3.usercmd_get_switches dm pslot cn plen in
     Basys3.uc_plen r = 0 /\ Basys3.uc_buf r = None
     /\ hd_error (Basys3.uc_ev r)
        = Some (EvTx (pc_tx_pkt (dm_link dm) (pcore pslot)
                        (Basys3.switches_request (pcore pslot)) 4))
     /\ uilock (nth Basys3.RSC_SWITCHES (rsc (Basys3.uc_slot r)) no_rsc) = cn)
  /\ (forall dm pslot pkt len,
        is_response pkt = true ->
        Z.land (cmd pkt) PC_CMD_OP_MASK <> PC_CMD_OP_WRITE ->
        reg pkt = Basys3.BASYS_REG_SWITCHES -> count pkt = 3 ->
        (Basys3.RSC_SWITCHES < length (rsc pslot))%nat ->
        let cn := uilock (nth Basys3.RSC_SWITCHES (rsc pslot) no_rsc) in
        let r := Basys3.packet_hdlr dm pslot pkt len in
        snd r = [EvSendUi
                   (String.append (hex 2 (data_at pkt 2))
                      (String.append (hex 2 (data_at pkt 1))
                         (String.append (hex 2 (data_at pkt 0)) newline)))
                   7 cn;
                 EvPrompt cn;
                 EvDelTimer (Basys3.ptimer (priv pslot))]
        /\ uilock (nth Basys3.RSC_SWITCHES (rsc (fst r)) no_rsc) = -1
        /\ Basys3.ptimer (priv (fst r)) = 0)
  /\ (forall dm pslot cn plen,
        1 <= plen ->
        tx_ret (pc_tx_pkt (dm_link dm) (pcore pslot)
                  (Basys3.switches_request (pcore pslot)) 4) <> 0 ->
        let r := Basys3.usercmd_get_switches dm pslot cn plen in
        Basys3.uc_slot r = pslot
        /\ Basys3.uc_buf r = Some (fst (snprintf_text plen E_WRFPGA))
        /\ Basys3.uc_plen r = Z.of_nat (String.length E_WRFPGA)).
Proof.
  split; [|split].
  3:{ intros dm pslot cn plen _ Htx r. subst r.
      unfold Basys3.usercmd_get_switches.
      apply Z.eqb_neq in Htx. rewrite Htx. cbn [negb].
      repeat split; reflexivity. }
  - intros dm pslot cn plen Htx Hrsc Hcn r. subst r.
    unfold Basys3.usercmd_get_switches. rewrite Htx. cbn [Z.eqb negb].
    destruct (Basys3.ptimer (priv pslot) =? 0);
      cbn [Basys3.uc_plen Basys3.uc_buf Basys3.uc_ev Basys3.uc_slot
           set_slot_rsc set_priv rsc hd_error];
      rewrite nth_set_rsc by exact Hrsc; cbn [set_uilock uilock];
      rewrite to_char_small by exact Hcn; repeat split; reflexivity.
  - intros dm pslot pkt len Hresp Hop Hreg Hcnt Hrsc cn r. subst r cn.
    unfold Basys3.packet_hdlr.
    apply Z.eqb_neq in Hop. rewrite Hop, Hresp, Hreg, Hcnt.
    change (Basys3.BASYS_REG_SWITCHES =? Basys3.BASYS_REG_DRIVLIST) with false.
    change (Basys3.BASYS_REG_SWITCHES =? Basys3.BASYS_REG_SWITCHES) with true.
    change (3 =? 3) with true.
    cbn [andb fst snd app set_slot_rsc set_priv rsc priv].
    rewrite nth_set_rsc by exact Hrsc.
    repeat split; reflexivity.
Qed.

Lemma async_get_switches_witness :
  (Basys3.uc_plen (Basys3.usercmd_get_switches (daemon_on link_ok)
                     basys3_quiet 5 80) = 0
   /\ uilock (nth Basys3.RSC_SWITCHES
                (rsc (Basys3.uc_slot
                        (Basys3.usercmd_get_switches (daemon_on link_ok)
                           basys3_quiet 5 80)))
                no_rsc) = 5)
  /\ snd (Basys3.packet_hdlr (daemon_on link_ok) (basys3_waiting 5 42)
            (switches_reply 0x34 0x12 0xab) 8)
     = [EvSendUi (String.append "ab1234" newline) 7 5; EvPrompt 5;
        EvDelTimer 42]
  /\ Basys3.uc_slot (Basys3.usercmd_get_switches (daemon_on link_closed)
                       basys3_quiet 5 80) = basys3_quiet.
Proof.
  split; [|split].
  3:{ apply (proj2 (proj2 async_get_switches) (daemon_on link_closed)
               basys3_quiet 5 80).
      - lia.
      - vm_compute. discriminate. }
  - destruct (proj1 async_get_switches (daemon_on link_ok) basys3_quiet 5 80)
      as (H1 & _ & _ & H4).
    + vm_compute. reflexivity.
    + vm_compute. lia.
    + lia.
    + split; [exact H1 | exact H4].
  - destruct (proj1 (proj2 async_get_switches) (daemon_on link_ok)
                (basys3_waiting 5 42) (switches_reply 0x34 0x12 0xab) 8)
      as (H1 & _ & _).
    + vm_compute. reflexivity.
    + vm_compute. discriminate.
    + reflexivity.
    + reflexivity.
    + vm_compute. lia.
    + rewrite H1. vm_compute. reflexivity.
Defined.

(* ================================================================= *)
(** ** More on the frame [pctoslip] builds *)

Lemma slip_stuff_no_end l : ~ In SLIP_END (slip_stuff l).
Proof.
  induction l as [|b l IH]; simpl; [tauto|].
  destruct (b =? SLIP_END) eqn:E1; [|destruct (b =? SLIP_ESC) eqn:E2].
  - simpl. intros [H|[H|H]]; [discriminate H | discriminate H | tauto].
  - simpl. intros [H|[H|H]]; [discriminate H | discriminate H | tauto].
  - apply Z.eqb_neq in E1. simpl. intros [H|H]; [congruence | tauto].
Qed.

Lemma store_length buf idx v :
  (idx <= length buf)%nat ->
  (S idx <= length (store buf idx v))%nat /\
  (length buf <= length (store buf idx v))%nat /\
  firstn idx (store buf idx v) = firstn idx buf.
Proof.
  intros H. unfold store.
  rewrite length_app, length_firstn, Nat.min_l by exact H. cbn [length].
  rewrite length_skipn. repeat split; try lia.
  rewrite firstn_app, length_firstn, Nat.min_l by exact H.
  rewrite Nat.sub_diag, firstn_firstn, Nat.min_id. cbn [firstn].
  apply app_nil_r.
Qed.

(** The frame of the first [len] bytes of a buffer. *)
Lemma pctoslip_slppkt pcpkt len :
  (len <= PC_PKTLEN)%nat -> (len <= length pcpkt)%nat ->
  pctoslip pcpkt len
  = {| so_pcpkt := store (store pcpkt len (crc_hi (crc16 pcpkt len)))
                     (len + 1) (crc_lo (crc16 pcpkt len));
       so_slppkt := SLIP_END
                      :: slip_stuff (firstn len pcpkt
                                       ++ [crc_hi (crc16 pcpkt len);
                                           crc_lo (crc16 pcpkt len)])
                      ++ [SLIP_END] |}.
Proof.
  intros Hmax Hlen. unfold pctoslip.
  apply Nat.ltb_ge in Hmax. rewrite Hmax.
  set (crc := crc16 pcpkt len).
  set (b1 := store pcpkt len (crc_hi crc)).
  assert (E : firstn (len + 2) (store b1 (len + 1) (crc_lo crc))
              = firstn len pcpkt ++ [crc_hi crc; crc_lo crc]).
  { destruct (store_length pcpkt len (crc_hi crc) Hlen) as (L1 & _ & F1).
    fold b1 in L1, F1. unfold store at 1.
    assert (F2 : firstn (len + 1) b1 = firstn len pcpkt ++ [crc_hi crc]).
    { unfold b1, store. rewrite firstn_app, length_firstn, Nat.min_l by exact Hlen.
      replace (len + 1 - len)%nat with 1%nat by lia.
      rewrite firstn_all2 by (rewrite length_firstn; lia). reflexivity. }
    rewrite F2, <- app_assoc. cbn [app].
    rewrite firstn_app, length_firstn, Nat.min_l by exact Hlen.
    replace (len + 2 - len)%nat with 2%nat by lia.
    rewrite firstn_all2 by (rewrite length_firstn; lia). reflexivity. }
  rewrite E. reflexivity.
Qed.

(** X1. For a packet of [len <= PC_PKTLEN] bytes held in a buffer of at
    least [len] bytes, the frame is [END], a body without any [END], and
    [END]: the only [END] bytes on the wire are the two delimiters. *)
Theorem pctoslip_delimited : forall (pcpkt : list Z) (len : nat),
  (len <= PC_PKTLEN)%nat -> (len <= length pcpkt)%nat ->
  exists body,
    so_slppkt (pctoslip pcpkt len) = SLIP_END :: body ++ [SLIP_END] /\
    ~ In SLIP_END body /\
    body = slip_stuff (firstn len pcpkt
                         ++ [crc_hi (crc16 pcpkt len);
                             crc_lo (crc16 pcpkt len)]).
Proof.
  intros pcpkt len Hmax Hlen. rewrite (pctoslip_slppkt pcpkt len Hmax Hlen).
  cbn [so_slppkt]. eexists. split; [reflexivity|]. split; [|reflexivity].
  apply slip_stuff_no_end.
Qed.

Lemma pctoslip_delimited_witness :
  exists body,
    so_slppkt (pctoslip sample_buf 5)
    = SLIP_END :: body ++ [SLIP_END] /\
    ~ In SLIP_END body /\
    body = slip_stuff (firstn 5 sample_buf
                         ++ [crc_hi (crc16 sample_buf 5);
                             crc_lo (crc16 sample_buf 5)]).
Proof.
  apply (pctoslip_delimited sample_buf 5).
  - unfold PC_PKTLEN. lia.
  - simpl. lia.
Defined.

(** X2. The frame of a packet of [len] bytes has between [len + 4] and
    [2 * len + 6] bytes.  So it fits the [PC_PKTLEN] bytes of the array
    [sltx] of [pc_tx_pkt] for every packet of up to 254 bytes, and is
    longer than that array for every packet of 511 bytes or more. *)
Theorem pctoslip_frame_length : forall (pcpkt : list Z) (len : nat),
  (len <= PC_PKTLEN)%nat -> (len <= length pcpkt)%nat ->
  let n := length (so_slppkt (pctoslip pcpkt len)) in
  (len + 4 <= n <= 2 * len + 6)%nat /\
  (len <= 254 -> n <= PC_PKTLEN)%nat /\
  (511 <= len -> PC_PKTLEN < n)%nat.
Proof.
  intros pcpkt len Hmax Hlen n.
  assert (Hn : (len + 4 <= n <= 2 * len + 6)%nat).
  { subst n. rewrite (pctoslip_slppkt pcpkt len Hmax Hlen).
    cbn [so_slppkt length]. rewrite length_app. cbn [length].
    pose proof (slip_stuff_length
                  (firstn len pcpkt ++ [crc_hi (crc16 pcpkt len);
                                        crc_lo (crc16 pcpkt len)])) as Hs.
    rewrite length_app, length_firstn, Nat.min_l in Hs by exact Hlen.
    cbn [length] in Hs. lia. }
  split; [exact Hn|]. unfold PC_PKTLEN. split; lia.
Qed.

Lemma pctoslip_frame_length_witness :
  (5 + 4 <= length (so_slppkt (pctoslip sample_buf 5))
   <= 2 * 5 + 6)%nat.
Proof.
  apply (pctoslip_frame_length sample_buf 5).
  - unfold PC_PKTLEN. lia.
  - simpl. lia.
Defined.

(* ================================================================= *)
(** ** [crc16] is linear over exclusive or *)

Lemma land_lxor_distr a b m :
  Z.land (Z.lxor a b) m = Z.lxor (Z.land a m) (Z.land b m).
Proof.
  apply Z.bits_inj'. intros n Hn.
  rewrite Z.land_spec, !Z.lxor_spec, !Z.land_spec.
  destruct (Z.testbit a n), (Z.testbit b n), (Z.testbit m n); reflexivity.
Qed.

Lemma lxor_swap4 a b c d :
  Z.lxor (Z.lxor a b) (Z.lxor c d) = Z.lxor (Z.lxor a c) (Z.lxor b d).
Proof.
  apply Z.bits_inj'. intros n Hn. rewrite !Z.lxor_spec.
  destruct (Z.testbit a n), (Z.testbit b n), (Z.testbit c n),
    (Z.testbit d n); reflexivity.
Qed.

Lemma uint8_lxor a b : uint8 (Z.lxor a b) = Z.lxor (uint8 a) (uint8 b).
Proof. apply land_lxor_distr. Qed.

Lemma uint16_lxor a b : uint16 (Z.lxor a b) = Z.lxor (uint16 a) (uint16 b).
Proof. apply land_lxor_distr. Qed.

(** The three stages of a step, each linear. *)
Lemma crc16_stage1_lxor a a' c c' :
  uint8 (Z.lxor (Z.shiftr (Z.lxor a a') 8) (uint8 (Z.lxor c c')))
  = Z.lxor (uint8 (Z.lxor (Z.shiftr a 8) (uint8 c)))
           (uint8 (Z.lxor (Z.shiftr a' 8) (uint8 c'))).
Proof.
  rewrite (uint8_lxor c c'), (Z.shiftr_lxor a a' 8), lxor_swap4.
  apply uint8_lxor.
Qed.

Lemma crc16_stage2_lxor x x' :
  uint8 (Z.lxor (Z.lxor x x') (Z.shiftr (Z.lxor x x') 4))
  = Z.lxor (uint8 (Z.lxor x (Z.shiftr x 4)))
           (uint8 (Z.lxor x' (Z.shiftr x' 4))).
Proof.
  rewrite (Z.shiftr_lxor x x' 4), lxor_swap4. apply uint8_lxor.
Qed.

Lemma crc16_stage3_lxor a a' y y' :
  uint16 (Z.lxor (Z.lxor (Z.lxor (Z.shiftl (Z.lxor a a') 8)
                                 (Z.shiftl (Z.lxor y y') 12))
                         (Z.shiftl (Z.lxor y y') 5)) (Z.lxor y y'))
  = Z.lxor
      (uint16 (Z.lxor (Z.lxor (Z.lxor (Z.shiftl a 8) (Z.shiftl y 12))
                              (Z.shiftl y 5)) y))
      (uint16 (Z.lxor (Z.lxor (Z.lxor (Z.shiftl a' 8) (Z.shiftl y' 12))
                              (Z.shiftl y' 5)) y')).
Proof.
  rewrite !Z.shiftl_lxor.
  rewrite (lxor_swap4 (Z.shiftl a 8) (Z.shiftl a' 8)).
  rewrite (lxor_swap4 (Z.lxor (Z.shiftl a 8) (Z.shiftl y 12))).
  rewrite (lxor_swap4 (Z.lxor (Z.lxor (Z.shiftl a 8) (Z.shiftl y 12))
                         (Z.shiftl y 5))).
  apply uint16_lxor.
Qed.

Lemma crc16_step_lxor a a' c c' :
  crc16_step (Z.lxor a a') (Z.lxor c c')
  = Z.lxor (crc16_step a c) (crc16_step a' c').
Proof.
  unfold crc16_step. cbv zeta.
  rewrite crc16_stage1_lxor, crc16_stage2_lxor. apply crc16_stage3_lxor.
Qed.

Lemma uint16_small z : 0 <= z < 65536 -> uint16 z = z.
Proof. intros. rewrite uint16_mod. now apply Z.mod_small. Qed.

Lemma lxor_word a b :
  0 <= a < 65536 -> 0 <= b < 65536 -> 0 <= Z.lxor a b < 65536.
Proof.
  intros Ha Hb. rewrite <- (uint16_small a Ha), <- (uint16_small b Hb),
    <- uint16_lxor. apply uint16_range.
Qed.

(** A register that is not zero does not become zero by a zero byte:
    checked for the 256 low bytes of each of the 256 high bytes. *)
Lemma crc16_step_zero_byte d :
  0 <= d < 65536 -> crc16_step d 0 = 0 -> d = 0.
Proof.
  intros Hd H0.
  assert (Hh : 0 <= d / 256 < Z.of_nat 256).
  { split; [apply Z.div_pos; lia | apply Z.div_lt_upper_bound; lia]. }
  assert (Hl : 0 <= d mod 256 < Z.of_nat 256)
    by (apply Z.mod_pos_bound; lia).
  pose proof (byte_cases
    (fun h => forallb
       (fun l => negb (crc16_step (h * 256 + l) 0 =? 0)
                 || ((h =? 0) && (l =? 0)))
       (map Z.of_nat (seq 0 256)))
    256 ltac:(vm_compute; reflexivity) (d / 256) Hh) as H.
  cbv beta in H. rewrite forallb_forall in H.
  specialize (H (d mod 256)).
  assert (Hin : In (d mod 256) (map Z.of_nat (seq 0 256))).
  { apply in_map_iff. exists (Z.to_nat (d mod 256)). split; [lia|].
    apply in_seq. lia. }
  specialize (H Hin).
  replace (d / 256 * 256 + d mod 256) with d in H
    by (rewrite (Z.div_mod d 256) at 1 by lia; lia).
  rewrite H0 in H. cbn [Z.eqb negb orb] in H.
  apply andb_prop in H as [H1 H2]. apply Z.eqb_eq in H1, H2.
  rewrite (Z.div_mod d 256) by lia. lia.
Qed.

(** A byte that is not zero does not leave a zero register at zero. *)
Lemma crc16_step_nonzero_byte e :
  0 < e < 256 -> crc16_step 0 e <> 0.
Proof.
  intros He H0.
  pose proof (byte_cases
    (fun e => (e =? 0) || negb (crc16_step 0 e =? 0))
    256 ltac:(vm_compute; reflexivity) e ltac:(lia)) as H.
  cbv beta in H. rewrite H0 in H.
  assert (E : (e =? 0) = false) by (apply Z.eqb_neq; lia).
  rewrite E in H. discriminate H.
Qed.

Lemma crc16_step_uint8 r b : crc16_step r (uint8 b) = crc16_step r b.
Proof.
  unfold crc16_step. rewrite (uint8_small (uint8 b)) by apply uint8_range.
  reflexivity.
Qed.

Lemma crc16_step_inj_crc x y c :
  0 <= x < 65536 -> 0 <= y < 65536 ->
  crc16_step x c = crc16_step y c -> x = y.
Proof.
  intros Hx Hy H. apply Z.lxor_eq.
  apply crc16_step_zero_byte; [apply lxor_word; assumption|].
  replace 0 with (Z.lxor c c) at 1 by apply Z.lxor_nilpotent.
  rewrite crc16_step_lxor, H. apply Z.lxor_nilpotent.
Qed.

Lemma crc16_step_inj_byte r b b' :
  uint8 b <> uint8 b' -> crc16_step r b <> crc16_step r b'.
Proof.
  intros Hb H.
  pose proof (uint8_range b) as R1. pose proof (uint8_range b') as R2.
  assert (Hr : 0 <= Z.lxor (uint8 b) (uint8 b') < 256).
  { rewrite <- (uint8_small (uint8 b)), <- (uint8_small (uint8 b')),
      <- uint8_lxor by assumption. apply uint8_range. }
  apply (crc16_step_nonzero_byte (Z.lxor (uint8 b) (uint8 b'))).
  - assert (Z.lxor (uint8 b) (uint8 b') <> 0)
      by (intros E; apply Hb, Z.lxor_eq, E).
    lia.
  - replace 0 with (Z.lxor r r) at 1 by apply Z.lxor_nilpotent.
    rewrite crc16_step_lxor, !crc16_step_uint8, H. apply Z.lxor_nilpotent.
Qed.

Lemma fold_crc_inj l : forall x y,
  0 <= x < 65536 -> 0 <= y < 65536 -> x <> y ->
  fold_left crc16_step l x <> fold_left crc16_step l y.
Proof.
  induction l as [|c l IH]; intros x y Hx Hy Hxy; simpl; [exact Hxy|].
  apply IH; try apply crc16_step_range.
  intros E. apply Hxy. exact (crc16_step_inj_crc x y c Hx Hy E).
Qed.

(** X3. Two packets of the same length that differ in one byte have
    different CRCs, whatever the length and wherever the byte. *)
Theorem crc16_detects_byte_error : forall (pre post : list Z) (b b' : Z),
  uint8 b <> uint8 b' ->
  crc16 (pre ++ b :: post) (length (pre ++ b :: post))
  <> crc16 (pre ++ b' :: post) (length (pre ++ b' :: post)).
Proof.
  intros pre post b b' Hb. unfold crc16. rewrite !firstn_all.
  rewrite !fold_left_app. cbn [fold_left].
  apply fold_crc_inj; try apply crc16_step_range.
  apply crc16_step_inj_byte, Hb.
Qed.

Lemma crc16_detects_byte_error_witness :
  crc16 ([0xF8; 0xE1] ++ 0x00 :: [0x01; 0x05; 0xAC; 0xB1])
        (length ([0xF8; 0xE1] ++ 0x00 :: [0x01; 0x05; 0xAC; 0xB1]))
  <> crc16 ([0xF8; 0xE1] ++ 0x80 :: [0x01; 0x05; 0xAC; 0xB1])
           (length ([0xF8; 0xE1] ++ 0x80 :: [0x01; 0x05; 0xAC; 0xB1])).
Proof.
  apply (crc16_detects_byte_error [0xF8; 0xE1] [0x01; 0x05; 0xAC; 0xB1]
           0x00 0x80).
  vm_compute. intros H. discriminate H.
Defined.

(** X4. When one byte of a frame whose CRC verifies is replaced by a
    different byte, [dispatch_packet] calls no callback for it, whatever
    the core table: the frame is logged as [M_BADPKT]. *)
Theorem corrupted_frame_rejected :
  forall (Core : list CORE) (trace : bool) (pre post : list Z) (b b' : Z),
  uint8 b <> uint8 b' ->
  crc16 (pre ++ b :: post) (length (pre ++ b :: post)) = 0 ->
  let bad := pre ++ b' :: post in
  dispatch_packet Core trace bad (Z.of_nat (length bad))
  = DLog M_BADPKT
      :: (if trace then [DDump false (firstn (length bad) bad)] else []).
Proof.
  intros Core trace pre post b b' Hb Hgood bad.
  assert (Hne : crc16 (pre ++ b :: post) (length (pre ++ b :: post))
                <> crc16 bad (length bad)).
  { unfold bad, crc16. rewrite !firstn_all, !fold_left_app.
    cbn [fold_left]. apply fold_crc_inj; try apply crc16_step_range.
    apply crc16_step_inj_byte, Hb. }
  rewrite Hgood in Hne.
  unfold dispatch_packet, dispatch_bogus. rewrite Nat2Z.id.
  destruct (Z.of_nat (length bad) <? 6); [reflexivity|].
  assert (E : (crc16 bad (length bad) =? 0) = false)
    by (apply Z.eqb_neq; congruence).
  rewrite E. reflexivity.
Qed.

Lemma corrupted_frame_rejected_witness :
  dispatch_packet sample_Core false
    ([0xF8; 0xE1] ++ 0x80 :: [0x01; 0x05; 0xAC; 0xB1])
    (Z.of_nat (length ([0xF8; 0xE1] ++ 0x80 :: [0x01; 0x05; 0xAC; 0xB1])))
  = [DLog M_BADPKT].
Proof.
  apply (corrupted_frame_rejected sample_Core false [0xF8; 0xE1]
           [0x01; 0x05; 0xAC; 0xB1] 0x00 0x80).
  - vm_compute. intros H. discriminate H.
  - vm_compute. reflexivity.
Defined.

(* ================================================================= *)
(** ** What [receivePkt] keeps within bounds *)

Lemma rx_inv_emit bound s p :
  (forall q, In (RxDispatch q) (sc_ev s) -> (0 < length q < bound)%nat) ->
  (0 < length p < bound)%nat ->
  forall q, In (RxDispatch q) (sc_ev s ++ [RxDispatch p]) ->
            (0 < length q < bound)%nat.
Proof.
  intros H Hp q Hq. apply in_app_or in Hq as [Hq|[Hq|[]]]; [auto|].
  inversion Hq. now subst.
Qed.

Lemma rx_inv_log bound s m :
  (forall q, In (RxDispatch q) (sc_ev s) -> (0 < length q < bound)%nat) ->
  forall q, In (RxDispatch q) (sc_ev s ++ [RxLog m]) ->
            (0 < length q < bound)%nat.
Proof.
  intros H q Hq. apply in_app_or in Hq as [Hq|[Hq|[]]]; [auto|discriminate].
Qed.

(** One turn of the loop keeps [rx_inv]. *)
Lemma rx_body_inv bound s s' :
  rx_inv bound s -> (sc_i s < Slix (sc_g s))%nat ->
  rx_body s = RxNext s' -> rx_inv bound (rx_incr s').
Proof.
  intros (Hp & Hx & He) Hlt. unfold rx_body.
  destruct (nth (sc_i s) (Slrx (sc_g s)) 0 =? SLIP_END).
  { destruct (slstate_eqb (s_slstate (sc_g s)) IN_PACKET).
    - destruct (0 <? length (sc_pcpkt s))%nat eqn:E0;
        destruct (sc_i s =? Slix (sc_g s))%nat; intros H; inversion H; subst;
        unfold rx_inv; cbn; (split; [lia|split; [lia|]]); try exact He.
      apply rx_inv_emit; [exact He|]. apply Nat.ltb_lt in E0. lia.
    - intros H; inversion H; subst. unfold rx_inv. cbn.
      split; [lia|split; [lia|exact He]]. }
  destruct (nth (sc_i s) (Slrx (sc_g s)) 0 =? SLIP_ESC).
  { destruct (slstate_eqb (s_slstate (sc_g s)) IN_PACKET);
      intros H; inversion H; subst; unfold rx_inv; cbn;
      (split; [lia|split; [lia|]]); try exact He.
    apply rx_inv_log, He. }
  repeat match goal with
         | |- context [if ?b then _ else _] => destruct b
         end;
    intros H; inversion H; subst; unfold rx_inv; cbn;
    rewrite ?length_app; cbn; (split; [lia|split; [lia|]]); try exact He;
    apply rx_inv_log, He.
Qed.

Lemma rx_loop_inv bound fuel : forall s s',
  rx_inv bound s -> rx_loop fuel s = Some s' -> rx_inv bound s'.
Proof.
  induction fuel as [|fuel IH]; intros s s' Hinv; simpl.
  - destruct (sc_i s <? Slix (sc_g s))%nat; [discriminate|].
    intros H; inversion H; now subst.
  - destruct (sc_i s <? Slix (sc_g s))%nat eqn:E.
    + apply Nat.ltb_lt in E. destruct (rx_body s) as [s1|s1] eqn:B.
      * apply IH. exact (rx_body_inv bound s s1 Hinv E B).
      * revert B. unfold rx_body.
        repeat match goal with
               | |- context [if ?b then _ else _] => destruct b eqn:?
               end; intros B; try discriminate B.
        all: match goal with
             | H : (_ =? _)%nat = true |- _ =>
                 apply Nat.eqb_eq in H; lia
             end.
    + intros H; inversion H; now subst.
Qed.

Lemma in_dispatched p ev : In p (dispatched ev) <-> In (RxDispatch p) ev.
Proof.
  unfold dispatched. rewrite in_flat_map. split.
  - intros (e & He & Hp). destruct e; simpl in Hp; try tauto.
    destruct Hp as [Hp|[]]. now subst.
  - intros H. exists (RxDispatch p). split; [exact H | now left].
Qed.

(** X5. When [Slix] is within the buffer before a call of [receivePkt], it
    is so afterwards, and every packet the call hands to [dispatch_packet]
    is non-empty and shorter than the buffer: [dpix] never passes [i], so
    the stores into the local [pcpkt] stay inside it. *)
Theorem receivePkt_within_buffer :
  forall (g : rx_globals) (rd : read_result) (r : rx_result),
  (Slix g <= RXBUF_SZ)%nat ->
  receivePkt g rd = Some r ->
  (Slix (rx_g r) <= RXBUF_SZ)%nat /\
  forall p, In p (dispatched (rx_ev r)) -> (0 < length p < RXBUF_SZ)%nat.
Proof.
  intros g rd r Hg. unfold receivePkt. destruct rd as [data|errno].
  - destruct (firstn (RXBUF_SZ - Slix g) data) as [|b l] eqn:Ed.
    + intros H; inversion H; subst. cbn. split; [exact Hg|].
      intros p [].
    + assert (Hl : (length (b :: l) <= RXBUF_SZ - Slix g)%nat)
        by (rewrite <- Ed; apply firstn_le_length).
      match goal with
      | |- context [rx_loop ?f ?s] =>
          destruct (rx_loop f s) as [s'|] eqn:El; [|discriminate];
          assert (Hinv : rx_inv RXBUF_SZ s)
      end.
      { unfold rx_inv. cbn [sc_pcpkt sc_i sc_g sc_ev Slix].
        split; [cbn; lia | split; [lia | intros p []]]. }
      intros H; inversion H; subst. cbn [rx_g rx_ev].
      destruct (rx_loop_inv _ _ _ _ Hinv El) as (_ & Hx & He).
      split; [exact Hx|]. intros p Hp. apply He, in_dispatched, Hp.
  - destruct (negb (errno =? EAGAIN)); intros H; inversion H; subst; cbn;
      (split; [exact Hg|]); intros p Hp; try tauto.
Qed.

Lemma receivePkt_within_buffer_witness :
  (1 <= RXBUF_SZ)%nat /\
  forall p, In p [[0xF8; 0xE1; 0x00; 0x01; 0x05; 0xAC; 0xB1]] ->
            (0 < length p < RXBUF_SZ)%nat.
Proof.
  apply (receivePkt_within_buffer rx_start (RdBytes good_frame)
           {| rx_g := {| Slrx := good_frame; Slix := 1%nat;
                         s_slstate := IN_PACKET |};
              rx_ev := [RxDispatch [0xF8; 0xE1; 0x00; 0x01; 0x05; 0xAC; 0xB1]] |}).
  - cbn. unfold RXBUF_SZ. lia.
  - vm_compute. reflexivity.
Defined.

(* ================================================================= *)
(** ** A read that holds several packets *)

(** From behind an [END] at the start of the buffer, over any number of
    packets each closed by its [END]: the non-empty ones are dispatched in
    order, and the loop ends with the last [END] alone in the buffer. *)
Lemma scan_segments : forall bodies junk ev fuel,
  exists junk',
    rx_loop (length (concat (map slip_segment bodies)) + fuel)
      (scan_at (SLIP_END :: concat (map slip_segment bodies) ++ junk)
         (1 + length (concat (map slip_segment bodies))) IN_PACKET 1 [] ev)
    = Some (scan_at (SLIP_END :: junk') 1 IN_PACKET 1 []
              (ev ++ map RxDispatch (filter nonempty bodies))).
Proof.
  induction bodies as [|b bs IH]; intros junk ev fuel.
  - exists junk. cbn [map concat length app filter Nat.add].
    rewrite app_nil_r. apply rx_loop_done. cbn. lia.
  - cbn [map concat].
    set (C := concat (map slip_segment bs)) in *.
    set (n := length (slip_stuff b)).
    set (buf := SLIP_END :: (slip_segment b ++ C) ++ junk).
    assert (Hm : length (slip_segment b ++ C) = (n + S (length C))%nat).
    { unfold slip_segment. rewrite !length_app. cbn [length]. fold n. lia. }
    rewrite Hm.
    assert (Hsk : skipn 1 buf = slip_stuff b ++ SLIP_END :: C ++ junk).
    { unfold buf, slip_segment. cbn [skipn]. rewrite <- !app_assoc.
      reflexivity. }
    destruct (IH (skipn (1 + length C) buf)
                (ev ++ (if nonempty b then [RxDispatch b] else []))
                fuel) as [junk' HIH].
    exists junk'.
    replace (n + S (length C) + fuel)%nat
      with (n + S (length C + fuel))%nat by lia.
    etransitivity;
      [apply (scan_stuffed buf (1 + (n + S (length C))) ev
                (SLIP_END :: C ++ junk) b 1 [] (S (length C + fuel)) Hsk);
       fold n; lia|].
    fold n. cbn [app].
    assert (Hsk2 : skipn (1 + n) buf = SLIP_END :: C ++ junk).
    { replace (1 + n)%nat with (n + 1)%nat by lia.
      rewrite <- skipn_skipn, Hsk, skipn_app. unfold n.
      rewrite skipn_all, Nat.sub_diag. reflexivity. }
    pose proof (skipn_cons_nth _ _ _ _ Hsk2) as [Hn _].
    assert (Hmv : memmove buf (1 + n) (1 + (n + S (length C)) - (1 + n))
                  = SLIP_END :: C ++ skipn (1 + length C) buf).
    { unfold memmove.
      replace (1 + (n + S (length C)) - (1 + n))%nat
        with (1 + length C)%nat by lia.
      rewrite Hsk2. cbn [Nat.add firstn]. rewrite firstn_app, firstn_all.
      rewrite Nat.sub_diag. cbn [firstn]. rewrite app_nil_r. reflexivity. }
    clear Hm Hsk Hsk2. clearbody n buf.
    destruct b as [|b0 b'].
    + rx_step (body_end_empty buf (1 + (n + S (length C))) ev (1 + n) Hn
                 ltac:(lia)).
      rewrite Hmv.
      replace (1 + (n + S (length C)) - (1 + n))%nat
        with (1 + length C)%nat by lia.
      cbn [nonempty filter] in *. rewrite app_nil_r in HIH. exact HIH.
    + rx_step (body_end_full buf (1 + (n + S (length C))) ev (1 + n)
                 (b0 :: b') Hn ltac:(lia) ltac:(discriminate)).
      rewrite Hmv.
      replace (1 + (n + S (length C)) - (1 + n))%nat
        with (1 + length C)%nat by lia.
      cbn [nonempty filter map] in *. rewrite <- app_assoc in HIH.
      exact HIH.
Qed.

(** X6. A read that holds [END] and then any number of stuffed packets,
    each closed by an [END], taken between frames: every non-empty packet
    is handed to [dispatch_packet] once, in the order of the wire; empty
    packets (two [END]s in a row) are dropped without a log; and the
    decoder is between frames again. *)
Theorem slip_stream_delivery :
  forall (bodies : list (list Z)) (g : rx_globals),
  rx_idle g ->
  (length (slip_stream bodies) + 1 <= RXBUF_SZ)%nat ->
  exists r,
    receivePkt g (RdBytes (slip_stream bodies)) = Some r /\
    rx_ev r = map RxDispatch (filter nonempty bodies) /\
    rx_idle (rx_g r).
Proof.
  intros bodies g [Hst Hix] Hsz. unfold receivePkt.
  set (C := concat (map slip_segment bodies)).
  assert (Hlen : length (slip_stream bodies) = (1 + length C)%nat)
    by reflexivity.
  destruct g as [buf slix st]. cbn [s_slstate Slix Slrx] in *. subst st.
  rewrite firstn_all2 by (destruct Hix as [->|[-> _]]; lia).
  unfold slip_stream at 1. fold C. rewrite Hlen.
  destruct Hix as [-> | [-> [rest ->]]].
  - destruct (scan_segments bodies (skipn (1 + length C) buf) [] 0)
      as [junk' H]. fold C in H.
    replace (blit buf 0 (slip_stream bodies))
      with (SLIP_END :: C ++ skipn (1 + length C) buf).
    2:{ unfold blit. cbn [firstn app Nat.add]. rewrite Hlen.
        unfold slip_stream. fold C. reflexivity. }
    change (0 + (1 + length C))%nat with (S (length C)).
    match goal with
    | |- context [rx_loop _ ?s] =>
        change s with (scan_at (SLIP_END :: C ++ skipn (1 + length C) buf)
                         (1 + length C) IN_PACKET 0 [] [])
    end.
    assert (E : rx_loop (S (length C))
                  (scan_at (SLIP_END :: C ++ skipn (1 + length C) buf)
                     (1 + length C) IN_PACKET 0 [] [])
                = Some (scan_at (SLIP_END :: junk') 1 IN_PACKET 1 []
                          ([] ++ map RxDispatch (filter nonempty bodies)))).
    { rx_step (body_end_empty (SLIP_END :: C ++ skipn (1 + length C) buf)
                 (1 + length C) [] 0 eq_refl ltac:(lia)).
      rewrite Nat.sub_0_r, memmove_zero.
      rewrite Nat.add_0_r in H. exact H. }
    rewrite E. eexists. split; [reflexivity|].
    cbn [rx_ev rx_g scan_at sc_g sc_ev app]. split; [reflexivity|].
    split; [reflexivity|]. right. split; [reflexivity|]. eexists. reflexivity.
  - destruct (scan_segments bodies
                (skipn (1 + length C) (SLIP_END :: SLIP_END :: C
                   ++ skipn (1 + (1 + length C)) (SLIP_END :: rest))) [] 0)
      as [junk' H]. fold C in H.
    set (J := skipn (1 + (1 + length C)) (SLIP_END :: rest)) in *.
    replace (blit (SLIP_END :: rest) 1 (slip_stream bodies))
      with (SLIP_END :: SLIP_END :: C ++ J).
    2:{ unfold blit. rewrite Hlen. unfold slip_stream. fold C.
        change (firstn 1 (SLIP_END :: rest)) with [SLIP_END].
        reflexivity. }
    match goal with
    | |- context [rx_loop _ ?s] =>
        change s with (scan_at (SLIP_END :: SLIP_END :: C ++ J)
                         (1 + (1 + length C)) IN_PACKET 0 [] [])
    end.
    assert (Hm : memmove (SLIP_END :: SLIP_END :: C ++ J) 1 (1 + length C)
                 = SLIP_END :: C
                     ++ skipn (1 + length C) (SLIP_END :: SLIP_END :: C ++ J)).
    { unfold memmove. cbn [skipn Nat.add firstn].
      rewrite firstn_app, firstn_all, Nat.sub_diag. cbn [firstn].
      rewrite app_nil_r. reflexivity. }
    assert (E : rx_loop (1 + (1 + length C))
                  (scan_at (SLIP_END :: SLIP_END :: C ++ J)
                     (1 + (1 + length C)) IN_PACKET 0 [] [])
                = Some (scan_at (SLIP_END :: junk') 1 IN_PACKET 1 []
                          ([] ++ map RxDispatch (filter nonempty bodies)))).
    { rx_step (body_end_empty (SLIP_END :: SLIP_END :: C ++ J)
                 (1 + (1 + length C)) [] 0 eq_refl ltac:(lia)).
      rewrite Nat.sub_0_r, memmove_zero.
      rx_step (body_end_empty (SLIP_END :: SLIP_END :: C ++ J)
                 (1 + (1 + length C)) [] 1 eq_refl ltac:(lia)).
      replace (1 + (1 + length C) - 1)%nat with (1 + length C)%nat by lia.
      rewrite Hm. rewrite Nat.add_0_r in H. exact H. }
    rewrite E. eexists. split; [reflexivity|].
    cbn [rx_ev rx_g scan_at sc_g sc_ev app]. split; [reflexivity|].
    split; [reflexivity|]. right. split; [reflexivity|]. eexists. reflexivity.
Qed.

(** Two frames of [pctoslip] one behind the other are such a stream. *)
Lemma frames_as_stream b1 b2 :
  (SLIP_END :: slip_stuff b1 ++ [SLIP_END])
    ++ (SLIP_END :: slip_stuff b2 ++ [SLIP_END])
  = slip_stream [b1; []; b2].
Proof.
  unfold slip_stream, slip_segment. cbn [map concat slip_stuff app].
  rewrite app_nil_r, <- !app_assoc. reflexivity.
Qed.

Lemma slip_stream_delivery_witness :
  exists r,
    receivePkt rx_start
      (RdBytes (slip_stream [[0xF8; 0xE1; 0x00; 0x01; 0x05; 0xAC; 0xB1]; [];
                             [0xF8; 0xE2; 0xC0; 0xDB; 0x11; 0x22]])) = Some r /\
    rx_ev r = map RxDispatch
                (filter nonempty
                   [[0xF8; 0xE1; 0x00; 0x01; 0x05; 0xAC; 0xB1]; [];
                    [0xF8; 0xE2; 0xC0; 0xDB; 0x11; 0x22]]) /\
    rx_idle (rx_g r).
Proof.
  apply (slip_stream_delivery
           [[0xF8; 0xE1; 0x00; 0x01; 0x05; 0xAC; 0xB1]; [];
            [0xF8; 0xE2; 0xC0; 0xDB; 0x11; 0x22]] rx_start).
  - split; [reflexivity | left; reflexivity].
  - cbn. unfold RXBUF_SZ. lia.
Defined.

(* ================================================================= *)
(** ** [receivePkt] on a read that is stored whole *)

Lemma receivePkt_scan g data :
  firstn (RXBUF_SZ - Slix g) data <> [] ->
  receivePkt g (RdBytes data)
  = option_map rx_result_of
      (rx_loop (Slix g + length (firstn (RXBUF_SZ - Slix g) data))
         (scan_at (blit (Slrx g) (Slix g) (firstn (RXBUF_SZ - Slix g) data))
            (Slix g + length (firstn (RXBUF_SZ - Slix g) data))
            (s_slstate g) 0 [] [])).
Proof.
  intros Hne. unfold receivePkt.
  destruct (firstn (RXBUF_SZ - Slix g) data) as [|d ds] eqn:E;
    [congruence|].
  cbv zeta. cbn [Slix]. unfold scan_at.
  destruct (rx_loop _ _); reflexivity.
Qed.


(* ================================================================= *)
(** ** Start-up: [SKIP_FIRST_ZEROES] *)

Section Skip.

Variables (buf : list Z) (slix : nat).

Lemma body_skip_zero ev i pk :
  nth i buf 0 = 0x00 ->
  rx_body (scan_at buf slix SKIP_FIRST_ZEROES i pk ev)
  = RxNext (scan_at buf slix SKIP_FIRST_ZEROES i pk
              (ev ++ [RxLog MsgSkipZero])).
Proof. intros Hn. unfold rx_body, scan_at. simpl. now rewrite Hn. Qed.

Lemma body_skip_end ev i pk :
  nth i buf 0 = SLIP_END ->
  rx_body (scan_at buf slix SKIP_FIRST_ZEROES i pk ev)
  = RxNext (scan_at buf slix SKIP_FIRST_ZEROES i pk ev).
Proof. intros Hn. unfold rx_body, scan_at. simpl. now rewrite Hn. Qed.

Lemma body_skip_first ev i pk c :
  nth i buf 0 = c -> c <> 0x00 -> c <> SLIP_END -> c <> SLIP_ESC ->
  rx_body (scan_at buf slix SKIP_FIRST_ZEROES i pk ev)
  = RxNext (scan_at buf slix IN_PACKET i (pk ++ [c]) ev).
Proof.
  intros Hn H0 He Hs. unfold rx_body, scan_at. simpl. rewrite Hn.
  apply Z.eqb_neq in H0, He, Hs. rewrite H0, He, Hs, !andb_false_r.
  reflexivity.
Qed.

Lemma scan_skipped pk post : forall pre i ev fuel,
  skipn i buf = pre ++ post ->
  forallb skipped pre = true ->
  (i + length pre <= slix)%nat ->
  rx_loop (length pre + fuel) (scan_at buf slix SKIP_FIRST_ZEROES i pk ev)
  = rx_loop fuel (scan_at buf slix SKIP_FIRST_ZEROES (i + length pre) pk
                    (ev ++ zero_logs pre)).
Proof.
  induction pre as [|c pre IH]; intros i ev fuel Hsk Hall Hle.
  - cbn [length Nat.add]. unfold zero_logs. cbn [filter map].
    now rewrite Nat.add_0_r, app_nil_r.
  - cbn [forallb] in Hall. apply andb_prop in Hall as [Hc Hall].
    cbn [length] in *. cbn [app] in Hsk.
    apply skipn_cons_nth in Hsk as [Hn Hsk'].
    unfold skipped in Hc. apply orb_prop in Hc.
    replace (i + S (length pre))%nat with (S i + length pre)%nat by lia.
    cbn [Nat.add].
    destruct Hc as [Hc|Hc]; apply Z.eqb_eq in Hc.
    + rx_step (body_skip_zero ev i pk ltac:(congruence)).
      etransitivity; [apply (IH (S i)); [exact Hsk'|exact Hall|lia]|].
      unfold zero_logs. cbn [filter]. rewrite Hc.
      cbn [Z.eqb map scan_at sc_ev rx_incr]. rewrite <- app_assoc.
      reflexivity.
    + rx_step (body_skip_end ev i pk ltac:(congruence)).
      etransitivity; [apply (IH (S i)); [exact Hsk'|exact Hall|lia]|].
      unfold zero_logs. cbn [filter]. rewrite Hc. reflexivity.
Qed.

End Skip.

(** X7. The first read after start-up (state [SKIP_FIRST_ZEROES], empty
    buffer): leading zero bytes are each logged and dropped, [END] bytes
    among them are passed over, and the first other byte [c] starts a
    packet; the packet up to its closing [END] is dispatched as it was
    sent, and the decoder is between frames, in [IN_PACKET]. *)
Theorem boot_delivery :
  forall (pre : list Z) (c : Z) (body : list Z),
  forallb skipped pre = true ->
  c <> 0x00 -> c <> SLIP_END -> c <> SLIP_ESC ->
  (length (pre ++ c :: slip_stuff body ++ [SLIP_END]) <= RXBUF_SZ)%nat ->
  exists r,
    receivePkt rx_boot (RdBytes (pre ++ c :: slip_stuff body ++ [SLIP_END]))
    = Some r /\
    rx_ev r = zero_logs pre ++ [RxDispatch (c :: body)] /\
    rx_idle (rx_g r).
Proof.
  intros pre c body Hpre H0 He Hs Hsz.
  set (data := pre ++ c :: slip_stuff body ++ [SLIP_END]) in *.
  set (n := length (slip_stuff body)).
  assert (Hlen : length data = (length pre + (1 + (n + 1)))%nat).
  { unfold data. rewrite length_app. cbn [length]. rewrite length_app.
    cbn [length]. fold n. lia. }
  assert (Hfit : firstn (RXBUF_SZ - Slix rx_boot) data = data).
  { apply firstn_all2. cbn [rx_boot Slix]. lia. }
  rewrite receivePkt_scan; rewrite Hfit;
    [|unfold data; destruct pre; discriminate].
  cbn [rx_boot Slix Slrx s_slstate Nat.add].
  assert (Hb : blit [] 0 data = data).
  { unfold blit. cbn [firstn app]. rewrite skipn_nil. apply app_nil_r. }
  rewrite Hb, Hlen.
  assert (E : rx_loop (length pre + (1 + (n + 1)))
                (scan_at data (length pre + (1 + (n + 1)))
                   SKIP_FIRST_ZEROES 0 [] [])
              = Some (scan_at (SLIP_END :: skipn 1 data) 1 IN_PACKET 1 []
                        (zero_logs pre ++ [RxDispatch (c :: body)]))).
  { etransitivity;
      [apply (scan_skipped data (length pre + (1 + (n + 1))) []
                (c :: slip_stuff body ++ [SLIP_END]) pre 0 []
                (1 + (n + 1))); [reflexivity|exact Hpre|lia]|].
    cbn [Nat.add app].
    assert (Hsk : skipn (length pre) data
                  = c :: slip_stuff body ++ [SLIP_END]).
    { unfold data. rewrite skipn_app, skipn_all, Nat.sub_diag.
      reflexivity. }
    pose proof (skipn_cons_nth _ _ _ _ Hsk) as [Hn Hsk1].
    rx_step (body_skip_first data (length pre + (1 + (n + 1)))
               (zero_logs pre) (length pre) [] c Hn H0 He Hs).
    cbn [app].
    etransitivity;
      [apply (scan_stuffed data (length pre + (1 + (n + 1)))
                (zero_logs pre) [SLIP_END] body (S (length pre)) [c] 1
                Hsk1); fold n; lia|].
    fold n. cbn [app].
    assert (Hsk2 : skipn (S (length pre) + n) data = [SLIP_END]).
    { replace (S (length pre) + n)%nat with (n + S (length pre))%nat
        by lia.
      rewrite <- skipn_skipn, Hsk1, skipn_app. unfold n.
      rewrite skipn_all, Nat.sub_diag. reflexivity. }
    pose proof (skipn_cons_nth _ _ _ _ Hsk2) as [Hn2 _].
    rx_step (body_end_full data (length pre + (1 + (n + 1)))
               (zero_logs pre) (S (length pre) + n) (c :: body) Hn2
               ltac:(lia) ltac:(discriminate)).
    replace (length pre + (1 + (n + 1)) - (S (length pre) + n))%nat
      with 1%nat by lia.
    unfold memmove. rewrite Hsk2. cbn [firstn app].
    apply rx_loop_done. cbn. lia. }
  rewrite E. eexists. split; [reflexivity|].
  cbn [rx_result_of rx_ev rx_g scan_at sc_g sc_ev]. split; [reflexivity|].
  split; [reflexivity|]. right. split; [reflexivity|]. eexists. reflexivity.
Qed.

Lemma boot_delivery_witness :
  exists r,
    receivePkt rx_boot
      (RdBytes ([0; 0; 192; 0]
                  ++ 0xF8 :: slip_stuff [0xE1; 0xC0; 0x01; 0x05; 0x6B; 0x4A]
                  ++ [SLIP_END]))
    = Some r /\
    rx_ev r = zero_logs [0; 0; 192; 0]
                ++ [RxDispatch (0xF8 :: [0xE1; 0xC0; 0x01; 0x05; 0x6B; 0x4A])]
    /\ rx_idle (rx_g r).
Proof.
  apply (boot_delivery [0; 0; 192; 0] 0xF8
           [0xE1; 0xC0; 0x01; 0x05; 0x6B; 0x4A]).
  - reflexivity.
  - discriminate.
  - discriminate.
  - discriminate.
  - cbn. unfold RXBUF_SZ. lia.
Defined.

(* ================================================================= *)
(** ** Branches of the scan loop that are never taken *)

Lemma loop_event_snoc ev e :
  Forall loop_event ev -> loop_event e -> Forall loop_event (ev ++ [e]).
Proof. intros H He. apply Forall_app. split; [exact H | now constructor]. Qed.

Lemma rx_body_events s :
  Forall loop_event (sc_ev s) ->
  (sc_i s < Slix (sc_g s))%nat ->
  exists s', rx_body s = RxNext s' /\ Forall loop_event (sc_ev s').
Proof.
  intros He Hlt. unfold rx_body.
  assert (Hne : (sc_i s =? Slix (sc_g s))%nat = false)
    by (apply Nat.eqb_neq; lia).
  rewrite Hne.
  destruct (nth (sc_i s) (Slrx (sc_g s)) 0 =? SLIP_END) eqn:E1.
  { destruct (slstate_eqb (s_slstate (sc_g s)) IN_PACKET).
    - destruct (0 <? length (sc_pcpkt s))%nat; eexists;
        (split; [reflexivity|]); cbn; [|exact He].
      apply loop_event_snoc; [exact He | exact I].
    - eexists. split; [reflexivity | exact He]. }
  destruct (nth (sc_i s) (Slrx (sc_g s)) 0 =? SLIP_ESC).
  { destruct (slstate_eqb (s_slstate (sc_g s)) IN_PACKET); eexists;
      (split; [reflexivity|]); cbn; [exact He|].
    apply loop_event_snoc; [exact He | exact I]. }
  repeat match goal with
         | |- context [if ?b then _ else _] => destruct b
         end;
    eexists; (split; [reflexivity|]); cbn; try exact He;
    apply loop_event_snoc; try exact He; exact I.
Qed.

Lemma rx_loop_events fuel : forall s s',
  Forall loop_event (sc_ev s) -> rx_loop fuel s = Some s' ->
  Forall loop_event (sc_ev s').
Proof.
  induction fuel as [|fuel IH]; intros s s' He; simpl.
  - destruct (sc_i s <? Slix (sc_g s))%nat; [discriminate|].
    intros H; inversion H; now subst.
  - destruct (sc_i s <? Slix (sc_g s))%nat eqn:E.
    + apply Nat.ltb_lt in E.
      destruct (rx_body_events s He E) as (s1 & -> & He1).
      apply IH. exact He1.
    + intros H; inversion H; now subst.
Qed.

(** In a turn of the loop, [i < Slix], the test [i == Slix] fails: the
    body never takes the [return] behind it. *)
Lemma rx_body_no_return s :
  (sc_i s < Slix (sc_g s))%nat -> exists s', rx_body s = RxNext s'.
Proof.
  intros Hlt. unfold rx_body.
  assert (Hne : (sc_i s =? Slix (sc_g s))%nat = false)
    by (apply Nat.eqb_neq; lia).
  rewrite Hne.
  repeat match goal with
         | |- context [if ?b then _ else _] => destruct b
         end; eexists; reflexivity.
Qed.

(** X8. Whatever the decoder's state and whatever [read] returns,
    [receivePkt] comes back, and all it does is dispatch packets and log
    [M_BADSLIP] and "skipping zero byte", or log [M_NOREAD] and exit
    without touching its state.  In particular the log "skipping empty
    frame" is never written (an [END] is taken by the first test of the
    loop).  And the [return] inside the loop, with its [Slix = 0], is never
    reached: every turn of the loop, whatever the state and the byte, ends
    by going on to [i++]. *)
Theorem receivePkt_events :
  (forall (g : rx_globals) (rd : read_result),
   exists r,
     receivePkt g rd = Some r /\
     ~ In (RxLog MsgSkipEmpty) (rx_ev r) /\
     (Forall loop_event (rx_ev r) \/
      (rx_ev r = [RxLog M_NOREAD; RxExit] /\ rx_g r = g)))
  /\ (forall s : rx_scan,
        (sc_i s < Slix (sc_g s))%nat ->
        exists s', rx_body s = RxNext s').
Proof.
  split; [|exact rx_body_no_return].
  intros g rd. destruct (receivePkt_total g rd) as [r Hr]. exists r.
  split; [exact Hr|].
  assert (H : Forall loop_event (rx_ev r) \/
              (rx_ev r = [RxLog M_NOREAD; RxExit] /\ rx_g r = g)).
  { revert Hr. unfold receivePkt. destruct rd as [data|errno].
    - destruct (firstn (RXBUF_SZ - Slix g) data) as [|b l].
      + intros H; inversion H; subst. right. split; reflexivity.
      + match goal with
        | |- context [rx_loop ?f ?s] =>
            destruct (rx_loop f s) as [s'|] eqn:El; [|discriminate]
        end.
        intros H; inversion H; subst. left. cbn [rx_ev].
        refine (rx_loop_events _ _ _ _ El). constructor.
    - destruct (negb (errno =? EAGAIN)); intros H; inversion H; subst.
      + right. split; reflexivity.
      + left. constructor. }
  split; [|exact H].
  destruct H as [H|[H _]].
  - intros Hin. rewrite Forall_forall in H. exact (H _ Hin).
  - rewrite H. intros [E|[E|[]]]; discriminate.
Qed.

Lemma receivePkt_events_witness :
  exists s',
    rx_body (scan_at [SLIP_END] 1 IN_PACKET 0 [0x01] []) = RxNext s'.
Proof.
  apply (proj2 receivePkt_events (scan_at [SLIP_END] 1 IN_PACKET 0 [0x01] [])).
  cbn. lia.
Defined.

(* ================================================================= *)
(** ** A frame that never ends *)




(* ================================================================= *)
(** ** From [pc_tx_pkt] to a driver callback *)

Lemma land_or_mask c k m :
  Z.land 0xFF m = m -> Z.land k m = 0 ->
  Z.land (uint8 (Z.lor c k)) m = Z.land c m.
Proof.
  intros Hm Hk. unfold uint8.
  rewrite <- Z.land_assoc, Hm, Z.land_lor_distr_l, Hk. apply Z.lor_0_r.
Qed.

Lemma write_op_not_read c :
  Z.land c PC_CMD_OP_MASK = PC_CMD_OP_WRITE -> Z.land c PC_CMD_OP_READ = 0.
Proof.
  intros H. change PC_CMD_OP_READ with (Z.land PC_CMD_OP_MASK PC_CMD_OP_READ).
  now rewrite Z.land_assoc, H.
Qed.

Lemma crc16_firstn pkt n :
  crc16 (firstn n pkt) (length (firstn n pkt)) = crc16 pkt n.
Proof. unfold crc16. now rewrite firstn_all. Qed.

Lemma firstn_pkt_bytes p n :
  (4 <= n)%nat ->
  firstn n (pkt_bytes p)
  = cmd p :: core p :: reg p :: count p :: firstn (n - 4) (data p).
Proof.
  intros H. replace n with (S (S (S (S (n - 4))))) at 1 by lia.
  reflexivity.
Qed.

(** X10. What [pc_tx_pkt] writes, the daemon's own receiver accepts: for a
    write packet of 4 to 254 bytes on an open port, the frame handed to
    [write], when read back by [receivePkt] between frames, is decoded to
    one packet that passes every check of [dispatch_packet] and reaches the
    callback of the core named in the low nibble of the core byte, with the
    length and the bytes of the packet sent, [cmd] and [core] or-ed with
    0xF0 and 0xE0. *)
Theorem tx_loopback :
  forall (lk : link) (pcore : CORE) (inpkt : PC_PKT) (len : Z)
         (Core : list CORE) (trace : bool) (g : rx_globals) (c : CORE),
  4 <= len <= 254 ->
  (Z.to_nat len <= length (pkt_bytes inpkt))%nat ->
  fpgaFD lk <> -1 ->
  Z.land (cmd inpkt) PC_CMD_OP_MASK = PC_CMD_OP_WRITE ->
  rx_idle g ->
  nth_error Core (Z.to_nat (Z.land (core inpkt) 0x0f)) = Some c ->
  pcb c <> 0 ->
  exists frame r inbuf,
    written (tx_ev (pc_tx_pkt lk pcore inpkt len)) = [frame] /\
    receivePkt g (RdBytes frame) = Some r /\
    rx_ev r = [RxDispatch inbuf] /\
    rx_idle (rx_g r) /\
    firstn (Z.to_nat len) inbuf
    = firstn (Z.to_nat len) (pkt_bytes (tx_marked inpkt)) /\
    dispatch_packet Core trace inbuf (Z.of_nat (length inbuf))
    = (if trace then [DDump true inbuf] else [])
        ++ [DCall (pcb c) (slot_id c) (as_pkt inbuf) len].
Proof.
  intros lk pcore inpkt len Core trace g c Hlen Hbuf Hfd Hop Hidle Hc Hpcb.
  set (n := Z.to_nat len) in *.
  set (P := pkt_bytes (tx_marked inpkt)).
  assert (HnP : (n <= length P)%nat) by exact Hbuf.
  assert (Hn4 : (4 <= n)%nat) by lia.
  assert (Hmax : (n <= PC_PKTLEN)%nat) by (unfold PC_PKTLEN; lia).
  set (crc := crc16 P n).
  set (inbuf := firstn n P ++ [crc_hi crc; crc_lo crc]).
  assert (Hil : length inbuf = (n + 2)%nat).
  { unfold inbuf. rewrite length_app, length_firstn, Nat.min_l by exact HnP.
    reflexivity. }
  destruct (receive_frame inbuf g) as (r & Hr & Hev & Hid).
  { intros E. rewrite E in Hil. cbn in Hil. lia. }
  { pose proof (slip_stuff_length inbuf). unfold RXBUF_SZ. lia. }
  { exact Hidle. }
  exists (SLIP_END :: slip_stuff inbuf ++ [SLIP_END]), r, inbuf.
  split.
  { rewrite (pc_tx_pkt_written lk pcore inpkt len) by lia.
    fold n. change (pkt_bytes _) with P.
    now rewrite (pctoslip_slppkt P n Hmax HnP). }
  split; [exact Hr|]. split; [exact Hev|]. split; [exact Hid|].
  split.
  { unfold inbuf. rewrite firstn_app, length_firstn, Nat.min_l by exact HnP.
    rewrite Nat.sub_diag, firstn_firstn, Nat.min_id. cbn [firstn].
    apply app_nil_r. }
  assert (Hhead : exists rest,
             inbuf = uint8 (Z.lor (cmd inpkt) 0xf0)
                       :: uint8 (Z.lor (core inpkt) 0xe0) :: rest).
  { unfold inbuf, P. rewrite (firstn_pkt_bytes _ n Hn4).
    cbn [tx_marked cmd core app]. eexists. reflexivity. }
  destruct Hhead as [rest Hhead].
  assert (Hcmd : cmd (as_pkt inbuf) = uint8 (Z.lor (cmd inpkt) 0xf0))
    by (rewrite Hhead; reflexivity).
  assert (Hcore : core (as_pkt inbuf) = uint8 (Z.lor (core inpkt) 0xe0))
    by (rewrite Hhead; reflexivity).
  assert (Hcrc : crc16 inbuf (Z.to_nat (Z.of_nat (length inbuf))) = 0).
  { rewrite Nat2Z.id, Hil. unfold inbuf.
    replace (n + 2)%nat
      with (length (firstn n P) + length [crc_hi crc; crc_lo crc])%nat
      by (rewrite length_firstn, Nat.min_l by exact HnP; reflexivity).
    rewrite crc16_app, crc16_firstn. fold crc.
    apply crc16_own_bytes, crc16_range. }
  assert (Hbogus : dispatch_bogus inbuf (Z.of_nat (length inbuf)) = 0).
  { unfold dispatch_bogus. rewrite Hcrc, Hcmd, Hcore.
    rewrite !land_or_mask by reflexivity.
    rewrite Hop, (write_op_not_read _ Hop).
    assert (E6 : (Z.of_nat (length inbuf) <? 6) = false)
      by (apply Z.ltb_ge; lia).
    rewrite E6.
    pose proof (pktcore_range (core inpkt)) as Hr16.
    assert (E16 : (Z.land (core inpkt) 0x0f >=? NUM_CORE) = false)
      by (rewrite Z.geb_leb; apply Z.leb_gt; lia).
    rewrite E16. reflexivity. }
  unfold dispatch_packet. rewrite Hbogus, Hcore.
  rewrite land_or_mask by reflexivity. rewrite Hc.
  apply Z.eqb_neq in Hpcb. rewrite Hpcb.
  rewrite Nat2Z.id, firstn_all.
  replace (Z.of_nat (length inbuf) - 2) with len by lia.
  reflexivity.
Qed.

Lemma tx_loopback_witness :
  exists frame r inbuf,
    written (tx_ev (pc_tx_pkt link_ok core1 sample_write 5)) = [frame] /\
    receivePkt rx_start (RdBytes frame) = Some r /\
    rx_ev r = [RxDispatch inbuf] /\
    rx_idle (rx_g r) /\
    firstn (Z.to_nat 5) inbuf
    = firstn (Z.to_nat 5) (pkt_bytes (tx_marked sample_write)) /\
    dispatch_packet sample_Core false inbuf (Z.of_nat (length inbuf))
    = (if false then [DDump true inbuf] else [])
        ++ [DCall (pcb core1) (slot_id core1) (as_pkt inbuf) 5].
Proof.
  apply (tx_loopback link_ok core1 sample_write 5 sample_Core false
           rx_start core1).
  - lia.
  - simpl. lia.
  - discriminate.
  - reflexivity.
  - split; [reflexivity | left; reflexivity].
  - reflexivity.
  - discriminate.
Defined.

(* ================================================================= *)
(** ** Sending the same buffer again *)

Lemma or_mask_idem c k : uint8 (Z.lor (uint8 (Z.lor c k)) k) = uint8 (Z.lor c k).
Proof.
  unfold uint8. apply Z.bits_inj'. intros i _.
  rewrite !Z.land_spec, !Z.lor_spec, !Z.land_spec, !Z.lor_spec.
  destruct (Z.testbit c i), (Z.testbit k i), (Z.testbit 255 i); reflexivity.
Qed.

Lemma tx_marked_idem p : tx_marked (tx_marked p) = tx_marked p.
Proof.
  unfold tx_marked. cbn [cmd core reg count data].
  now rewrite !or_mask_idem.
Qed.

Lemma as_pkt_bytes p : as_pkt (pkt_bytes p) = p.
Proof. now destruct p. Qed.

Lemma pkt_bytes_as_pkt l : (4 <= length l)%nat -> pkt_bytes (as_pkt l) = l.
Proof.
  destruct l as [|a [|b [|c [|d l]]]]; cbn [length]; try lia.
  reflexivity.
Qed.

Lemma store_firstn buf idx v n :
  (n <= idx)%nat -> (idx <= length buf)%nat ->
  firstn n (store buf idx v) = firstn n buf.
Proof.
  intros Hn Hi. destruct (store_length buf idx v Hi) as (_ & _ & F).
  replace n with (Nat.min n idx) by lia.
  now rewrite <- !firstn_firstn, F.
Qed.

(** The packet [pc_tx_pkt] leaves in the caller's buffer. *)
Lemma pc_tx_pkt_inpkt lk pcore inpkt len :
  4 <= len -> fpgaFD lk <> -1 ->
  tx_inpkt (pc_tx_pkt lk pcore inpkt len)
  = as_pkt (so_pcpkt (pctoslip (pkt_bytes (tx_marked inpkt))
                        (Z.to_nat len))).
Proof.
  intros Hlen Hfd. unfold pc_tx_pkt.
  apply Z.ltb_ge in Hlen. apply Z.eqb_neq in Hfd. rewrite Hlen, Hfd.
  destruct (negb _); reflexivity.
Qed.

(** X11. [pc_tx_pkt] changes the caller's packet (the two or-ed bytes, the
    CRC behind the packet), but for a length of up to 254, where the frame
    fits [sltx], a second call on the buffer as the first call left it,
    with the same length, hands [write] the same frame: a driver that sends
    its packet again after a failure repeats the frame byte for byte. *)
Theorem tx_retry_same_frame :
  forall (lk : link) (pcore : CORE) (inpkt : PC_PKT) (len : Z),
  len <= 254 ->
  (Z.to_nat len <= length (pkt_bytes inpkt))%nat ->
  written (tx_ev (pc_tx_pkt lk pcore
                    (tx_inpkt (pc_tx_pkt lk pcore inpkt len)) len))
  = written (tx_ev (pc_tx_pkt lk pcore inpkt len)).
Proof.
  intros lk pcore inpkt len _ Hbuf.
  destruct (Z.ltb_spec len 4) as [Hlt|Hge].
  { unfold pc_tx_pkt. apply Z.ltb_lt in Hlt. rewrite Hlt.
    cbn [tx_inpkt]. rewrite ?Hlt. reflexivity. }
  destruct (Z.eq_dec (fpgaFD lk) (-1)) as [Hfd|Hfd].
  { unfold pc_tx_pkt. apply Z.ltb_ge in Hge. rewrite <- Z.eqb_eq in Hfd.
    rewrite Hge, Hfd. cbn [tx_inpkt tx_ev]. rewrite ?Hge, ?Hfd.
    reflexivity. }
  rewrite !pc_tx_pkt_written by assumption.
  fold (tx_marked inpkt).
  fold (tx_marked (tx_inpkt (pc_tx_pkt lk pcore inpkt len))).
  rewrite pc_tx_pkt_inpkt by assumption.
  set (n := Z.to_nat len) in *.
  set (P := pkt_bytes (tx_marked inpkt)) in *.
  assert (HnP : (n <= length P)%nat) by exact Hbuf.
  assert (Hn4 : (4 <= n)%nat) by lia.
  destruct (Nat.ltb_spec PC_PKTLEN n) as [Hbig|Hmax].
  { assert (E : pctoslip P n = {| so_pcpkt := P; so_slppkt := [] |}).
    { unfold pctoslip. apply Nat.ltb_lt in Hbig. now rewrite Hbig. }
    rewrite E. cbn [so_pcpkt]. unfold P.
    rewrite as_pkt_bytes, tx_marked_idem. fold P. now rewrite E. }
  rewrite (pctoslip_slppkt P n Hmax HnP). cbn [so_pcpkt so_slppkt].
  set (hi := crc_hi (crc16 P n)). set (lo := crc_lo (crc16 P n)).
  set (L := store (store P n hi) (n + 1) lo).
  destruct (store_length P n hi HnP) as (L1 & L2 & _).
  assert (HL : firstn n L = firstn n P).
  { unfold L. rewrite store_firstn by lia. apply store_firstn; lia. }
  assert (HLl : (n <= length L)%nat).
  { unfold L.
    destruct (store_length (store P n hi) (n + 1) lo) as (_ & L3 & _); lia. }
  assert (Hmk : pkt_bytes (tx_marked (as_pkt L)) = L).
  { assert (H4 : firstn 4 L = firstn 4 P).
    { replace 4%nat with (Nat.min 4 n) by lia.
      now rewrite <- !firstn_firstn, HL. }
    assert (HL4 : (4 <= length L)%nat) by lia.
    rewrite <- (pkt_bytes_as_pkt L HL4) at 2.
    unfold P in H4. cbn [pkt_bytes firstn] in H4.
    destruct L as [|a [|b [|c0 [|d0 L']]]]; cbn [length] in HL4; try lia.
    cbn [firstn] in H4. inversion H4; subst a b.
    unfold tx_marked, as_pkt. cbn [nth cmd core reg count data skipn pkt_bytes].
    now rewrite !or_mask_idem. }
  rewrite Hmk, (pctoslip_slppkt L n Hmax HLl). cbn [so_slppkt].
  assert (Hcrc : crc16 L n = crc16 P n)
    by (rewrite <- (crc16_firstn L), <- (crc16_firstn P), HL; reflexivity).
  rewrite Hcrc, HL. reflexivity.
Qed.

Lemma tx_retry_same_frame_witness :
  written (tx_ev (pc_tx_pkt link_partial core1
                    (tx_inpkt (pc_tx_pkt link_partial core1 sample_write 5))
                    5))
  = written (tx_ev (pc_tx_pkt link_partial core1 sample_write 5)).
Proof.
  apply (tx_retry_same_frame link_partial core1 sample_write 5).
  - lia.
  - simpl. lia.
Defined.

(* ================================================================= *)
(** ** Frames that arrive before any driver is loaded *)

Lemma globalinit_Core_nth k :
  0 <= k < NUM_CORE ->
  nth_error globalinit_Core (Z.to_nat k)
  = Some {| slot_id := -1; core_id := k; driv_id := 0; pcb := 0 |}.
Proof.
  intros Hk. unfold globalinit_Core. rewrite nth_error_map.
  assert (Hlt : (Z.to_nat k < Z.to_nat NUM_CORE)%nat)
    by (unfold NUM_CORE in *; lia).
  rewrite (nth_error_nth' _ 0%nat) by (rewrite length_seq; exact Hlt).
  rewrite seq_nth by exact Hlt. cbn [option_map Nat.add].
  rewrite Z2Nat.id by lia. reflexivity.
Qed.

(** X12. With the core table as [globalinit] leaves it, no frame reaches a
    callback and none faults; a frame that passes the sanity checks is
    answered with the log [M_NOSO] that names the core of its core byte. *)
Theorem dispatch_before_drivers :
  forall (trace : bool) (inbuf : list Z) (len : Z),
  forallb (fun e => negb (is_call e))
    (dispatch_packet globalinit_Core trace inbuf len) = true /\
  ~ In DFault (dispatch_packet globalinit_Core trace inbuf len) /\
  (dispatch_bogus inbuf len = 0 ->
   dispatch_packet globalinit_Core trace inbuf len
   = (if trace then [DDump true (firstn (Z.to_nat len) inbuf)] else [])
       ++ [DLog (M_NOSO (Z.land (core (as_pkt inbuf)) 0x0f))]).
Proof.
  intros trace inbuf len. unfold dispatch_packet.
  rewrite (globalinit_Core_nth _ (pktcore_range (core (as_pkt inbuf)))).
  cbn [pcb core_id Z.eqb negb].
  destruct (dispatch_bogus inbuf len =? 0) eqn:Eb; cbn [negb].
  - split; [now destruct trace|]. split.
    + destruct trace; cbn; intros H;
        repeat (destruct H as [H|H]; [discriminate H|]); exact H.
    + reflexivity.
  - split; [now destruct trace|]. split.
    + destruct trace; cbn; intros H;
        repeat (destruct H as [H|H]; [discriminate H|]); exact H.
    + intros H. rewrite H in Eb. discriminate.
Qed.

(* ================================================================= *)
(** ** Texts *)

Lemma append_assoc (a b c : string) : (a +++ b) +++ c = a +++ b +++ c.
Proof. induction a as [|x a IH]; simpl; [reflexivity | now rewrite IH]. Qed.

Lemma append_nil_r (a : string) : a +++ EmptyString = a.
Proof. induction a as [|x a IH]; simpl; [reflexivity | now rewrite IH]. Qed.

Lemma length_append (a b : string) :
  String.length (a +++ b) = (String.length a + String.length b)%nat.
Proof. induction a as [|x a IH]; simpl; [reflexivity | now rewrite IH]. Qed.

Lemma substring_0_all (s : string) : forall n,
  (String.length s <= n)%nat -> substring 0 n s = s.
Proof.
  induction s as [|x s IH]; intros [|n] H; simpl in *; try reflexivity;
    try lia.
  rewrite IH by lia. reflexivity.
Qed.

Lemma substring_0_append (a b : string) :
  substring 0 (String.length a) (a +++ b) = a.
Proof.
  induction a as [|x a IH]; simpl.
  - now destruct b.
  - now rewrite IH.
Qed.

Lemma hex_length n : forall v, String.length (hex n v) = n.
Proof.
  induction n as [|n IH]; intros v; simpl; [reflexivity|].
  rewrite length_append, IH. simpl. lia.
Qed.

(** The digits of a number are those of its high part followed by those of
    its low part. *)
Lemma hex_app a : forall b v,
  hex (a + b) v = hex a (v / 16 ^ Z.of_nat b) +++ hex b v.
Proof.
  intros b. induction b as [|b IH]; intros v.
  - rewrite Nat.add_0_r. simpl. now rewrite Z.div_1_r, append_nil_r.
  - rewrite Nat.add_succ_r. cbn [hex]. rewrite IH, append_assoc.
    rewrite Z.div_div by lia.
    replace (16 * 16 ^ Z.of_nat b) with (16 ^ Z.of_nat (S b)); [reflexivity|].
    rewrite Nat2Z.inj_succ, Z.pow_succ_r by lia. reflexivity.
Qed.

(** Only the low [n] digits of a number are printed. *)
Lemma hex_mod n : forall v, hex n (v mod 16 ^ Z.of_nat n) = hex n v.
Proof.
  induction n as [|n IH]; intros v; [reflexivity|].
  cbn [hex]. rewrite Nat2Z.inj_succ, Z.pow_succ_r by lia.
  assert (Hp : 0 < 16 ^ Z.of_nat n) by (apply Z.pow_pos_nonneg; lia).
  rewrite Z.rem_mul_r by lia.
  assert (Hm : 0 <= v mod 16 < 16) by (apply Z.mod_pos_bound; lia).
  replace ((v mod 16 + 16 * ((v / 16) mod 16 ^ Z.of_nat n)) / 16)
    with ((v / 16) mod 16 ^ Z.of_nat n).
  2:{ rewrite (Z.mul_comm 16), Z.div_add by lia.
      rewrite (Z.div_small (v mod 16)) by lia. lia. }
  replace ((v mod 16 + 16 * ((v / 16) mod 16 ^ Z.of_nat n)) mod 16)
    with (v mod 16).
  2:{ rewrite (Z.mul_comm 16), Z_mod_plus_full.
      now rewrite Z.mod_mod by lia. }
  now rewrite IH.
Qed.

(** Two bytes printed as one 16 bit number. *)
Lemma hex_word hi lo :
  0 <= lo < 256 ->
  hex 4 (Z.shiftl hi 8 + lo) = hex 2 hi +++ hex 2 lo.
Proof.
  intros Hlo. rewrite (hex_app 2 2). rewrite Z.shiftl_mul_pow2 by lia.
  change (16 ^ Z.of_nat 2) with 256. change (2 ^ 8) with 256.
  rewrite Z.div_add_l, (Z.div_small lo), Z.add_0_r by lia.
  rewrite <- (hex_mod 2 (hi * 256 + lo)).
  change (16 ^ Z.of_nat 2) with 256.
  rewrite Z.add_comm, Z_mod_plus_full, Z.mod_small by lia. reflexivity.
Qed.

(** Three bytes printed as one 24 bit number. *)
Lemma hex_three d2 d1 d0 :
  0 <= d1 < 256 -> 0 <= d0 < 256 ->
  hex 6 (Z.shiftl d2 16 + Z.shiftl d1 8 + d0)
  = hex 2 d2 +++ hex 2 d1 +++ hex 2 d0.
Proof.
  intros H1 H0. rewrite (hex_app 2 4), (hex_app 2 2).
  rewrite !Z.shiftl_mul_pow2 by lia.
  change (16 ^ Z.of_nat 4) with 65536. change (16 ^ Z.of_nat 2) with 256.
  change (2 ^ 16) with 65536. change (2 ^ 8) with 256.
  replace ((d2 * 65536 + d1 * 256 + d0) / 65536) with d2.
  2:{ rewrite <- Z.add_assoc, Z.div_add_l by lia.
      rewrite (Z.div_small (d1 * 256 + d0)) by lia. lia. }
  replace ((d2 * 65536 + d1 * 256 + d0) / 256) with (d2 * 256 + d1).
  2:{ replace (d2 * 65536 + d1 * 256 + d0) with ((d2 * 256 + d1) * 256 + d0)
        by lia.
      rewrite Z.div_add_l, (Z.div_small d0) by lia. lia. }
  rewrite <- (hex_mod 2 (d2 * 256 + d1)).
  rewrite <- (hex_mod 2 (d2 * 65536 + d1 * 256 + d0)).
  change (16 ^ Z.of_nat 2) with 256.
  replace ((d2 * 256 + d1) mod 256) with d1.
  2:{ rewrite Z.add_comm, Z_mod_plus_full, Z.mod_small by lia. reflexivity. }
  replace ((d2 * 65536 + d1 * 256 + d0) mod 256) with d0.
  2:{ replace (d2 * 65536 + d1 * 256 + d0)
        with (d0 + (d2 * 256 + d1) * 256) by lia.
      rewrite Z_mod_plus_full, Z.mod_small by lia. reflexivity. }
  reflexivity.
Qed.

(* ================================================================= *)
(** ** [basys3]: packets that are not write responses *)

Section Basys3Packets.

Import Basys3.

Variables (dm : daemon) (pslot : SLOT BASYSDEV) (pkt : PC_PKT) (len : Z).

Let prsc := nth RSC_SWITCHES (rsc pslot) no_rsc.

Lemma not_write_ack_eqb :
  not_write_ack pkt ->
  (Z.land (cmd pkt) PC_CMD_OP_MASK =? PC_CMD_OP_WRITE) = false.
Proof. intros H. now apply Z.eqb_neq. Qed.

Lemma switch_text_length v :
  Z.of_nat (String.length (hex 6 v +++ newline)) = 7.
Proof. now rewrite length_append, hex_length. Qed.

(** An autosend packet: the one path with a broadcast. *)
Lemma packet_hdlr_autosend :
  not_write_ack pkt -> is_response pkt = false ->
  packet_hdlr dm pslot pkt len
  = if negb (bkey prsc =? 0) then
      if negb (switch_value pkt =? lastswitch (priv pslot)) then
        (set_slot_rsc
           (set_priv pslot (set_lastswitch (priv pslot) (switch_value pkt)))
           RSC_SWITCHES (set_bkey prsc (dm_bcst dm (bkey prsc))),
         [EvBcstUi (hex 6 (switch_value pkt) +++ newline) 7 (bkey prsc)])
      else (set_priv pslot (set_lastswitch (priv pslot) (switch_value pkt)),
            [])
    else (set_priv pslot (priv pslot), []).
Proof.
  intros Hw Hr. unfold packet_hdlr.
  rewrite (not_write_ack_eqb Hw), Hr. cbn [andb]. fold prsc.
  fold (switch_value pkt). rewrite switch_text_length. reflexivity.
Qed.

End Basys3Packets.

(** X13. [basys3] filters duplicates: when an autosend packet has been
    handled, the same packet arriving again causes no call at all, whether
    or not a session monitors the switches. *)
Theorem autosend_duplicate_dropped :
  forall (dm dm' : daemon) (pslot : SLOT Basys3.BASYSDEV) (pkt : PC_PKT)
         (len len' : Z),
  not_write_ack pkt -> is_response pkt = false ->
  snd (Basys3.packet_hdlr dm'
         (fst (Basys3.packet_hdlr dm pslot pkt len)) pkt len') = [].
Proof.
  intros dm dm' pslot pkt len len' Hw Hr.
  rewrite (packet_hdlr_autosend dm pslot pkt len Hw Hr).
  destruct (negb (bkey (nth Basys3.RSC_SWITCHES (rsc pslot) no_rsc) =? 0))
    eqn:Ek.
  - destruct (negb (switch_value pkt =? Basys3.lastswitch (priv pslot)));
      cbn [fst]; rewrite (packet_hdlr_autosend _ _ _ _ Hw Hr);
      cbn [priv set_slot_rsc set_priv Basys3.set_lastswitch
           Basys3.lastswitch];
      rewrite Z.eqb_refl; cbn [negb];
      match goal with
      | |- context [if ?b then _ else _] => destruct b
      end; reflexivity.
  - cbn [fst]. rewrite (packet_hdlr_autosend _ _ _ _ Hw Hr).
    cbn [rsc set_priv]. rewrite Ek. reflexivity.
Qed.

Lemma autosend_duplicate_dropped_witness :
  snd (Basys3.packet_hdlr (daemon_on link_ok)
         (fst (Basys3.packet_hdlr (daemon_on link_ok)
                 (basys3_monitored 5 0) (switches_autosend 1 2 3) 7))
         (switches_autosend 1 2 3) 7) = [].
Proof.
  apply (autosend_duplicate_dropped (daemon_on link_ok) (daemon_on link_ok)
           (basys3_monitored 5 0) (switches_autosend 1 2 3) 7 7).
  - unfold not_write_ack. vm_compute. discriminate.
  - reflexivity.
Defined.

(** X14. The two texts [basys3] makes of the switches agree: for the same
    three switch bytes, the reply to a [pcget] and the broadcast of an
    autosend update are the same seven characters, the bytes [data[2]],
    [data[1]], [data[0]] as two hex digits each and a newline. *)
Theorem switch_texts_agree :
  forall (dm : daemon) (pslot : SLOT Basys3.BASYSDEV) (get auto : PC_PKT)
         (len : Z),
  let prsc := nth Basys3.RSC_SWITCHES (rsc pslot) no_rsc in
  let text := hex 2 (data_at get 2) +++ hex 2 (data_at get 1)
                +++ hex 2 (data_at get 0) +++ newline in
  is_byte (data_at get 0) -> is_byte (data_at get 1) ->
  is_byte (data_at get 2) ->
  data auto = data get ->
  not_write_ack get -> is_response get = true ->
  reg get = Basys3.BASYS_REG_SWITCHES -> count get = 3 ->
  not_write_ack auto -> is_response auto = false ->
  bkey prsc <> 0 -> switch_value auto <> Basys3.lastswitch (priv pslot) ->
  snd (Basys3.packet_hdlr dm pslot get len)
  = [EvSendUi text 7 (uilock prsc); EvPrompt (uilock prsc);
     EvDelTimer (Basys3.ptimer (priv pslot))]
  /\ snd (Basys3.packet_hdlr dm pslot auto len)
     = [EvBcstUi text 7 (bkey prsc)].
Proof.
  intros dm pslot get auto len prsc text H0 H1 H2 Hd Hwg Hrg Hreg Hcnt
    Hwa Hra Hk Hl.
  split.
  - unfold Basys3.packet_hdlr.
    rewrite (not_write_ack_eqb get Hwg), Hrg, Hreg, Hcnt.
    cbn [andb Z.eqb Basys3.BASYS_REG_SWITCHES Basys3.BASYS_REG_DRIVLIST
         Pos.eqb snd app].
    fold prsc. rewrite !length_append, !hex_length. reflexivity.
  - rewrite (packet_hdlr_autosend dm pslot auto len Hwa Hra). fold prsc.
    apply Z.eqb_neq in Hk, Hl. rewrite Hk, Hl. cbn [negb snd].
    unfold switch_value, data_at. rewrite Hd. fold (data_at get 0).
    fold (data_at get 1). fold (data_at get 2).
    unfold is_byte in *.
    assert (Hs : 0 <= Z.shiftl (data_at get 2) 16
                      + Z.shiftl (data_at get 1) 8 + data_at get 0 < 2 ^ 32).
    { rewrite !Z.shiftl_mul_pow2 by lia.
      change (2 ^ 16) with 65536. change (2 ^ 8) with 256.
      change (2 ^ 32) with 4294967296. lia. }
    rewrite Z.mod_small by exact Hs.
    rewrite hex_three by assumption. unfold text.
    now rewrite !append_assoc.
Qed.

Lemma switch_texts_agree_witness :
  snd (Basys3.packet_hdlr (daemon_on link_ok) (basys3_monitored 5 0)
         (switches_reply 0x34 0x12 0xab) 7)
  = [EvSendUi (hex 2 0xab +++ hex 2 0x12 +++ hex 2 0x34 +++ newline) 7 (-1);
     EvPrompt (-1); EvDelTimer 0]
  /\ snd (Basys3.packet_hdlr (daemon_on link_ok) (basys3_monitored 5 0)
            (switches_autosend 0x34 0x12 0xab) 7)
     = [EvBcstUi (hex 2 0xab +++ hex 2 0x12 +++ hex 2 0x34 +++ newline) 7 5].
Proof.
  apply (switch_texts_agree (daemon_on link_ok) (basys3_monitored 5 0)
           (switches_reply 0x34 0x12 0xab) (switches_autosend 0x34 0x12 0xab)
           7).
  - vm_compute. split; [discriminate | reflexivity].
  - vm_compute. split; [discriminate | reflexivity].
  - vm_compute. split; [discriminate | reflexivity].
  - reflexivity.
  - unfold not_write_ack. vm_compute. discriminate.
  - reflexivity.
  - reflexivity.
  - reflexivity.
  - unfold not_write_ack. vm_compute. discriminate.
  - reflexivity.
  - vm_compute. discriminate.
  - vm_compute. discriminate.
Defined.

(** X15. In [basys3] the response to the read of the driver list is not
    kept apart from the switch updates: when a session monitors the
    switches, the handler stores the identifiers, deletes the timer, and
    then also broadcasts the first three bytes of the list as a new switch
    value and remembers them as the last one. *)
Theorem drivlist_response_broadcast :
  forall (dm : daemon) (pslot : SLOT Basys3.BASYSDEV) (pkt : PC_PKT)
         (len : Z),
  let prsc := nth Basys3.RSC_SWITCHES (rsc pslot) no_rsc in
  not_write_ack pkt -> is_response pkt = true ->
  reg pkt = Basys3.BASYS_REG_DRIVLIST -> count pkt = 2 * NUM_CORE ->
  bkey prsc <> 0 -> switch_value pkt <> Basys3.lastswitch (priv pslot) ->
  snd (Basys3.packet_hdlr dm pslot pkt len)
  = [EvDelTimer (Basys3.ptimer (priv pslot));
     EvBcstUi (hex 6 (switch_value pkt) +++ newline) 7 (bkey prsc)]
  /\ Basys3.drivlist (priv (fst (Basys3.packet_hdlr dm pslot pkt len)))
     = reply_ids pkt
  /\ Basys3.lastswitch (priv (fst (Basys3.packet_hdlr dm pslot pkt len)))
     = switch_value pkt.
Proof.
  intros dm pslot pkt len prsc Hw Hr Hreg Hcnt Hk Hl.
  unfold Basys3.packet_hdlr.
  rewrite (not_write_ack_eqb pkt Hw), Hr, Hreg, Hcnt.
  cbn [andb Z.eqb Basys3.BASYS_REG_SWITCHES Basys3.BASYS_REG_DRIVLIST
       Pos.eqb NUM_CORE Z.mul Pos.mul].
  fold prsc. fold (switch_value pkt).
  cbn [Basys3.lastswitch Basys3.set_ptimer Basys3.set_drivlist].
  apply Z.eqb_neq in Hk, Hl. rewrite Hk, Hl. cbn [negb snd fst app].
  rewrite switch_text_length. split; [reflexivity|].
  split; reflexivity.
Qed.

Lemma drivlist_response_broadcast_witness :
  snd (Basys3.packet_hdlr (daemon_on link_ok) (basys3_monitored 5 0)
         (drivlist_reply [0; 42; 0; 24; 0; 23]) 38)
  = [EvDelTimer 0;
     EvBcstUi (hex 6 (switch_value (drivlist_reply [0; 42; 0; 24; 0; 23]))
                 +++ newline) 7 5]
  /\ Basys3.drivlist
       (priv (fst (Basys3.packet_hdlr (daemon_on link_ok)
                     (basys3_monitored 5 0)
                     (drivlist_reply [0; 42; 0; 24; 0; 23]) 38)))
     = reply_ids (drivlist_reply [0; 42; 0; 24; 0; 23])
  /\ Basys3.lastswitch
       (priv (fst (Basys3.packet_hdlr (daemon_on link_ok)
                     (basys3_monitored 5 0)
                     (drivlist_reply [0; 42; 0; 24; 0; 23]) 38)))
     = switch_value (drivlist_reply [0; 42; 0; 24; 0; 23]).
Proof.
  apply (drivlist_response_broadcast (daemon_on link_ok)
           (basys3_monitored 5 0) (drivlist_reply [0; 42; 0; 24; 0; 23]) 38).
  - unfold not_write_ack. vm_compute. discriminate.
  - reflexivity.
  - reflexivity.
  - reflexivity.
  - vm_compute. discriminate.
  - vm_compute. discriminate.
Defined.

(* ================================================================= *)
(** ** [basys3]: [text_to_segs] *)

Section TextToSegs.

Import Basys3 Basys3Cmd.

Lemma seg_lookup_cases c : forall tbl,
  seg_lookup c tbl = 0 \/ In (seg_lookup c tbl) (map snd tbl).
Proof.
  induction tbl as [|[sym v] tbl IH]; simpl; [now left|].
  destruct (Ascii.eqb c sym); [right; now left|].
  destruct IH as [IH|IH]; [now left | right; now right].
Qed.

Lemma seg_lookup_range c : 0 <= seg_lookup c symbols < 128.
Proof.
  destruct (seg_lookup_cases c symbols) as [H|H]; [rewrite H; lia|].
  revert H. generalize (seg_lookup c symbols). intros v H.
  cbn in H.
  repeat (destruct H as [H|H]; [subst v; lia|]). destruct H.
Qed.

Lemma lor_dp_range v : 0 <= v < 128 -> 0 <= Z.lor v 0x80 < 256.
Proof.
  intros Hv.
  pose proof (byte_cases
                (fun v => (0 <=? Z.lor v 0x80) && (Z.lor v 0x80 <? 256))
                128 ltac:(vm_compute; reflexivity) v Hv) as H.
  cbv beta in H. apply andb_prop in H as [H1 H2].
  apply Z.leb_le in H1. apply Z.ltb_lt in H2. lia.
Qed.

Lemma text_to_segs_from_bytes n : forall text k,
  length (text_to_segs_from n text k) = n /\
  Forall is_byte (text_to_segs_from n text k).
Proof.
  induction n as [|n IH]; intros text k; cbn [text_to_segs_from].
  - split; [reflexivity | constructor].
  - pose proof (seg_lookup_range (text_at text k)) as Hr.
    pose proof (lor_dp_range _ Hr) as Hd.
    destruct (negb _ && _).
    + destruct (IH text (S (S k))) as [Hl Hf]. split; [cbn; now rewrite Hl|].
      constructor; [exact Hd | exact Hf].
    + destruct (IH text (S k)) as [Hl Hf]. split; [cbn; now rewrite Hl|].
      constructor; [unfold is_byte; lia | exact Hf].
Qed.

Lemma text_at_app pre s j :
  text_at (string_of_list_ascii (pre ++ s)) (length pre + j)
  = nth j s Ascii.zero.
Proof.
  unfold text_at. rewrite list_ascii_of_string_of_list_ascii.
  apply app_nth2_plus.
Qed.

Lemma text_to_segs_from_beyond n : forall text k,
  (length (list_ascii_of_string text) <= k)%nat ->
  text_to_segs_from n text k = repeat 0 n.
Proof.
  induction n as [|n IH]; intros text k Hk; cbn [text_to_segs_from repeat];
    [reflexivity|].
  unfold text_at. rewrite !nth_overflow by lia.
  cbn [Ascii.eqb negb andb]. change (Ascii.eqb Ascii.zero ".") with false.
  cbn [negb andb]. rewrite IH by lia. reflexivity.
Qed.

Lemma firstn_repeat_le (x : Z) : forall m k,
  (m <= k)%nat -> firstn m (repeat x k) = repeat x m.
Proof.
  induction m as [|m IH]; intros [|k] H; cbn; try reflexivity; try lia.
  now rewrite IH by lia.
Qed.

Lemma firstn_pad (l : list Z) n :
  firstn n (l ++ repeat 0 (S n)) = firstn n (l ++ repeat 0 n).
Proof.
  rewrite !firstn_app. f_equal.
  rewrite !firstn_repeat_le by lia. reflexivity.
Qed.

Lemma render_head ds :
  Forall (fun d : ascii * bool => fst d <> "."%char) ds ->
  Ascii.eqb (nth 0 (render ds) Ascii.zero) "." = false.
Proof.
  intros H. destruct ds as [|[c dot] ds]; [reflexivity|].
  inversion H as [|d l Hc Hl]; subst. cbn [fst] in Hc.
  apply Ascii.eqb_neq in Hc. cbn [render]. now destruct dot.
Qed.

Lemma text_to_segs_from_render n : forall digits pre,
  Forall (fun d : ascii * bool => fst d <> "."%char) digits ->
  text_to_segs_from n (string_of_list_ascii (pre ++ render digits))
    (length pre)
  = firstn n (map seg_dp digits ++ repeat 0 n).
Proof.
  induction n as [|n IH]; intros digits pre Hd; [reflexivity|].
  cbn [text_to_segs_from]. cbv zeta.
  assert (T0 : text_at (string_of_list_ascii (pre ++ render digits))
                 (length pre) = nth 0 (render digits) Ascii.zero).
  { rewrite <- (Nat.add_0_r (length pre)). apply text_at_app. }
  rewrite T0, text_at_app. clear T0.
  destruct digits as [|[c dot] ds].
  - cbn [render nth map app]. change (Ascii.eqb Ascii.zero ".") with false.
    cbn [negb andb]. change (seg_lookup Ascii.zero symbols) with 0.
    rewrite text_to_segs_from_beyond.
    2:{ rewrite list_ascii_of_string_of_list_ascii, app_nil_r. lia. }
    cbn [repeat firstn]. now rewrite firstn_all2 by (rewrite repeat_length; lia).
  - inversion Hd as [|d l Hc Hds]; subst. cbn [fst] in Hc.
    apply Ascii.eqb_neq in Hc.
    cbn [map app firstn]. rewrite firstn_pad.
    destruct dot; cbn [render nth]; rewrite Hc; cbn [negb andb].
    + change (Ascii.eqb "." ".") with true. cbn [andb].
      replace (pre ++ c :: "."%char :: render ds)
        with ((pre ++ [c; "."%char]) ++ render ds)
        by (now rewrite <- app_assoc).
      replace (S (S (length pre))) with (length (pre ++ [c; "."%char]))
        by (rewrite length_app; cbn; lia).
      rewrite IH by exact Hds. reflexivity.
    + rewrite (render_head ds Hds).
      replace (pre ++ c :: render ds) with ((pre ++ [c]) ++ render ds)
        by (now rewrite <- app_assoc).
      replace (S (length pre)) with (length (pre ++ [c]))
        by (rewrite length_app; cbn; lia).
      rewrite IH by exact Hds. reflexivity.
Qed.

End TextToSegs.

(** X16. For every text, [text_to_segs] fills the four entries of [segs]
    with values that fit a byte, so the packet [board2tofpga] builds carries
    them unchanged in its four data bytes. *)
Theorem text_to_segs_bytes :
  forall (text : string) (pmycore : CORE),
  length (Basys3Cmd.text_to_segs text) = Basys3Cmd.NDIGITS /\
  Forall is_byte (Basys3Cmd.text_to_segs text) /\
  data (Basys3Cmd.display_request pmycore (Basys3Cmd.text_to_segs text))
  = Basys3Cmd.text_to_segs text ++ [0; 0].
Proof.
  intros text pmycore.
  destruct (text_to_segs_from_bytes Basys3Cmd.NDIGITS text 0) as [Hl Hf].
  fold (Basys3Cmd.text_to_segs text) in Hl, Hf.
  split; [exact Hl|]. split; [exact Hf|].
  destruct (Basys3Cmd.text_to_segs text) as [|a [|b [|c [|d [|e l]]]]];
    try discriminate Hl.
  inversion Hf as [|? ? Ha Hf1]; subst.
  inversion Hf1 as [|? ? Hb Hf2]; subst.
  inversion Hf2 as [|? ? Hc Hf3]; subst.
  inversion Hf3 as [|? ? Hd _]; subst.
  unfold Basys3Cmd.display_request. cbn [data nth app].
  now rewrite !uint8_small by assumption.
Qed.

(** X17. [text_to_segs] reads a text as display positions, each a
    character other than '.' with or without a '.' behind it: position [i]
    shows the segments the table gives for the character (none when the
    table does not have it), with bit 7, the decimal point, set exactly
    when the '.' is there.  Positions behind the end of the text are blank,
    and characters behind the fourth position are ignored. *)
Theorem text_to_segs_render :
  forall digits : list (ascii * bool),
  Forall (fun d : ascii * bool => fst d <> "."%char) digits ->
  Basys3Cmd.text_to_segs (string_of_list_ascii (Basys3Cmd.render digits))
  = firstn 4 (map Basys3Cmd.seg_dp digits ++ repeat 0 4%nat).
Proof.
  intros digits H.
  exact (text_to_segs_from_render Basys3Cmd.NDIGITS digits [] H).
Qed.

Lemma text_to_segs_render_witness :
  Basys3Cmd.text_to_segs
    (string_of_list_ascii
       (Basys3Cmd.render [("1"%char, true); ("2"%char, false);
                          ("A"%char, true)]))
  = firstn 4 (map Basys3Cmd.seg_dp
                [("1"%char, true); ("2"%char, false); ("A"%char, true)]
              ++ repeat 0 4%nat).
Proof.
  apply (text_to_segs_render
           [("1"%char, true); ("2"%char, false); ("A"%char, true)]).
  repeat constructor; discriminate.
Defined.

(* ================================================================= *)
(** ** [basys3]: the display and the segments *)

Section Basys3Usercmd.

Import Basys3 Basys3Cmd.

Variable E_BDVAL : string -> string.
Variable sscanf_segs : string -> scan_segs.

Lemma board2tofpga_state dm (pslot : SLOT BASYSDEV) :
  text (priv (fst (fst (board2tofpga dm pslot)))) = text (priv pslot) /\
  segs (priv (fst (fst (board2tofpga dm pslot)))) = segs (priv pslot) /\
  rsc (fst (fst (board2tofpga dm pslot))) = rsc pslot /\
  pcore (fst (fst (board2tofpga dm pslot))) = pcore pslot.
Proof.
  unfold board2tofpga. destruct (ptimer (priv pslot) =? 0); cbn; auto.
Qed.

Lemma send_segs_slot dm (pslot : SLOT BASYSDEV) plen :
  uc_slot (send_segs dm pslot plen) = fst (fst (board2tofpga dm pslot)) /\
  uc_ev (send_segs dm pslot plen) = snd (board2tofpga dm pslot).
Proof.
  unfold send_segs. destruct (board2tofpga dm pslot) as [[s txret] ev].
  cbn [fst snd]. unfold reply.
  destruct (negb (txret =? 0)); [|split; reflexivity].
  destruct (snprintf_text plen E_WRFPGA). split; reflexivity.
Qed.

Lemma substring_length_le s : forall n,
  (String.length (substring 0 n s) <= n)%nat.
Proof.
  induction s as [|x s IH]; intros [|n]; simpl; try lia.
  specialize (IH n). lia.
Qed.

Lemma reply_fields (pslot : SLOT BASYSDEV) plen s ev :
  uc_slot (reply pslot plen s ev) = pslot /\
  uc_plen (reply pslot plen s ev) = Z.of_nat (String.length s) /\
  uc_buf (reply pslot plen s ev)
  = Some (substring 0 (Z.to_nat (plen - 1)) s) /\
  uc_ev (reply pslot plen s ev) = ev.
Proof. unfold reply, snprintf_text. cbn. auto. Qed.

End Basys3Usercmd.

(** X18. [pcset display] keeps the first eight characters of the value and
    their segments, whether or not the packet could be sent; a following
    [pcget display] with a buffer of at least one byte answers with those
    characters and a newline, as far as the buffer takes them, and reports
    their number plus one. *)
Theorem display_set_get :
  forall (E_BDVAL : string -> string)
         (sscanf_segs : string -> Basys3Cmd.scan_segs)
         (dm dm' : daemon) (val val' : string)
         (pslot : SLOT Basys3.BASYSDEV) (cn cn' plen plen' : Z),
  let r := Basys3Cmd.usercmd E_BDVAL sscanf_segs dm PCSET
             Basys3.RSC_DISPLAY val pslot cn plen in
  let g := Basys3Cmd.usercmd E_BDVAL sscanf_segs dm' PCGET
             Basys3.RSC_DISPLAY val' (Basys3.uc_slot r) cn' plen' in
  1 <= plen' ->
  (String.length (Basys3Cmd.copy_text val) <= 8)%nat /\
  Basys3.text (priv (Basys3.uc_slot r)) = Basys3Cmd.copy_text val /\
  Basys3.segs (priv (Basys3.uc_slot r))
  = Basys3Cmd.text_to_segs (Basys3Cmd.copy_text val) /\
  Basys3.uc_plen g
  = Z.of_nat (String.length (Basys3Cmd.copy_text val)) + 1 /\
  Basys3.uc_buf g
  = Some (substring 0 (Z.to_nat (plen' - 1))
            (Basys3Cmd.copy_text val +++ newline)) /\
  Basys3.uc_ev g = [] /\
  Basys3.uc_slot g = Basys3.uc_slot r.
Proof.
  intros E_BDVAL sscanf_segs dm dm' val val' pslot cn cn' plen plen' r g _.
  split; [apply substring_length_le|].
  assert (Hr : Basys3.text (priv (Basys3.uc_slot r))
               = Basys3Cmd.copy_text val /\
               Basys3.segs (priv (Basys3.uc_slot r))
               = Basys3Cmd.text_to_segs (Basys3Cmd.copy_text val)).
  { unfold r, Basys3Cmd.usercmd.
    change (Basys3.usercmd_select PCSET Basys3.RSC_DISPLAY)
      with Basys3.UcSetDisplay. cbv iota zeta.
    destruct (send_segs_slot dm
                (set_priv pslot
                   (Basys3Cmd.set_text_segs (priv pslot)
                      (Basys3Cmd.copy_text val)
                      (Basys3Cmd.text_to_segs (Basys3Cmd.copy_text val))))
                plen) as [-> _].
    destruct (board2tofpga_state dm
                (set_priv pslot
                   (Basys3Cmd.set_text_segs (priv pslot)
                      (Basys3Cmd.copy_text val)
                      (Basys3Cmd.text_to_segs (Basys3Cmd.copy_text val)))))
      as (-> & -> & _).
    split; reflexivity. }
  destruct Hr as [Ht Hs]. split; [exact Ht|]. split; [exact Hs|].
  unfold g, Basys3Cmd.usercmd.
  change (Basys3.usercmd_select PCGET Basys3.RSC_DISPLAY)
    with Basys3.UcGetDisplay. cbv iota zeta.
  destruct (reply_fields (Basys3.uc_slot r) plen'
              (Basys3.text (priv (Basys3.uc_slot r)) +++ newline) [])
    as (-> & -> & -> & ->).
  rewrite Ht, length_append. cbn [newline String.length].
  repeat split. lia.
Qed.

Lemma display_set_get_witness :
  Basys3.uc_buf
    (Basys3Cmd.usercmd sample_E_BDVAL sample_sscanf_segs
       (daemon_on link_ok) PCGET Basys3.RSC_DISPLAY ""
       (Basys3.uc_slot
          (Basys3Cmd.usercmd sample_E_BDVAL sample_sscanf_segs
             (daemon_on link_closed) PCSET Basys3.RSC_DISPLAY "1.2A.-rest"
             basys3_quiet 0 100)) 0 100)
  = Some (substring 0 (Z.to_nat (100 - 1))
            (Basys3Cmd.copy_text "1.2A.-rest" +++ newline)).
Proof.
  apply (display_set_get sample_E_BDVAL sample_sscanf_segs
           (daemon_on link_closed) (daemon_on link_ok) "1.2A.-rest" ""
           basys3_quiet 0 0 100 100).
  lia.
Defined.

(** X19. After a [pcset segments] with four values in 0 .. 0xff, the
    packet sent to the board carries the four values, but [pcget segments]
    prints the third value twice and never the fourth. *)
Theorem segments_set_get :
  forall (E_BDVAL : string -> string)
         (sscanf_segs : string -> Basys3Cmd.scan_segs)
         (dm dm' : daemon) (val val' : string)
         (pslot : SLOT Basys3.BASYSDEV) (cn cn' plen plen' : Z),
  let sc := sscanf_segs val in
  let a := Basys3Cmd.s0 sc in
  let b := Basys3Cmd.s1 sc in
  let c := Basys3Cmd.s2 sc in
  let d := Basys3Cmd.s3 sc in
  let r := Basys3Cmd.usercmd E_BDVAL sscanf_segs dm PCSET
             Basys3.RSC_SEGMENTS val pslot cn plen in
  let g := Basys3Cmd.usercmd E_BDVAL sscanf_segs dm' PCGET
             Basys3.RSC_SEGMENTS val' (Basys3.uc_slot r) cn' plen' in
  Basys3Cmd.scan_ret sc = 4 ->
  is_byte a -> is_byte b -> is_byte c -> is_byte d ->
  13 <= plen' ->
  (exists pkt,
     In (EvTx (pc_tx_pkt (dm_link dm) (pcore pslot) pkt 8))
        (Basys3.uc_ev r) /\
     data pkt = [a; b; c; d; 0; 0]) /\
  Basys3.uc_buf g
  = Some (hex 2 a +++ " " +++ hex 2 b +++ " " +++ hex 2 c +++ " "
            +++ hex 2 c +++ newline) /\
  Basys3.uc_plen g = 12.
Proof.
  intros E_BDVAL sscanf_segs dm dm' val val' pslot cn cn' plen plen'
    sc a b c d r g Hret Ha Hb Hc Hd Hplen.
  assert (Hsel : Basys3.usercmd_select PCSET Basys3.RSC_SEGMENTS
                 = Basys3.UcSetSegments) by reflexivity.
  assert (Hok : negb (Basys3Cmd.scan_ret sc =? 4)
                || Basys3Cmd.out_of_byte a || Basys3Cmd.out_of_byte b
                || Basys3Cmd.out_of_byte c || Basys3Cmd.out_of_byte d
                = false).
  { rewrite Hret. unfold Basys3Cmd.out_of_byte, is_byte in *.
    repeat match goal with
           | |- context [?x <? 0] =>
               replace (x <? 0) with false by (symmetry; apply Z.ltb_ge; lia)
           | |- context [?x >? 255] =>
               replace (x >? 255) with false
                 by (symmetry; rewrite Z.gtb_ltb; apply Z.ltb_ge; lia)
           end.
    reflexivity. }
  set (s1 := set_priv pslot (Basys3Cmd.set_segs (priv pslot) [a; b; c; d])).
  assert (Er : r = Basys3Cmd.send_segs dm s1 plen).
  { unfold r, Basys3Cmd.usercmd. rewrite Hsel. cbv iota zeta.
    fold sc. fold a. fold b. fold c. fold d. rewrite Hok. reflexivity. }
  split.
  - exists (Basys3Cmd.display_request (pcore pslot) [a; b; c; d]).
    split.
    + rewrite Er. destruct (send_segs_slot dm s1 plen) as [_ ->].
      unfold Basys3Cmd.board2tofpga.
      destruct (Basys3.ptimer (priv s1) =? 0); cbn; now left.
    + unfold Basys3Cmd.display_request. cbn [data nth].
      now rewrite !uint8_small by assumption.
  - assert (Hs : Basys3.segs (priv (Basys3.uc_slot r)) = [a; b; c; d]).
    { rewrite Er. destruct (send_segs_slot dm s1 plen) as [-> _].
      destruct (board2tofpga_state dm s1) as (_ & -> & _). reflexivity. }
    unfold g, Basys3Cmd.usercmd.
    change (Basys3.usercmd_select PCGET Basys3.RSC_SEGMENTS)
      with Basys3.UcGetSegments. cbv iota zeta. rewrite Hs. cbn [nth].
    match goal with
    | |- context [Basys3Cmd.reply ?s ?p ?t ?e] =>
        destruct (reply_fields s p t e) as (_ & -> & -> & _);
        assert (Hl : String.length t = 12%nat)
          by (rewrite !length_append, !hex_length; reflexivity)
    end.
    rewrite Hl, substring_0_all by (rewrite Hl; lia).
    split; reflexivity.
Qed.

Lemma segments_set_get_witness :
  (exists pkt,
     In (EvTx (pc_tx_pkt link_ok core0 pkt 8))
        (Basys3.uc_ev
           (Basys3Cmd.usercmd sample_E_BDVAL sample_sscanf_segs
              (daemon_on link_ok) PCSET Basys3.RSC_SEGMENTS "3f 06 5b 4f"
              basys3_quiet 0 100)) /\
     data pkt = [0x3f; 0x06; 0x5b; 0x4f; 0; 0]) /\
  Basys3.uc_buf
    (Basys3Cmd.usercmd sample_E_BDVAL sample_sscanf_segs
       (daemon_on link_ok) PCGET Basys3.RSC_SEGMENTS ""
       (Basys3.uc_slot
          (Basys3Cmd.usercmd sample_E_BDVAL sample_sscanf_segs
             (daemon_on link_ok) PCSET Basys3.RSC_SEGMENTS "3f 06 5b 4f"
             basys3_quiet 0 100)) 0 100)
  = Some (hex 2 0x3f +++ " " +++ hex 2 0x06 +++ " " +++ hex 2 0x5b +++ " "
            +++ hex 2 0x5b +++ newline) /\
  Basys3.uc_plen
    (Basys3Cmd.usercmd sample_E_BDVAL sample_sscanf_segs
       (daemon_on link_ok) PCGET Basys3.RSC_SEGMENTS ""
       (Basys3.uc_slot
          (Basys3Cmd.usercmd sample_E_BDVAL sample_sscanf_segs
             (daemon_on link_ok) PCSET Basys3.RSC_SEGMENTS "3f 06 5b 4f"
             basys3_quiet 0 100)) 0 100) = 12.
Proof.
  apply (segments_set_get sample_E_BDVAL sample_sscanf_segs
           (daemon_on link_ok) (daemon_on link_ok) "3f 06 5b 4f" ""
           basys3_quiet 0 0 100 100).
  - reflexivity.
  - vm_compute. split; [discriminate | reflexivity].
  - vm_compute. split; [discriminate | reflexivity].
  - vm_compute. split; [discriminate | reflexivity].
  - vm_compute. split; [discriminate | reflexivity].
  - lia.
Defined.

(** X20. [board2tofpga] starts the watchdog whenever none is pending, also
    when the packet could not be sent, and [noAck] only logs: the handle
    stays in [ptimer] after the timer has expired, and the next call of
    [board2tofpga] or of [getdriverlist] starts no watchdog. *)
Theorem basys3_watchdog_not_rearmed :
  forall (dm dm' : daemon) (pslot : SLOT Basys3.BASYSDEV),
  dm_timer dm <> 0 ->
  Basys3.ptimer (priv pslot) = 0 ->
  let s1 := fst (fst (Basys3Cmd.board2tofpga dm pslot)) in
  let expired := Basys3Cmd.noAck (priv s1) in
  In (EvAddTimer 100 (dm_timer dm)) (snd (Basys3Cmd.board2tofpga dm pslot))
  /\ snd expired = [TmLog E_NOACK]
  /\ Basys3.ptimer (fst expired) = dm_timer dm
  /\ forallb (fun e => negb (is_add_timer e))
       (snd (Basys3Cmd.board2tofpga dm' (set_priv s1 (fst expired))))
     = true
  /\ forallb (fun e => negb (is_add_timer e))
       (snd (Basys3Cmd.getdriverlist dm' (set_priv s1 (fst expired))))
     = true.
Proof.
  intros dm dm' pslot Ht Hp s1 expired.
  unfold expired, s1, Basys3Cmd.noAck, Basys3Cmd.board2tofpga,
    Basys3Cmd.getdriverlist.
  rewrite Hp. cbn [Z.eqb fst snd priv set_priv Basys3.set_ptimer
                   Basys3.ptimer].
  apply Z.eqb_neq in Ht. rewrite Ht.
  repeat split. right. now left.
Qed.

Lemma basys3_watchdog_not_rearmed_witness :
  In (EvAddTimer 100 (dm_timer (daemon_on link_closed)))
    (snd (Basys3Cmd.board2tofpga (daemon_on link_closed) basys3_quiet))
  /\ snd (Basys3Cmd.noAck
            (priv (fst (fst (Basys3Cmd.board2tofpga
                               (daemon_on link_closed) basys3_quiet)))))
     = [TmLog E_NOACK]
  /\ Basys3.ptimer
       (fst (Basys3Cmd.noAck
               (priv (fst (fst (Basys3Cmd.board2tofpga
                                  (daemon_on link_closed) basys3_quiet))))))
     = dm_timer (daemon_on link_closed)
  /\ forallb (fun e => negb (is_add_timer e))
       (snd (Basys3Cmd.board2tofpga (daemon_on link_ok)
               (set_priv
                  (fst (fst (Basys3Cmd.board2tofpga
                               (daemon_on link_closed) basys3_quiet)))
                  (fst (Basys3Cmd.noAck
                          (priv (fst (fst (Basys3Cmd.board2tofpga
                                             (daemon_on link_closed)
                                             basys3_quiet)))))))))
     = true
  /\ forallb (fun e => negb (is_add_timer e))
       (snd (Basys3Cmd.getdriverlist (daemon_on link_ok)
               (set_priv
                  (fst (fst (Basys3Cmd.board2tofpga
                               (daemon_on link_closed) basys3_quiet)))
                  (fst (Basys3Cmd.noAck
                          (priv (fst (fst (Basys3Cmd.board2tofpga
                                             (daemon_on link_closed)
                                             basys3_quiet)))))))))
     = true.
Proof.
  apply (basys3_watchdog_not_rearmed (daemon_on link_closed)
           (daemon_on link_ok) basys3_quiet).
  - discriminate.
  - reflexivity.
Defined.

(* ================================================================= *)
(** ** The list of driver identifiers *)

Lemma substring_n_0 s : forall n, substring n 0 s = EmptyString.
Proof.
  induction s as [|x s IH]; intros [|n]; simpl; try reflexivity. apply IH.
Qed.

Lemma substring_skip (a : string) : forall b m,
  substring (String.length a) m (a +++ b) = substring 0 m b.
Proof.
  induction a as [|x a IH]; intros b m; simpl; [reflexivity | apply IH].
Qed.

Lemma set_char_last (a : string) (c0 c : ascii) :
  set_char (a +++ String c0 EmptyString) (String.length a) c
  = a +++ String c EmptyString.
Proof.
  unfold set_char. rewrite substring_0_append. f_equal. f_equal.
  rewrite length_append. cbn [String.length].
  replace (String.length a + 1 - S (String.length a))%nat with 0%nat by lia.
  apply substring_n_0.
Qed.

Lemma print_ids_spec plen : forall ids buf,
  Z.of_nat (String.length buf) + 5 * Z.of_nat (length ids) < plen ->
  print_ids ids plen buf (Z.of_nat (String.length buf))
  = (buf +++ ids_text ids,
     Z.of_nat (String.length buf) + 5 * Z.of_nat (length ids)).
Proof.
  induction ids as [|id ids IH]; intros buf Hlen.
  - cbn [print_ids ids_text fold_right length]. rewrite append_nil_r.
    f_equal. lia.
  - cbn [print_ids]. unfold snprintf_at, snprintf_text.
    assert (H5 : String.length (hex 4 id +++ " ") = 5%nat)
      by (rewrite length_append, hex_length; reflexivity).
    cbn [length] in Hlen.
    rewrite H5, Nat2Z.id, substring_0_all by lia.
    rewrite (substring_0_all (hex 4 id +++ " ")) by (rewrite H5; lia).
    replace (Z.of_nat (String.length buf) + Z.of_nat 5)
      with (Z.of_nat (String.length (buf +++ hex 4 id +++ " ")))
      by (rewrite length_append, H5; lia).
    rewrite IH by (rewrite length_append, H5; lia).
    rewrite length_append, H5. cbn [ids_text fold_right length].
    fold (ids_text ids). rewrite !append_assoc. f_equal. lia.
Qed.

Lemma ids_text_concat : forall ids id,
  ids_text (id :: ids)
  = String.concat " " (map (hex 4) (id :: ids)) +++ " ".
Proof.
  induction ids as [|id' ids IH]; intros id.
  - unfold ids_text. cbn [fold_right map String.concat].
    now rewrite append_nil_r.
  - change (ids_text (id :: id' :: ids))
      with ((hex 4 id +++ " ") +++ ids_text (id' :: ids)).
    rewrite IH. cbn [map String.concat]. now rewrite !append_assoc.
Qed.

Lemma map_nth_seq (l : list Z) :
  map (fun i => nth i l 0) (seq 0 (length l)) = l.
Proof.
  induction l as [|a l IH]; [reflexivity|].
  cbn [length seq map nth]. f_equal.
  rewrite <- seq_shift, map_map. exact IH.
Qed.

Lemma concat_length_16 (l : list string) :
  length l = 16%nat -> (forall s, In s l -> String.length s = 4%nat) ->
  String.length (String.concat " " l) = 79%nat.
Proof.
  intros Hl Hs.
  do 16 (destruct l as [|? l]; [discriminate Hl|]).
  destruct l; [|discriminate Hl].
  cbn [String.concat]. rewrite !length_append.
  repeat match goal with
         | |- context [String.length ?x] =>
             is_var x; rewrite (Hs x) by (cbn; tauto)
         end.
  reflexivity.
Qed.

(** The answer to a [pcget] of the driver list, for sixteen identifiers
    and a buffer of ninety bytes or more. *)
Lemma get_drivlist_line ids plen :
  length ids = 16%nat -> 5 * NUM_CORE + 10 <= plen ->
  get_drivlist ids plen
  = (80, Some (String.concat " " (map (hex 4) ids) +++ newline)).
Proof.
  intros Hl Hplen. unfold get_drivlist.
  apply Z.ltb_ge in Hplen. rewrite Hplen. apply Z.ltb_ge in Hplen.
  rewrite <- Hl at 1. rewrite map_nth_seq.
  change 0 with (Z.of_nat (String.length EmptyString)) at 1.
  rewrite print_ids_spec
    by (cbn [String.length]; unfold NUM_CORE in Hplen; lia).
  cbn [String.length append]. rewrite Hl.
  destruct ids as [|id ids]; [discriminate Hl|].
  rewrite ids_text_concat.
  assert (H79 : String.length (String.concat " " (map (hex 4) (id :: ids)))
                = 79%nat).
  { apply concat_length_16; [now rewrite length_map|].
    intros s Hs. apply in_map_iff in Hs as (v & <- & _). apply hex_length. }
  change (Z.to_nat (Z.of_nat 0 + 5 * Z.of_nat 16 - 1)) with 79%nat.
  rewrite <- H79. rewrite set_char_last. reflexivity.
Qed.

Lemma reply_ids_length pkt : length (reply_ids pkt) = 16%nat.
Proof. unfold reply_ids. now rewrite length_map, length_seq. Qed.

Lemma reply_ids_hex pkt :
  (forall i, (i < 32)%nat -> is_byte (data_at pkt i)) ->
  map (hex 4) (reply_ids pkt)
  = map (fun i => hex 2 (data_at pkt (2 * i))
                    +++ hex 2 (data_at pkt (2 * i + 1)))
        (seq 0 16).
Proof.
  intros Hb. unfold reply_ids. rewrite map_map.
  apply map_ext_in. intros i Hi. apply in_seq in Hi.
  apply hex_word. apply Hb. unfold NUM_CORE in Hi. lia.
Qed.

(** The driver list [packet_hdlr] of [basys3] stores, whatever it does
    with the packet afterwards. *)
Lemma basys3_drivlist_stored dm pslot pkt len :
  not_write_ack pkt -> is_response pkt = true ->
  reg pkt = Basys3.BASYS_REG_DRIVLIST -> count pkt = 2 * NUM_CORE ->
  Basys3.drivlist (priv (fst (Basys3.packet_hdlr dm pslot pkt len)))
  = reply_ids pkt.
Proof.
  intros Hw Hr Hreg Hcnt. unfold Basys3.packet_hdlr.
  rewrite (not_write_ack_eqb pkt Hw), Hr, Hreg, Hcnt.
  cbn [andb Z.eqb Basys3.BASYS_REG_SWITCHES Basys3.BASYS_REG_DRIVLIST
       Pos.eqb NUM_CORE Z.mul Pos.mul].
  repeat match goal with
         | |- context [if ?b then _ else _] => destruct b
         end; reflexivity.
Qed.

(** X21. The driver list goes round in [basys3]: once the response to the
    read of register 0x40 has been handled, a [pcget drivlist] with a
    buffer of at least [5 * NUM_CORE + 10] bytes answers with eighty
    characters, the two bytes of each of the sixteen identifiers as four
    hex digits, in the order of the packet, separated by blanks and ended
    by a newline. *)
Theorem basys3_drivlist_roundtrip :
  forall (E_BDVAL : string -> string)
         (sscanf_segs : string -> Basys3Cmd.scan_segs)
         (dm dm' : daemon) (pslot : SLOT Basys3.BASYSDEV) (pkt : PC_PKT)
         (len : Z) (val : string) (cn plen : Z),
  not_write_ack pkt -> is_response pkt = true ->
  reg pkt = Basys3.BASYS_REG_DRIVLIST -> count pkt = 2 * NUM_CORE ->
  (forall i, (i < 32)%nat -> is_byte (data_at pkt i)) ->
  5 * NUM_CORE + 10 <= plen ->
  let s := fst (Basys3.packet_hdlr dm pslot pkt len) in
  let g := Basys3Cmd.usercmd E_BDVAL sscanf_segs dm' PCGET
             Basys3.RSC_DRIVLIST val s cn plen in
  Basys3.uc_plen g = 80 /\
  Basys3.uc_buf g
  = Some (String.concat " "
            (map (fun i => hex 2 (data_at pkt (2 * i))
                             +++ hex 2 (data_at pkt (2 * i + 1)))
                 (seq 0 16))
          +++ newline) /\
  Basys3.uc_ev g = [].
Proof.
  intros E_BDVAL sscanf_segs dm dm' pslot pkt len val cn plen
    Hw Hr Hreg Hcnt Hb Hplen s g.
  unfold g, Basys3Cmd.usercmd.
  change (Basys3.usercmd_select PCGET Basys3.RSC_DRIVLIST)
    with Basys3.UcGetDrivlist. cbv iota zeta.
  unfold s. rewrite (basys3_drivlist_stored dm pslot pkt len Hw Hr Hreg Hcnt).
  rewrite (get_drivlist_line _ plen (reply_ids_length pkt) Hplen).
  rewrite (reply_ids_hex pkt Hb). cbn [Basys3.uc_plen Basys3.uc_buf
                                     Basys3.uc_ev].
  repeat split.
Qed.

Lemma sample_drivlist_bytes :
  forall i, (i < 32)%nat -> is_byte (data_at sample_drivlist_reply i).
Proof.
  intros i Hi. unfold is_byte.
  do 32 (destruct i as [|i]; [vm_compute; split; [discriminate|reflexivity]|]).
  lia.
Qed.

Lemma basys3_drivlist_roundtrip_witness :
  Basys3.uc_plen
    (Basys3Cmd.usercmd sample_E_BDVAL sample_sscanf_segs (daemon_on link_ok)
       PCGET Basys3.RSC_DRIVLIST ""
       (fst (Basys3.packet_hdlr (daemon_on link_ok) basys3_quiet
               sample_drivlist_reply 38)) 0 100) = 80 /\
  Basys3.uc_buf
    (Basys3Cmd.usercmd sample_E_BDVAL sample_sscanf_segs (daemon_on link_ok)
       PCGET Basys3.RSC_DRIVLIST ""
       (fst (Basys3.packet_hdlr (daemon_on link_ok) basys3_quiet
               sample_drivlist_reply 38)) 0 100)
  = Some (String.concat " "
            (map (fun i => hex 2 (data_at sample_drivlist_reply (2 * i))
                             +++ hex 2 (data_at sample_drivlist_reply
                                          (2 * i + 1)))
                 (seq 0 16))
          +++ newline) /\
  Basys3.uc_ev
    (Basys3Cmd.usercmd sample_E_BDVAL sample_sscanf_segs (daemon_on link_ok)
       PCGET Basys3.RSC_DRIVLIST ""
       (fst (Basys3.packet_hdlr (daemon_on link_ok) basys3_quiet
               sample_drivlist_reply 38)) 0 100) = [].
Proof.
  apply (basys3_drivlist_roundtrip sample_E_BDVAL sample_sscanf_segs
           (daemon_on link_ok) (daemon_on link_ok) basys3_quiet
           sample_drivlist_reply 38 "" 0 100).
  - unfold not_write_ack. vm_compute. discriminate.
  - reflexivity.
  - reflexivity.
  - reflexivity.
  - exact sample_drivlist_bytes.
  - unfold NUM_CORE. lia.
Defined.

(* ================================================================= *)
(** ** [hostserial]: the configuration *)

Section HostserialUserconfig.

Import Hostserial HostserialCmd.

Variable E_BDVAL : string -> string.
Variable sscanf_config : string -> scan_config.

Lemma tofpga_state dm (pslot : SLOT HSRDEV) :
  baud (priv (fst (fst (tofpga dm pslot)))) = baud (priv pslot) /\
  enabled (priv (fst (fst (tofpga dm pslot)))) = enabled (priv pslot) /\
  rsc (fst (fst (tofpga dm pslot))) = rsc pslot /\
  pcore (fst (fst (tofpga dm pslot))) = pcore pslot.
Proof. unfold tofpga. destruct (_ && _); cbn; auto. Qed.

Lemma tofpga_events dm (pslot : SLOT HSRDEV) :
  let tx := pc_tx_pkt (dm_link dm) (pcore pslot)
              (config_request (pcore pslot) (priv pslot)) 5 in
  snd (fst (tofpga dm pslot)) = tx_ret tx /\
  snd (tofpga dm pslot)
  = EvTx tx :: (if (tx_ret tx =? 0) && (ptimer (priv pslot) =? 0)
                then [EvAddTimer 100 (dm_timer dm)] else []) /\
  ptimer (priv (fst (fst (tofpga dm pslot))))
  = if (tx_ret tx =? 0) && (ptimer (priv pslot) =? 0)
    then dm_timer dm else ptimer (priv pslot).
Proof.
  intros tx. unfold tofpga. cbn [count config_request Z.add Pos.add].
  fold tx. destruct (_ && _); cbn; auto.
Qed.

Lemma reply_config_fields (pslot : SLOT HSRDEV) plen s ev :
  cf_slot (reply pslot plen s ev) = pslot /\
  cf_plen (reply pslot plen s ev) = Z.of_nat (String.length s) /\
  cf_buf (reply pslot plen s ev)
  = Some (substring 0 (Z.to_nat (plen - 1)) s) /\
  cf_ev (reply pslot plen s ev) = ev.
Proof. unfold reply, snprintf_text. cbn. auto. Qed.

(** A well-formed [PCSET]: the new configuration is stored, then sent. *)
Lemma userconfig_set_eq dm rscid val (pslot : SLOT HSRDEV) cn plen :
  valid_config (sscanf_config val) ->
  let sc := sscanf_config val in
  let t := tofpga dm
             (set_priv pslot
                (set_config (priv pslot) (baud_code (newbaud sc))
                   (enable_code (newenabled sc)))) in
  userconfig E_BDVAL sscanf_config dm PCSET rscid val pslot cn plen
  = if negb (snd (fst t) =? 0)
    then reply (fst (fst t)) plen E_WRFPGA (snd t)
    else {| cf_slot := fst (fst t); cf_plen := plen; cf_buf := None;
            cf_ev := snd t |}.
Proof.
  intros (Hret & Hen & Hb) sc t. unfold userconfig.
  cbn [ui_cmd_eqb]. fold sc. unfold valid_config in *. fold sc in Hret, Hen, Hb.
  assert (Hok : negb (scan_ret sc =? 2)
                || negb (Ascii.eqb (newenabled sc) "e")
                   && negb (Ascii.eqb (newenabled sc) "d")
                || negb (newbaud sc =? 460800) && negb (newbaud sc =? 230400)
                   && negb (newbaud sc =? 153600)
                   && negb (newbaud sc =? 115200) = false).
  { rewrite Hret.
    destruct Hen as [-> | ->];
      destruct Hb as [-> | [-> | [-> | ->]]]; reflexivity. }
  rewrite Hok. fold (baud_code (newbaud sc)).
  fold (enable_code (newenabled sc)). fold t.
  destruct t as [[s txret] ev]. reflexivity.
Qed.

End HostserialUserconfig.

(** X22. A well-formed [pcset hostserial config] sends one write to the
    configuration register whose data byte holds the baud rate in bits 0
    and 1 (0 for 460800, 1 for 230400, 2 for 153600, 3 for 115200) and
    the enable flag in bit 2, as the register is documented. *)
Theorem hostserial_config_byte :
  forall (E_BDVAL : string -> string)
         (sscanf_config : string -> HostserialCmd.scan_config)
         (dm : daemon) (rscid : nat) (val : string)
         (pslot : SLOT Hostserial.HSRDEV) (cn plen : Z),
  let sc := sscanf_config val in
  let r := HostserialCmd.userconfig E_BDVAL sscanf_config dm PCSET rscid
             val pslot cn plen in
  valid_config sc ->
  exists pkt cfg,
    In (EvTx (pc_tx_pkt (dm_link dm) (pcore pslot) pkt 5))
       (HostserialCmd.cf_ev r) /\
    Z.land (cmd pkt) PC_CMD_OP_MASK = PC_CMD_OP_WRITE /\
    reg pkt = Hostserial.HSR_REG_CONFIG /\ count pkt = 1 /\
    data pkt = [cfg; 0; 0] /\
    Z.land cfg 3 = baud_code (HostserialCmd.newbaud sc) /\
    Z.shiftr cfg 2 = enable_code (HostserialCmd.newenabled sc) /\
    0 <= cfg < 8.
Proof.
  intros E_BDVAL sscanf_config dm rscid val pslot cn plen sc r Hv.
  unfold r. rewrite (userconfig_set_eq E_BDVAL sscanf_config dm rscid val
                       pslot cn plen Hv).
  cbv zeta. fold sc.
  set (s1 := set_priv pslot
               (HostserialCmd.set_config (priv pslot)
                  (baud_code (HostserialCmd.newbaud sc))
                  (enable_code (HostserialCmd.newenabled sc)))).
  destruct (tofpga_events dm s1) as (_ & Hev & _).
  exists (HostserialCmd.config_request (pcore pslot) (priv s1)).
  exists (uint8 (Z.lor (Z.shiftl (enable_code (HostserialCmd.newenabled sc)) 2)
                   (baud_code (HostserialCmd.newbaud sc)))).
  split.
  { destruct (negb _).
    - destruct (reply_config_fields (fst (fst (HostserialCmd.tofpga dm s1)))
                  plen E_WRFPGA (snd (HostserialCmd.tofpga dm s1)))
        as (_ & _ & _ & ->).
      rewrite Hev. now left.
    - cbn [HostserialCmd.cf_ev]. rewrite Hev. now left. }
  split; [reflexivity|]. split; [reflexivity|]. split; [reflexivity|].
  split; [reflexivity|].
  destruct Hv as (_ & Hen & Hb). fold sc in Hen, Hb.
  destruct Hen as [-> | ->]; destruct Hb as [-> | [-> | [-> | ->]]];
    vm_compute; repeat split; discriminate.
Qed.

Lemma hostserial_config_byte_witness :
  exists pkt cfg,
    In (EvTx (pc_tx_pkt (dm_link (daemon_on link_ok))
                (pcore hostserial_quiet) pkt 5))
       (HostserialCmd.cf_ev
          (HostserialCmd.userconfig sample_E_BDVAL sample_sscanf_config
             (daemon_on link_ok) PCSET 0 "153600 e" hostserial_quiet 0
             100)) /\
    Z.land (cmd pkt) PC_CMD_OP_MASK = PC_CMD_OP_WRITE /\
    reg pkt = Hostserial.HSR_REG_CONFIG /\ count pkt = 1 /\
    data pkt = [cfg; 0; 0] /\
    Z.land cfg 3
    = baud_code (HostserialCmd.newbaud (sample_sscanf_config "153600 e")) /\
    Z.shiftr cfg 2
    = enable_code
        (HostserialCmd.newenabled (sample_sscanf_config "153600 e")) /\
    0 <= cfg < 8.
Proof.
  apply (hostserial_config_byte sample_E_BDVAL sample_sscanf_config
           (daemon_on link_ok) 0 "153600 e" hostserial_quiet 0 100).
  unfold valid_config. cbn. repeat split; auto.
Defined.

(** X23. [pcget hostserial config], with a buffer of at least one byte,
    after a well-formed [pcset] names the enable character that was set,
    and the baud rate that was set for 460800, 230400 and 115200; after a
    [pcset] of 153600 it names 115200.  This holds whether or not the
    packet could be sent. *)
Theorem hostserial_set_get :
  forall (E_BDVAL : string -> string)
         (sscanf_config : string -> HostserialCmd.scan_config)
         (dm dm' : daemon) (rscid rscid' : nat) (val val' : string)
         (pslot : SLOT Hostserial.HSRDEV) (cn cn' plen plen' : Z),
  let sc := sscanf_config val in
  let r := HostserialCmd.userconfig E_BDVAL sscanf_config dm PCSET rscid
             val pslot cn plen in
  let g := HostserialCmd.userconfig E_BDVAL sscanf_config dm' PCGET rscid'
             val' (HostserialCmd.cf_slot r) cn' plen' in
  let shown :=
    HostserialCmd.baud_text
      (Hostserial.baud (priv (HostserialCmd.cf_slot r))) in
  valid_config sc ->
  1 <= plen' ->
  HostserialCmd.cf_buf g
  = Some (substring 0 (Z.to_nat (plen' - 1))
            (shown +++ " " +++ String (HostserialCmd.newenabled sc) newline))
  /\ HostserialCmd.cf_plen g = 9
  /\ (HostserialCmd.newbaud sc = 460800 -> shown = "460800"%string)
  /\ (HostserialCmd.newbaud sc = 230400 -> shown = "230400"%string)
  /\ (HostserialCmd.newbaud sc = 153600 -> shown = "115200"%string)
  /\ (HostserialCmd.newbaud sc = 115200 -> shown = "115200"%string).
Proof.
  intros E_BDVAL sscanf_config dm dm' rscid rscid' val val' pslot cn cn'
    plen plen' sc r g shown Hv _.
  set (s1 := set_priv pslot
               (HostserialCmd.set_config (priv pslot)
                  (baud_code (HostserialCmd.newbaud sc))
                  (enable_code (HostserialCmd.newenabled sc)))).
  assert (Hs : HostserialCmd.cf_slot r = fst (fst (HostserialCmd.tofpga dm s1))).
  { unfold r. rewrite (userconfig_set_eq E_BDVAL sscanf_config dm rscid val
                         pslot cn plen Hv).
    cbv zeta. fold sc. fold s1. destruct (negb _); [|reflexivity].
    now destruct (reply_config_fields
                    (fst (fst (HostserialCmd.tofpga dm s1))) plen E_WRFPGA
                    (snd (HostserialCmd.tofpga dm s1))) as (-> & _). }
  destruct (tofpga_state dm s1) as (Hb & He & _).
  assert (Hbaud : Hostserial.baud (priv (HostserialCmd.cf_slot r))
                  = baud_code (HostserialCmd.newbaud sc))
    by (rewrite Hs, Hb; reflexivity).
  assert (Hen : Hostserial.enabled (priv (HostserialCmd.cf_slot r))
                = enable_code (HostserialCmd.newenabled sc))
    by (rewrite Hs, He; reflexivity).
  unfold shown. rewrite Hbaud.
  split; [|split].
  - unfold g, HostserialCmd.userconfig. cbn [ui_cmd_eqb].
    match goal with
    | |- context [HostserialCmd.reply ?s ?p ?t ?e] =>
        destruct (reply_config_fields s p t e) as (_ & _ & -> & _)
    end.
    rewrite Hbaud, Hen. destruct Hv as (_ & [E | E] & _); fold sc in E;
      rewrite E; reflexivity.
  - unfold g, HostserialCmd.userconfig. cbn [ui_cmd_eqb].
    match goal with
    | |- context [HostserialCmd.reply ?s ?p ?t ?e] =>
        destruct (reply_config_fields s p t e) as (_ & -> & _ & _)
    end.
    rewrite Hbaud. destruct Hv as (_ & _ & Hb4). fold sc in Hb4.
    destruct Hb4 as [-> | [-> | [-> | ->]]]; reflexivity.
  - repeat split; intros ->; reflexivity.
Qed.

Lemma hostserial_set_get_witness :
  HostserialCmd.cf_buf
    (HostserialCmd.userconfig sample_E_BDVAL sample_sscanf_config
       (daemon_on link_ok) PCGET 0 ""
       (HostserialCmd.cf_slot
          (HostserialCmd.userconfig sample_E_BDVAL sample_sscanf_config
             (daemon_on link_ok) PCSET 0 "153600 e" hostserial_quiet 0 100))
       0 100)
  = Some (substring 0 (Z.to_nat (100 - 1))
            ("115200" +++ " " +++ String "e"%char newline)).
Proof.
  pose proof (hostserial_set_get sample_E_BDVAL sample_sscanf_config
                (daemon_on link_ok) (daemon_on link_ok) 0%nat 0%nat
                "153600 e" "" hostserial_quiet 0 0 100 100) as H.
  cbv zeta in H.
  destruct H as (Hbuf & _ & _ & _ & H153 & _).
  - unfold valid_config. cbn. repeat split; auto.
  - lia.
  - rewrite Hbuf, (H153 eq_refl). reflexivity.
Defined.

(** X24. When the packet of a well-formed [pcset hostserial config] cannot
    be sent, the user gets [E_WRFPGA] (given a buffer of at least one
    byte) and no watchdog is started, but the new baud rate and enable
    flag stay stored in the driver, which the board never received. *)
Theorem hostserial_failed_send :
  forall (E_BDVAL : string -> string)
         (sscanf_config : string -> HostserialCmd.scan_config)
         (dm : daemon) (rscid : nat) (val : string)
         (pslot : SLOT Hostserial.HSRDEV) (cn plen : Z),
  let sc := sscanf_config val in
  let r := HostserialCmd.userconfig E_BDVAL sscanf_config dm PCSET rscid
             val pslot cn plen in
  let stored :=
    HostserialCmd.set_config (priv pslot)
      (baud_code (HostserialCmd.newbaud sc))
      (enable_code (HostserialCmd.newenabled sc)) in
  valid_config sc ->
  1 <= plen ->
  tx_ret (pc_tx_pkt (dm_link dm) (pcore pslot)
            (HostserialCmd.config_request (pcore pslot) stored) 5) <> 0 ->
  HostserialCmd.cf_buf r
  = Some (substring 0 (Z.to_nat (plen - 1)) E_WRFPGA) /\
  forallb (fun e => negb (is_add_timer e)) (HostserialCmd.cf_ev r) = true /\
  priv (HostserialCmd.cf_slot r) = stored.
Proof.
  intros E_BDVAL sscanf_config dm rscid val pslot cn plen sc r stored
    Hv _ Htx.
  unfold r. rewrite (userconfig_set_eq E_BDVAL sscanf_config dm rscid val
                       pslot cn plen Hv).
  cbv zeta. fold sc. fold stored.
  apply Z.eqb_neq in Htx.
  assert (Ht : HostserialCmd.tofpga dm (set_priv pslot stored)
               = (set_priv pslot stored,
                  tx_ret (pc_tx_pkt (dm_link dm) (pcore pslot)
                            (HostserialCmd.config_request (pcore pslot)
                               stored) 5),
                  [EvTx (pc_tx_pkt (dm_link dm) (pcore pslot)
                           (HostserialCmd.config_request (pcore pslot)
                              stored) 5)])).
  { unfold HostserialCmd.tofpga. cbv zeta.
    cbn [priv pcore set_priv].
    change (4 + count (HostserialCmd.config_request (pcore pslot) stored))
      with 5.
    rewrite Htx. reflexivity. }
  rewrite Ht. cbn [fst snd]. rewrite Htx. cbn [negb].
  unfold HostserialCmd.reply, snprintf_text.
  cbn [HostserialCmd.cf_buf HostserialCmd.cf_ev HostserialCmd.cf_slot
       forallb is_add_timer negb andb priv set_priv].
  repeat split.
Qed.

Lemma hostserial_failed_send_witness :
  HostserialCmd.cf_buf
    (HostserialCmd.userconfig sample_E_BDVAL sample_sscanf_config
       (daemon_on link_closed) PCSET 0 "153600 e" hostserial_quiet 0 100)
  = Some (substring 0 (Z.to_nat (100 - 1)) E_WRFPGA) /\
  forallb (fun e => negb (is_add_timer e))
    (HostserialCmd.cf_ev
       (HostserialCmd.userconfig sample_E_BDVAL sample_sscanf_config
          (daemon_on link_closed) PCSET 0 "153600 e" hostserial_quiet 0
          100)) = true /\
  priv (HostserialCmd.cf_slot
          (HostserialCmd.userconfig sample_E_BDVAL sample_sscanf_config
             (daemon_on link_closed) PCSET 0 "153600 e" hostserial_quiet 0
             100))
  = HostserialCmd.set_config (priv hostserial_quiet)
      (baud_code (HostserialCmd.newbaud (sample_sscanf_config "153600 e")))
      (enable_code
         (HostserialCmd.newenabled (sample_sscanf_config "153600 e"))).
Proof.
  apply (hostserial_failed_send sample_E_BDVAL sample_sscanf_config
           (daemon_on link_closed) 0 "153600 e" hostserial_quiet 0 100).
  - unfold valid_config. cbn. repeat split; auto.
  - lia.
  - vm_compute. discriminate.
Defined.

(** X25. [tofpga] of [hostserial] starts the watchdog only when the packet
    went out and none is pending, and [noAck] only logs: the handle stays
    in [ptimer] after the timer has expired, and from then on no further
    call of [tofpga] starts a watchdog. *)
Theorem hostserial_watchdog_not_rearmed :
  forall (dm dm' : daemon) (pslot : SLOT Hostserial.HSRDEV),
  dm_timer dm <> 0 ->
  Hostserial.ptimer (priv pslot) = 0 ->
  snd (fst (HostserialCmd.tofpga dm pslot)) = 0 ->
  let s1 := fst (fst (HostserialCmd.tofpga dm pslot)) in
  let expired := HostserialCmd.noAck (priv s1) in
  In (EvAddTimer 100 (dm_timer dm)) (snd (HostserialCmd.tofpga dm pslot))
  /\ snd expired = [TmLog E_NOACK]
  /\ Hostserial.ptimer (fst expired) = dm_timer dm
  /\ forallb (fun e => negb (is_add_timer e))
       (snd (HostserialCmd.tofpga dm' (set_priv s1 (fst expired)))) = true.
Proof.
  intros dm dm' pslot Ht Hp Hok s1 expired.
  destruct (tofpga_events dm pslot) as (Hret & Hev & Hpt).
  rewrite Hret in Hok. rewrite Hok, Hp in Hev, Hpt. cbn in Hev, Hpt.
  split; [rewrite Hev; right; now left|].
  split; [reflexivity|].
  split; [exact Hpt|].
  destruct (tofpga_events dm' (set_priv s1 (fst expired))) as (_ & -> & _).
  cbn [priv set_priv expired HostserialCmd.noAck fst].
  unfold s1. rewrite Hpt. apply Z.eqb_neq in Ht. rewrite Ht, andb_false_r.
  reflexivity.
Qed.

Lemma hostserial_watchdog_not_rearmed_witness :
  In (EvAddTimer 100 (dm_timer (daemon_on link_ok)))
    (snd (HostserialCmd.tofpga (daemon_on link_ok) hostserial_quiet))
  /\ snd (HostserialCmd.noAck
            (priv (fst (fst (HostserialCmd.tofpga (daemon_on link_ok)
                               hostserial_quiet)))))
     = [TmLog E_NOACK]
  /\ Hostserial.ptimer
       (fst (HostserialCmd.noAck
               (priv (fst (fst (HostserialCmd.tofpga (daemon_on link_ok)
                                  hostserial_quiet))))))
     = dm_timer (daemon_on link_ok)
  /\ forallb (fun e => negb (is_add_timer e))
       (snd (HostserialCmd.tofpga (daemon_on link_ok)
               (set_priv
                  (fst (fst (HostserialCmd.tofpga (daemon_on link_ok)
                               hostserial_quiet)))
                  (fst (HostserialCmd.noAck
                          (priv (fst (fst (HostserialCmd.tofpga
                                             (daemon_on link_ok)
                                             hostserial_quiet)))))))))
     = true.
Proof.
  apply (hostserial_watchdog_not_rearmed (daemon_on link_ok)
           (daemon_on link_ok) hostserial_quiet).
  - discriminate.
  - reflexivity.
  - vm_compute. reflexivity.
Defined.

(* ================================================================= *)
(** ** [enumerator]: slots for the cores of the driver list *)

Section EnumeratorSlots.

Import Enumerator.

Variables (MX_SLOT : Z) (pkt : PC_PKT).

Lemma slots_from_succ slot n :
  slots_from slot (S n) = slot :: slots_from (slot + 1) n.
Proof.
  unfold slots_from. cbn [seq map]. rewrite Z.add_0_r. f_equal.
  rewrite <- seq_shift, map_map. apply map_ext. intros k. lia.
Qed.


(** When the table runs full at core [c]: the loop ends there. *)
Lemma assign_loop_full : forall before slot c after,
  Z.shiftl (data_at pkt (2 * c)) 8 + data_at pkt (2 * c + 1) <> 0 ->
  slot + Z.of_nat (length (with_driver pkt before)) = MX_SLOT ->
  let ev := assign_loop MX_SLOT pkt (before ++ c :: after) slot in
  assigned ev
  = combine (slots_from slot (length (with_driver pkt before)))
      (with_driver pkt before) /\
  initialised ev = slots_from slot (length (with_driver pkt before)) /\
  stored_cores ev = before ++ [c] /\ logged ev = [c].
Proof.
  induction before as [|i before IH]; intros slot c after Hc Hfull;
    cbn zeta.
  - cbn [app assign_loop with_driver filter length] in *.
    apply Z.eqb_neq in Hc. rewrite Hc.
    assert (He : (slot =? MX_SLOT) = true) by (apply Z.eqb_eq; lia).
    rewrite He. repeat split.
  - cbn [app assign_loop with_driver filter] in *.
    destruct (Z.shiftl (data_at pkt (2 * i)) 8 + data_at pkt (2 * i + 1) =? 0).
    + cbn [negb] in *. fold (with_driver pkt before) in *.
      destruct (IH slot c after Hc Hfull) as (H1 & H2 & H3 & H4).
      cbn [assigned initialised stored_cores logged flat_map app].
      fold (assigned (assign_loop MX_SLOT pkt (before ++ c :: after) slot)).
      fold (initialised (assign_loop MX_SLOT pkt (before ++ c :: after) slot)).
      fold (stored_cores (assign_loop MX_SLOT pkt (before ++ c :: after) slot)).
      fold (logged (assign_loop MX_SLOT pkt (before ++ c :: after) slot)).
      rewrite H1, H2, H3, H4. repeat split.
    + cbn [negb length] in *. fold (with_driver pkt before) in *.
      assert (Hne : (slot =? MX_SLOT) = false) by (apply Z.eqb_neq; lia).
      rewrite Hne.
      destruct (IH (slot + 1) c after Hc) as (H1 & H2 & H3 & H4); [lia|].
      cbn [assigned initialised stored_cores logged flat_map app].
      fold (assigned
              (assign_loop MX_SLOT pkt (before ++ c :: after) (slot + 1))).
      fold (initialised
              (assign_loop MX_SLOT pkt (before ++ c :: after) (slot + 1))).
      fold (stored_cores
              (assign_loop MX_SLOT pkt (before ++ c :: after) (slot + 1))).
      fold (logged
              (assign_loop MX_SLOT pkt (before ++ c :: after) (slot + 1))).
      rewrite H1, H2, H3, H4, slots_from_succ. repeat split.
Qed.

Lemma enumerator_response pctx len :
  not_write_ack pkt -> is_response pkt = true ->
  reg pkt = ENUM_REG_DRIVLIST -> count pkt = 2 * NUM_CORE ->
  packet_hdlr MX_SLOT pctx pkt len
  = ({| ptimer := 0 |},
     EnDelTimer (ptimer pctx)
       :: assign_loop MX_SLOT pkt (seq 0 (Z.to_nat NUM_CORE)) 0).
Proof.
  intros Hw Hr Hreg Hcnt. unfold packet_hdlr.
  rewrite (not_write_ack_eqb pkt Hw), Hr, Hreg, Hcnt. reflexivity.
Qed.

End EnumeratorSlots.



(** X27. When the cores before core [c] take all [MX_SLOT] slots and core
    [c] has a driver too, the enumerator logs that it has no slot for [c]
    and returns: the slots 0 .. [MX_SLOT - 1] have been initialised, and
    the driver IDs of the cores behind [c] are not stored at all. *)
Theorem enumerator_slot_overflow :
  forall (MX_SLOT : Z) (pctx : Enumerator.ENUMDEV) (pkt : PC_PKT) (len : Z)
         (before : list nat) (c : nat) (after : list nat),
  let ev := snd (Enumerator.packet_hdlr MX_SLOT pctx pkt len) in
  not_write_ack pkt -> is_response pkt = true ->
  reg pkt = Enumerator.ENUM_REG_DRIVLIST -> count pkt = 2 * NUM_CORE ->
  seq 0 (Z.to_nat NUM_CORE) = before ++ c :: after ->
  Z.shiftl (data_at pkt (2 * c)) 8 + data_at pkt (2 * c + 1) <> 0 ->
  Z.of_nat (length (Enumerator.with_driver pkt before)) = MX_SLOT ->
  Enumerator.logged ev = [c] /\
  Enumerator.stored_cores ev = before ++ [c] /\
  Enumerator.initialised ev
  = Enumerator.slots_from 0 (Z.to_nat MX_SLOT) /\
  Enumerator.assigned ev
  = combine (Enumerator.slots_from 0 (Z.to_nat MX_SLOT))
      (Enumerator.with_driver pkt before).
Proof.
  intros MX_SLOT pctx pkt len before c after ev Hw Hr Hreg Hcnt Hsplit Hc
    Hfull.
  unfold ev. rewrite (enumerator_response MX_SLOT pkt pctx len Hw Hr Hreg Hcnt).
  cbn [snd]. rewrite Hsplit.
  destruct (assign_loop_full MX_SLOT pkt before 0 c after Hc)
    as (H1 & H2 & H3 & H4); [lia|].
  subst MX_SLOT. rewrite Nat2Z.id. repeat split; assumption.
Qed.

Lemma enumerator_slot_overflow_witness :
  Enumerator.logged
    (snd (Enumerator.packet_hdlr 2 {| Enumerator.ptimer := 77 |}
            three_drivers_reply 38)) = [2%nat] /\
  Enumerator.stored_cores
    (snd (Enumerator.packet_hdlr 2 {| Enumerator.ptimer := 77 |}
            three_drivers_reply 38)) = [0%nat; 1%nat] ++ [2%nat] /\
  Enumerator.initialised
    (snd (Enumerator.packet_hdlr 2 {| Enumerator.ptimer := 77 |}
            three_drivers_reply 38))
  = Enumerator.slots_from 0 (Z.to_nat 2) /\
  Enumerator.assigned
    (snd (Enumerator.packet_hdlr 2 {| Enumerator.ptimer := 77 |}
            three_drivers_reply 38))
  = combine (Enumerator.slots_from 0 (Z.to_nat 2))
      (Enumerator.with_driver three_drivers_reply [0%nat; 1%nat]).
Proof.
  apply (enumerator_slot_overflow 2 {| Enumerator.ptimer := 77 |}
           three_drivers_reply 38 [0%nat; 1%nat] 2%nat
           (seq 3 13)).
  - unfold not_write_ack. vm_compute. discriminate.
  - reflexivity.
  - reflexivity.
  - reflexivity.
  - reflexivity.
  - vm_compute. discriminate.
  - reflexivity.
Defined.

(* ================================================================= *)
(** ** [enumerator]: the name of the driver file *)

Lemma find_peri_none tbl id :
  ~ In id (map snd tbl) -> Enumerator.find_peri tbl id = None.
Proof.
  induction tbl as [|[name d] tbl IH]; intros H; cbn; [reflexivity|].
  cbn in H. destruct (d =? id) eqn:E.
  - apply Z.eqb_eq in E. tauto.
  - cbn. apply IH. tauto.
Qed.

(** X28. For a slot whose [soname] is empty or is "enumerator.so",
    [getSoName] gives every driver ID of the table [pdesc] the file name of
    its entry, the peripheral name followed by ".so" (with a [soname] of 12
    bytes or more nothing is cut), and no two IDs the same entry; for an ID
    outside 1 .. 46 it leaves [soname] as it is and logs the missing
    driver. *)
Theorem getSoName_lookup :
  forall (MX_SONAME : nat) (soname : string) (driv_id : Z),
  soname = EmptyString \/ soname = "enumerator.so"%string ->
  (12 <= MX_SONAME)%nat ->
  (forall periname,
     In (periname, driv_id) Enumerator.pdesc ->
     Enumerator.getSoName MX_SONAME soname driv_id
     = (periname +++ ".so", false)) /\
  (driv_id < 1 \/ 46 < driv_id ->
   Enumerator.getSoName MX_SONAME soname driv_id = (soname, true)).
Proof.
  intros MX_SONAME soname driv_id Hso Hmx.
  assert (Hpass : negb (String.eqb soname EmptyString)
                  && negb (String.eqb (substring 0 MX_SONAME soname)
                             (substring 0 MX_SONAME "enumerator.so"))
                  = false).
  { destruct Hso as [-> | ->]; [reflexivity|].
    now rewrite String.eqb_refl, andb_false_r. }
  unfold Enumerator.getSoName. rewrite Hpass. split.
  - intros periname Hin. cbn in Hin.
    repeat (destruct Hin as [Hin|Hin];
            [inversion Hin; subst periname driv_id;
             cbn [Enumerator.find_peri Enumerator.pdesc Z.eqb Pos.eqb negb];
             unfold snprintf_text; cbn [fst];
             rewrite substring_0_all by (cbn; lia); reflexivity|]).
    destruct Hin.
  - intros Hout. rewrite find_peri_none; [reflexivity|].
    cbn. intros H.
    repeat (destruct H as [H|H]; [lia|]). exact H.
Qed.

Lemma getSoName_lookup_witness :
  (forall periname,
     In (periname, 24) Enumerator.pdesc ->
     Enumerator.getSoName 32 "enumerator.so" 24
     = (periname +++ ".so", false)) /\
  (24 < 1 \/ 46 < 24 ->
   Enumerator.getSoName 32 "enumerator.so" 24
   = ("enumerator.so"%string, true)).
Proof.
  apply (getSoName_lookup 32 "enumerator.so" 24).
  - right. reflexivity.
  - lia.
Defined.

(** X29. [pcget enumerator drivlist] on a [Core] table of sixteen entries:
    with a buffer of fewer than [5 * NUM_CORE + 10] bytes it answers
    nothing at all; else it answers eighty characters, the sixteen driver
    IDs as four hex digits each, in the order of the cores, separated by
    blanks and ended by a newline.  Before the enumeration every ID is
    printed as 0000. *)
Theorem enumerator_drivlist_text :
  forall (Core : list CORE) (plen : Z),
  length Core = 16%nat ->
  (plen < 5 * NUM_CORE + 10 ->
   Enumerator.usercmd Core PCGET Enumerator.RSC_DRIVLIST plen = (0, None)) /\
  (5 * NUM_CORE + 10 <= plen ->
   Enumerator.usercmd Core PCGET Enumerator.RSC_DRIVLIST plen
   = (80, Some (String.concat " " (map (fun c => hex 4 (driv_id c)) Core)
                +++ newline))) /\
  map (fun c => hex 4 (driv_id c)) globalinit_Core
  = repeat "0000"%string 16.
Proof.
  intros Core plen Hl. unfold Enumerator.usercmd.
  cbn [ui_cmd_eqb Enumerator.RSC_DRIVLIST Nat.eqb andb].
  split; [|split].
  - intros H. unfold get_drivlist. apply Z.ltb_lt in H. now rewrite H.
  - intros H. rewrite get_drivlist_line; [|now rewrite length_map|exact H].
    now rewrite map_map.
  - vm_compute. reflexivity.
Qed.

Lemma enumerator_drivlist_text_witness :
  (100 < 5 * NUM_CORE + 10 ->
   Enumerator.usercmd globalinit_Core PCGET Enumerator.RSC_DRIVLIST 100
   = (0, None)) /\
  (5 * NUM_CORE + 10 <= 100 ->
   Enumerator.usercmd globalinit_Core PCGET Enumerator.RSC_DRIVLIST 100
   = (80, Some (String.concat " "
                  (map (fun c => hex 4 (driv_id c)) globalinit_Core)
                +++ newline))) /\
  map (fun c => hex 4 (driv_id c)) globalinit_Core
  = repeat "0000"%string 16.
Proof.
  apply (enumerator_drivlist_text globalinit_Core 100).
  reflexivity.
Defined.

(* ================================================================= *)
(** ** A packet too long for [pctoslip] *)

(** X30. For a length above [PC_PKTLEN], [pctoslip] builds no frame and
    returns 0; [pc_tx_pkt] then calls [write] with a count of 0 and, when
    that returns 0, reports success: the caller is told the packet went
    out although no byte was written. *)
Theorem oversize_packet_reported_sent :
  forall (lk : link) (pcore : CORE) (inpkt : PC_PKT) (len : Z),
  Z.of_nat PC_PKTLEN < len ->
  fpgaFD lk <> -1 ->
  sntcount (sys_write lk []) = 0 ->
  tx_ret (pc_tx_pkt lk pcore inpkt len) = 0 /\
  written (tx_ev (pc_tx_pkt lk pcore inpkt len)) = [[]].
Proof.
  intros lk pcore inpkt len Hlen Hfd Hw.
  assert (H4 : (len <? 4) = false)
    by (apply Z.ltb_ge; unfold PC_PKTLEN in Hlen; lia).
  assert (Hbig : (PC_PKTLEN <? Z.to_nat len)%nat = true)
    by (apply Nat.ltb_lt; lia).
  apply Z.eqb_neq in Hfd.
  unfold pc_tx_pkt. rewrite H4, Hfd. unfold pctoslip. rewrite Hbig.
  cbn [so_slppkt so_pcpkt pctoslip_ret length Z.of_nat]. rewrite Hw.
  cbn [Z.eqb negb tx_ret tx_ev]. split; [reflexivity|].
  destruct (trace lk); reflexivity.
Qed.

Lemma oversize_packet_reported_sent_witness :
  tx_ret (pc_tx_pkt
            {| fpgaFD := 3; trace := false;
               sys_write := fun f => {| sntcount := Z.of_nat (length f);
                                        wr_errno := 0 |} |}
            core1 sample_write 600) = 0 /\
  written (tx_ev (pc_tx_pkt
                    {| fpgaFD := 3; trace := false;
                       sys_write := fun f =>
                         {| sntcount := Z.of_nat (length f);
                            wr_errno := 0 |} |}
                    core1 sample_write 600)) = [[]].
Proof.
  apply (oversize_packet_reported_sent
           {| fpgaFD := 3; trace := false;
              sys_write := fun f => {| sntcount := Z.of_nat (length f);
                                       wr_errno := 0 |} |}
           core1 sample_write 600).
  - unfold PC_PKTLEN. lia.
  - discriminate.
  - reflexivity.
Defined.
